(** * CloudPix server: the share-link subsystem

    A shallow embedding of the share-link ("capability") code of the
    CloudPix backend:

    - [models/ShareLink.ts], [models/File.ts]          (records)
    - [repos/CosmosShareLinkRepo.ts], [repos/CosmosFileRepo.ts]
    - [services/azure/BlobService.ts]
    - [services/ShareLinkService.ts], [services/FileService.ts]
    - [routes/ShareRoutes.ts], [routes/FileRoutes.ts]
    - [middleware/upload.ts], [middleware/auth.ts], [utils/jwt.ts]
    - [server.ts] (the error handler), [services/azure/CosmosService.ts]
      (the configuration)

    Modelling conventions.

    - A JavaScript [Date] is its [getTime()] value: integer milliseconds
      since the epoch, in [Z].  Calendar arithmetic ([setDate], [setHours])
      is taken in UTC, where one day is 86400000 ms and one hour 3600000 ms.
      [setDate] in [calculateExpiryDate], whose argument comes unchecked
      from the request, clips its result ([Js.timeClip]): beyond 8.64e15 ms
      from the epoch the [Date] is an Invalid Date, which [JSON.stringify]
      writes as [null].
    - [createShareLink] reads the clock in [calculateExpiryDate], then in
      [calculateTTL], then while it builds the document; the three readings
      are [nowExpiry], [nowTTL] and [now].  Every other operation reads the
      clock at [now].
    - A JavaScript number that can be [NaN] is an [option Z], [None] being
      [NaN]; request numbers are integers.
    - A Cosmos DB container is the list of its documents, in query order.
      The item addressed by [container.item(cosmosId, key)], where [cosmosId]
      is read off the first result of the query by key, is the first document
      of the list with that key.
    - Every asynchronous function is a state transformer over [World] that
      either returns a value or throws an [Error] with a message.
    - What the program does not decide (the clock, [uuidv4()], the outcome of
      calls to Cosmos DB and to the Azure storage SDK) is read off an [Env].
    - Telemetry ([trackEvent], [trackException]) and logging swallow their
      own failures and do not touch the state; they are left out. *)

From Stdlib Require Import ZArith List String Ascii Bool Lia DecimalString.
Import ListNotations.
Open Scope string_scope.
Open Scope Z_scope.

(** ** JavaScript string and array helpers used by the code *)

Module Js.

(** [hay.includes(needle)] *)
Fixpoint includes (needle hay : string) : bool :=
  String.prefix needle hay
  || match hay with
     | EmptyString => false
     | String _ rest => includes needle rest
     end.

(** [s.split(sep)] for a one-character separator. *)
Fixpoint split (sep : ascii) (s : string) : list string :=
  match s with
  | EmptyString => [EmptyString]
  | String c rest =>
      if Ascii.eqb c sep then EmptyString :: split sep rest
      else match split sep rest with
           | [] => [String c EmptyString]
           | hd :: tl => String c hd :: tl
           end
  end.

(** [parts.join(sep)] *)
Definition join (sep : string) (parts : list string) : string :=
  String.concat sep parts.

(** [arr.findIndex(p)], [-1] when no element satisfies [p]. *)
Fixpoint findIndex {A : Type} (p : A -> bool) (arr : list A) : Z :=
  match arr with
  | [] => -1
  | x :: rest =>
      if p x then 0
      else let i := findIndex p rest in
           if i <? 0 then -1 else i + 1
  end.

(** [arr.slice(start)]: a negative [start] counts from the end. *)
Definition slice {A : Type} (start : Z) (arr : list A) : list A :=
  let len := Z.of_nat (List.length arr) in
  let from := if start <? 0 then Z.max (len + start) 0 else Z.min start len in
  skipn (Z.to_nat from) arr.

(** [arr[0]] of a list of strings; [undefined] does not arise for the
    result of [split], which is never empty. *)
Definition head (arr : list string) : string :=
  match arr with
  | [] => EmptyString
  | s :: _ => s
  end.

(** [s || fallback] on strings: the empty string is falsy. *)
Definition orString (s fallback : string) : string :=
  match s with
  | EmptyString => fallback
  | _ => s
  end.

(** [n || 0] on numbers: only [0] is falsy among the integers. *)
Definition orZero (n : Z) : Z := if n =? 0 then 0 else n.

(** [s.startsWith(prefix)] *)
Definition startsWith (prefix s : string) : bool := String.prefix prefix s.

(** [arr[1]] of a list of strings, where the code has made sure of a
    second element. *)
Definition second (arr : list string) : string :=
  match arr with
  | _ :: s :: _ => s
  | _ => EmptyString
  end.

(** White space and line terminators among the code units below 256:
    TAB, LF, VT, FF, CR, SP and NBSP.  A string stands for the sequence of
    its code units, each below 256. *)
Definition isWhiteSpace (c : ascii) : bool :=
  Ascii.eqb c "009" || Ascii.eqb c "010" || Ascii.eqb c "011"
  || Ascii.eqb c "012" || Ascii.eqb c "013" || Ascii.eqb c " "
  || Ascii.eqb c "160".

Fixpoint trimStart (s : string) : string :=
  match s with
  | EmptyString => EmptyString
  | String c rest => if isWhiteSpace c then trimStart rest else s
  end.

Fixpoint trimEnd (s : string) : string :=
  match s with
  | EmptyString => EmptyString
  | String c rest =>
      match trimEnd rest with
      | EmptyString => if isWhiteSpace c then EmptyString
                       else String c EmptyString
      | kept => String c kept
      end
  end.

(** [s.trim()] *)
Definition trim (s : string) : string := trimEnd (trimStart s).

(** [String(n)] of an integer. *)
(** [TimeClip]: a time value further than 8.64e15 ms from the epoch is
    [NaN], the time value of an Invalid Date. *)
Definition maxTime : Z := 8640000000000000.

Definition timeClip (t : Z) : option Z :=
  if Z.abs t <=? maxTime then Some t else None.

Definition numberToString (n : Z) : string :=
  NilZero.string_of_int (Z.to_int n).

End Js.

(** ** Models *)

Module ShareLink.

(** [IShareLink], as a document of the container.  [expiryDate] is declared
    a [Date] and [createShareLink] always writes the field: as a time, or as
    [null] when the [Date] it was given is an Invalid Date.  [None] is that
    [null], which [isShareLinkValid] finds falsy and [new Date(null)] reads
    as the epoch.  [ttl?: number] is optional. *)
Record IShareLink : Type := {
  linkId : string;
  fileId : string;
  userId : string;
  expiryDate : option Z;
  accessCount : Z;
  createdDate : Z;
  isRevoked : bool;
  ttl : option Z
}.

End ShareLink.

Module File.

Inductive Status : Type := active | deleted.

Definition status_eqb (a b : Status) : bool :=
  match a, b with
  | active, active | deleted, deleted => true
  | _, _ => false
  end.

Record IFile : Type := {
  fileId : string;
  userId : string;
  fileName : string;
  blobUrl : string;
  fileSize : Z;
  contentType : string;
  uploadDate : Z;
  status : Status
}.

End File.

Import ShareLink.

(** ** The world outside the program *)

(** Outcome of a call to a store: it answers, it rejects with an error
    whose [code] is 404, or it rejects with another error. *)
Inductive Fault : Type := NoFault | Code404 | OtherError.

Record Env : Type := {
  (** [new Date().getTime()] while the operation runs *)
  now : Z;
  (** [new Date().getTime()] in [calculateExpiryDate] and, after it, in
      [calculateTTL], both called by [createShareLink] before it builds the
      document at [now] *)
  nowExpiry : Z;
  nowTTL : Z;
  (** [uuidv4()] *)
  uuidv4 : string;
  (** queries on the ShareLinks and on the Files container *)
  queryLinks : Fault;
  queryFiles : Fault;
  (** [container.items.create] on ShareLinks rejects *)
  createThrows : bool;
  (** [container.item(id, linkId).replace] rejects, per [linkId] *)
  replaceThrows : string -> bool;
  (** [container.item(id, linkId).delete] rejects, per [linkId] *)
  deleteThrows : string -> bool;
  (** [container.item(id, fileId).delete] on Files *)
  deleteFileItem : Fault;
  (** [blobClient.delete()] rejects, per blob name *)
  deleteBlobThrows : string -> bool;
  (** storage account and container of the connection string *)
  accountName : string;
  containerName : string;
  (** [generateBlobSASQueryParameters({blobName, permissions: 'r',
      expiresOn}, credential).toString()]; [None] when the configuration
      is missing or the SDK throws.  The second argument is [expiresOn],
      [None] for an invalid date. *)
  sasToken : string -> option Z -> option string
}.

Record World : Type := {
  shareLinks : list IShareLink;
  files : list File.IFile;
  blobs : list string
}.

(** Outcomes of the calls the file operations add to those of [Env]. *)
Record Infra : Type := {
  (** [container.items.create] on Files rejects *)
  createFileThrows : bool;
  (** [container.item(id, fileId).replace] on Files rejects, per [fileId] *)
  replaceFileThrows : string -> bool;
  (** [blobClient.upload] rejects, per blob name *)
  uploadThrows : string -> bool
}.

(** The variables of [process.env] the code reads; [None] when unset. *)
Record ProcessEnv : Type := {
  FRONTEND_URL : option string;
  AZURE_COSMOS_CONNECTION_STRING : option string;
  COSMOS_DB_ENDPOINT : option string;
  COSMOS_DB_KEY : option string;
  COSMOS_DB_NAME : option string
}.

(** ** State and exceptions *)

Inductive result (A : Type) : Type :=
| Ok (value : A)
| Throw (message : string).
Arguments Ok {A} value.
Arguments Throw {A} message.

Definition M (A : Type) : Type := World -> result A * World.

Definition ret {A : Type} (a : A) : M A := fun w => (Ok a, w).

Definition throw {A : Type} (message : string) : M A :=
  fun w => (Throw message, w).

Definition bind {A B : Type} (m : M A) (k : A -> M B) : M B :=
  fun w =>
    match m w with
    | (Ok a, w') => k a w'
    | (Throw message, w') => (Throw message, w')
    end.

(** [try { m } catch { throw new Error(message) }] *)
Definition rethrowAs {A : Type} (message : string) (m : M A) : M A :=
  fun w =>
    match m w with
    | (Ok a, w') => (Ok a, w')
    | (Throw _, w') => (Throw message, w')
    end.

(** [try { m } catch { }] *)
Definition swallow (m : M unit) : M unit :=
  fun w =>
    match m w with
    | (Ok a, w') => (Ok a, w')
    | (Throw _, w') => (Ok tt, w')
    end.

Declare Scope js_scope.
Delimit Scope js_scope with js.
Notation "x <- m ;; k" := (bind m (fun x => k))
  (at level 100, m at next level, right associativity) : js_scope.
Notation "m ;;; k" := (bind m (fun _ => k))
  (at level 100, right associativity) : js_scope.
Open Scope js_scope.

(** ** repos/CosmosShareLinkRepo.ts *)

Module ShareLinkRepo.

(** The first document of the container whose [linkId] is [id] is replaced
    by [doc] ([container.item(cosmosId, id).replace(doc)]). *)
Fixpoint replaceItem (id : string) (doc : IShareLink)
    (docs : list IShareLink) : list IShareLink :=
  match docs with
  | [] => []
  | d :: rest =>
      if String.eqb (linkId d) id then doc :: rest
      else d :: replaceItem id doc rest
  end.

(** The first document of the container whose [linkId] is [id] is removed
    ([container.item(cosmosId, id).delete()]). *)
Fixpoint deleteItem (id : string) (docs : list IShareLink)
    : list IShareLink :=
  match docs with
  | [] => []
  | d :: rest =>
      if String.eqb (linkId d) id then rest
      else d :: deleteItem id rest
  end.

Definition setShareLinks (docs : list IShareLink) (w : World) : World :=
  {| shareLinks := docs; files := files w; blobs := blobs w |}.

Definition createShareLink (env : Env) (shareLink : IShareLink)
    : M IShareLink :=
  fun w =>
    if createThrows env then (Throw "Failed to create share link", w)
    else (Ok shareLink, setShareLinks (shareLinks w ++ [shareLink]) w).

(** [SELECT * FROM c WHERE c.linkId = @linkId], first result or [null]. *)
Definition getShareLinkById (env : Env) (id : string)
    : M (option IShareLink) :=
  fun w =>
    match queryLinks env with
    | NoFault =>
        (Ok (find (fun c => String.eqb (linkId c) id) (shareLinks w)), w)
    | Code404 => (Ok None, w)
    | OtherError => (Throw "Failed to get share link", w)
    end.

(** [SELECT * FROM c WHERE c.fileId = @fileId AND c.isRevoked = false] *)
Definition getShareLinksByFileId (env : Env) (fid : string)
    : M (list IShareLink) :=
  fun w =>
    match queryLinks env with
    | NoFault =>
        (Ok (filter (fun c => String.eqb (fileId c) fid
                              && Bool.eqb (isRevoked c) false)
                    (shareLinks w)), w)
    | _ => (Throw "Failed to get share links for file", w)
    end.

(** [SELECT * FROM c WHERE c.userId = @userId] *)
Definition getShareLinksByUserId (env : Env) (uid : string)
    : M (list IShareLink) :=
  fun w =>
    match queryLinks env with
    | NoFault =>
        (Ok (filter (fun c => String.eqb (userId c) uid) (shareLinks w)), w)
    | _ => (Throw "Failed to get share links for user", w)
    end.

(** [container.item(cosmosId, linkId).replace(shareLink)].  The message of
    the SDK's error is not ours to know; every caller catches it and throws
    its own. *)
Definition replace (env : Env) (shareLink : IShareLink) : M IShareLink :=
  fun w =>
    if replaceThrows env (linkId shareLink)
    then (Throw "Cosmos DB: replace rejected", w)
    else (Ok shareLink,
          setShareLinks
            (replaceItem (linkId shareLink) shareLink (shareLinks w)) w).

Definition updateShareLink (env : Env) (shareLink : IShareLink)
    : M IShareLink :=
  rethrowAs "Failed to update share link"
    (existingLink <- getShareLinkById env (linkId shareLink) ;;
     match existingLink with
     | None => throw "Share link not found"
     | Some _ => replace env shareLink
     end).

Definition setRevoked (shareLink : IShareLink) : IShareLink :=
  {| linkId := linkId shareLink;
     fileId := fileId shareLink;
     userId := userId shareLink;
     expiryDate := expiryDate shareLink;
     accessCount := accessCount shareLink;
     createdDate := createdDate shareLink;
     isRevoked := true;
     ttl := ttl shareLink |}.

Definition setAccessCount (n : Z) (shareLink : IShareLink) : IShareLink :=
  {| linkId := linkId shareLink;
     fileId := fileId shareLink;
     userId := userId shareLink;
     expiryDate := expiryDate shareLink;
     accessCount := n;
     createdDate := createdDate shareLink;
     isRevoked := isRevoked shareLink;
     ttl := ttl shareLink |}.

Definition revokeShareLink (env : Env) (id : string) : M unit :=
  rethrowAs "Failed to revoke share link"
    (shareLink <- getShareLinkById env id ;;
     match shareLink with
     | None => throw "Share link not found"
     | Some shareLink =>
         updateShareLink env (setRevoked shareLink) ;;; ret tt
     end).

Definition incrementAccessCount (env : Env) (id : string) : M unit :=
  rethrowAs "Failed to increment access count"
    (shareLink <- getShareLinkById env id ;;
     match shareLink with
     | None => throw "Share link not found"
     | Some shareLink =>
         updateShareLink env
           (setAccessCount (Js.orZero (accessCount shareLink) + 1) shareLink)
         ;;; ret tt
     end).

(** [container.item(cosmosId, linkId).delete()] *)
Definition delete (env : Env) (id : string) : M unit :=
  fun w =>
    if deleteThrows env id then (Throw "Cosmos DB: delete rejected", w)
    else (Ok tt, setShareLinks (deleteItem id (shareLinks w)) w).

(** The body of [for (const link of shareLinks)]. *)
Fixpoint deleteEach (env : Env) (links : list IShareLink) : M unit :=
  match links with
  | [] => ret tt
  | link :: rest =>
      existingLink <- getShareLinkById env (linkId link) ;;
      match existingLink with
      | Some _ => delete env (linkId link) ;;; deleteEach env rest
      | None => deleteEach env rest
      end
  end.

Definition deleteShareLinksByFileId (env : Env) (fid : string) : M unit :=
  rethrowAs "Failed to delete share links for file"
    (links <- getShareLinksByFileId env fid ;;
     deleteEach env links).

(** [new Date(shareLink.expiryDate) < new Date()] is read at the instant
    [now]. *)
Definition isShareLinkValid (shareLink : IShareLink) (now : Z) : bool :=
  if isRevoked shareLink then false
  else match expiryDate shareLink with
       | Some expiry => if expiry <? now then false else true
       | None => true
       end.

End ShareLinkRepo.

(** ** repos/CosmosFileRepo.ts *)

Module FileRepo.

Fixpoint deleteItem (id : string) (docs : list File.IFile)
    : list File.IFile :=
  match docs with
  | [] => []
  | d :: rest =>
      if String.eqb (File.fileId d) id then rest
      else d :: deleteItem id rest
  end.

Definition setFiles (docs : list File.IFile) (w : World) : World :=
  {| shareLinks := shareLinks w; files := docs; blobs := blobs w |}.

(** [SELECT * FROM c WHERE c.fileId = @fileId], first result or [null]. *)
Definition getFileById (env : Env) (id : string) : M (option File.IFile) :=
  fun w =>
    match queryFiles env with
    | NoFault =>
        (Ok (find (fun c => String.eqb (File.fileId c) id) (files w)), w)
    | Code404 => (Ok None, w)
    | OtherError => (Throw "Failed to get file", w)
    end.

(** The [catch] of [hardDeleteFile] rethrows unless [error.code] is 404;
    the error of a failed [getFileById] carries no code. *)
Definition hardDeleteFile (env : Env) (id : string) : M unit :=
  fun w =>
    match getFileById env id w with
    | (Throw _, w') => (Throw "Failed to hard delete file", w')
    | (Ok None, w') => (Ok tt, w')
    | (Ok (Some _), w') =>
        match deleteFileItem env with
        | NoFault => (Ok tt, setFiles (deleteItem id (files w')) w')
        | Code404 => (Ok tt, w')
        | OtherError => (Throw "Failed to hard delete file", w')
        end
    end.

Fixpoint replaceItem (id : string) (doc : File.IFile)
    (docs : list File.IFile) : list File.IFile :=
  match docs with
  | [] => []
  | d :: rest =>
      if String.eqb (File.fileId d) id then doc :: rest
      else d :: replaceItem id doc rest
  end.

Definition createFile (infra : Infra) (file : File.IFile) : M File.IFile :=
  fun w =>
    if createFileThrows infra then (Throw "Failed to create file", w)
    else (Ok file, setFiles (files w ++ [file]) w).

(** [SELECT * FROM c WHERE c.userId = @userId AND c.status = 'active'] *)
Definition getFilesByUserId (env : Env) (uid : string)
    : M (list File.IFile) :=
  fun w =>
    match queryFiles env with
    | NoFault =>
        (Ok (filter (fun c => String.eqb (File.userId c) uid
                              && File.status_eqb (File.status c) File.active)
                    (files w)), w)
    | _ => (Throw "Failed to get user files", w)
    end.

(** [container.item(cosmosId, file.fileId).replace(file)] *)
Definition replace (infra : Infra) (file : File.IFile) : M File.IFile :=
  fun w =>
    if replaceFileThrows infra (File.fileId file)
    then (Throw "Cosmos DB: replace rejected", w)
    else (Ok file,
          setFiles (replaceItem (File.fileId file) file (files w)) w).

Definition updateFile (env : Env) (infra : Infra) (file : File.IFile)
    : M File.IFile :=
  rethrowAs "Failed to update file"
    (existingFile <- getFileById env (File.fileId file) ;;
     match existingFile with
     | None => throw "File not found for update"
     | Some _ => replace infra file
     end).

Definition setStatus (st : File.Status) (file : File.IFile) : File.IFile :=
  {| File.fileId := File.fileId file;
     File.userId := File.userId file;
     File.fileName := File.fileName file;
     File.blobUrl := File.blobUrl file;
     File.fileSize := File.fileSize file;
     File.contentType := File.contentType file;
     File.uploadDate := File.uploadDate file;
     File.status := st |}.

(** Soft delete: the status of the document becomes ['deleted']. *)
Definition deleteFile (env : Env) (infra : Infra) (id : string) : M unit :=
  rethrowAs "Failed to delete file"
    (file <- getFileById env id ;;
     match file with
     | None => throw "File not found"
     | Some file => updateFile env infra (setStatus File.deleted file) ;;; ret tt
     end).

End FileRepo.

(** ** services/azure/BlobService.ts *)

Module BlobService.

Definition msPerHour : Z := 1000 * 60 * 60.

(** [expiresOn.setHours(expiresOn.getHours() + expiresInHours)]; a [NaN]
    number of hours gives an invalid date. *)
Definition expiresOn (env : Env) (expiresInHours : option Z) : option Z :=
  match expiresInHours with
  | Some h => Some (now env + h * msPerHour)
  | None => None
  end.

(** [https://${accountName}.blob.core.windows.net/${containerName}/${blobName}] *)
Definition blobUrlOf (env : Env) (blobName : string) : string :=
  "https://" ++ accountName env ++ ".blob.core.windows.net/"
  ++ containerName env ++ "/" ++ blobName.

Definition generateBlobSASUrl (env : Env) (blobName : string)
    (expiresInHours : option Z) : M string :=
  match sasToken env blobName (expiresOn env expiresInHours) with
  | Some token =>
      let blobUrl := blobUrlOf env blobName in
      ret (blobUrl ++ "?" ++ token)
  | None => throw "Failed to generate blob access URL"
  end.

Definition getBlobUrl (env : Env) (blobName : string)
    (expiresInHours : option Z) : M string :=
  generateBlobSASUrl env blobName expiresInHours.

Definition deleteBlob (env : Env) (blobName : string) : M unit :=
  fun w =>
    if deleteBlobThrows env blobName
    then (Throw ("Failed to delete blob '" ++ blobName ++ "'"), w)
    else (Ok tt,
          {| shareLinks := shareLinks w;
             files := files w;
             blobs := filter (fun b => negb (String.eqb b blobName))
                             (blobs w) |}).

(** [blobClient.upload(content, content.length, ...)]: the blob of that
    name is written, replacing an older one. *)
Definition upload (infra : Infra) (blobName : string) : M unit :=
  fun w =>
    if uploadThrows infra blobName
    then (Throw "Azure Storage: upload rejected", w)
    else (Ok tt,
          {| shareLinks := shareLinks w;
             files := files w;
             blobs := blobName
                      :: filter (fun b => negb (String.eqb b blobName))
                                (blobs w) |}).

(** The URL returned carries a SAS token valid for [24 * 365] hours. *)
Definition uploadBlob (env : Env) (infra : Infra) (blobName : string)
    : M string :=
  rethrowAs ("Failed to upload blob '" ++ blobName ++ "'")
    (upload infra blobName ;;;
     generateBlobSASUrl env blobName (Some (24 * 365))).

End BlobService.

(** ** services/ShareLinkService.ts *)

Module CreateShareLinkData.

Record t : Type := {
  fileId : string;
  userId : string;
  expirationDays : option Z
}.

End CreateShareLinkData.

Module ShareLinkService.

Definition msPerDay : Z := 86400000.

(** [!expirationDays] holds for [undefined] and for [0].  The value is
    [undefined] ([None]) or a [Date], whose time value is [None] when
    [setDate] has made it an Invalid Date. *)
Definition calculateExpiryDate (env : Env) (expirationDays : option Z)
    : option (option Z) :=
  match expirationDays with
  | None => None
  | Some d =>
      if d =? 0 then None
      else Some (Js.timeClip (nowExpiry env + d * msPerDay))
  end.

(** An Invalid Date is truthy; its [getTime()] is [NaN], and so is
    [diffInSeconds], which is not [> 0]. *)
Definition calculateTTL (env : Env) (expiryDate : option (option Z))
    : option Z :=
  match expiryDate with
  | None => None
  | Some None => None
  | Some (Some expiry) =>
      let diffInSeconds := (expiry - nowTTL env) / 1000 in
      if diffInSeconds >? 0 then Some diffInSeconds else None
  end.

Definition createShareLink (env : Env) (data : CreateShareLinkData.t)
    : M IShareLink :=
  file <- FileRepo.getFileById env (CreateShareLinkData.fileId data) ;;
  match file with
  | None => throw "File not found"
  | Some file =>
      if negb (String.eqb (File.userId file)
                          (CreateShareLinkData.userId data))
      then throw "Unauthorized access to file"
      else if negb (File.status_eqb (File.status file) File.active)
      then throw "Cannot share deleted file"
      else
        let expiryDate :=
          calculateExpiryDate env (CreateShareLinkData.expirationDays data) in
        let ttl := calculateTTL env expiryDate in
        ShareLinkRepo.createShareLink env
          {| linkId := uuidv4 env;
             fileId := CreateShareLinkData.fileId data;
             userId := CreateShareLinkData.userId data;
             expiryDate := match expiryDate with
                           | Some date => date
                           | None => Some (now env)
                           end;
             accessCount := 0;
             createdDate := now env;
             isRevoked := false;
             ttl := ttl |}
  end.

(** The value [getFileByShareLink] resolves to. *)
Record Resolved : Type := {
  file : File.IFile;
  shareLink : IShareLink;
  downloadUrl : string
}.

(** The blob name is cut out of the stored [blobUrl]. *)
Definition blobNameOf (blobUrl : string) : string :=
  let urlWithoutQuery := Js.head (Js.split "?" blobUrl) in
  let blobUrlParts := Js.split "/" urlWithoutQuery in
  let containerIndex :=
    Js.findIndex (fun part => Js.includes ".blob.core.windows.net" part)
                 blobUrlParts in
  Js.join "/" (Js.slice (containerIndex + 2) blobUrlParts).

(** [Math.max(1, Math.floor((expiryDate - now) / (1000 * 60 * 60)))],
    where [expiryDate] is [new Date(shareLink.expiryDate)]: the stored time,
    or the epoch for a stored [null]. *)
Definition hoursUntilExpiry (shareLink : IShareLink) (now : Z) : option Z :=
  match expiryDate shareLink with
  | Some expiry => Some (Z.max 1 ((expiry - now) / (1000 * 60 * 60)))
  | None => Some (Z.max 1 ((0 - now) / (1000 * 60 * 60)))
  end.

(** [Math.min(hoursUntilExpiry, 24)] *)
Definition sasExpirationHours (shareLink : IShareLink) (now : Z)
    : option Z :=
  match hoursUntilExpiry shareLink now with
  | Some h => Some (Z.min h 24)
  | None => None
  end.

Definition getFileByShareLink (env : Env) (id : string) : M Resolved :=
  shareLink <- ShareLinkRepo.getShareLinkById env id ;;
  match shareLink with
  | None => throw "Share link not found"
  | Some shareLink =>
      if negb (ShareLinkRepo.isShareLinkValid shareLink (now env))
      then throw "Share link is expired or revoked"
      else
        file <- FileRepo.getFileById env (fileId shareLink) ;;
        match file with
        | None => throw "File not found or deleted"
        | Some file =>
            if negb (File.status_eqb (File.status file) File.active)
            then throw "File not found or deleted"
            else
              let blobName := blobNameOf (File.blobUrl file) in
              sasUrl <- BlobService.getBlobUrl env blobName
                          (sasExpirationHours shareLink (now env)) ;;
              ShareLinkRepo.incrementAccessCount env id ;;;
              ret {| file := file;
                     shareLink := shareLink;
                     downloadUrl := sasUrl |}
        end
  end.

Definition revokeShareLink (env : Env) (id : string) (uid : string)
    : M unit :=
  shareLink <- ShareLinkRepo.getShareLinkById env id ;;
  match shareLink with
  | None => throw "Share link not found"
  | Some shareLink =>
      if negb (String.eqb (userId shareLink) uid)
      then throw "Unauthorized access"
      else ShareLinkRepo.revokeShareLink env id
  end.

Definition getShareLinksByFileId (env : Env) (fid : string) (uid : string)
    : M (list IShareLink) :=
  file <- FileRepo.getFileById env fid ;;
  match file with
  | None => throw "File not found"
  | Some file =>
      if negb (String.eqb (File.userId file) uid)
      then throw "Unauthorized access to file"
      else ShareLinkRepo.getShareLinksByFileId env fid
  end.

Definition getUserShareLinks (env : Env) (uid : string)
    : M (list IShareLink) :=
  ShareLinkRepo.getShareLinksByUserId env uid.

End ShareLinkService.

(** ** services/FileService.ts *)

Module FileService.

(** The last three parts of the stored [blobUrl]:
    [file.blobUrl.split('/').slice(-3).join('/')]. *)
Definition blobNameOf (blobUrl : string) : string :=
  Js.join "/" (Js.slice (-3) (Js.split "/" blobUrl)).

Definition deleteFile (env : Env) (fid : string) (uid : string) : M unit :=
  file <- FileRepo.getFileById env fid ;;
  match file with
  | None => throw "File not found"
  | Some file =>
      if negb (String.eqb (File.userId file) uid)
      then throw "Unauthorized access to file"
      else
        let blobName := blobNameOf (File.blobUrl file) in
        swallow (BlobService.deleteBlob env blobName) ;;;
        ShareLinkRepo.deleteShareLinksByFileId env fid ;;;
        FileRepo.hardDeleteFile env fid
  end.

Record UploadFileData : Type := {
  userId : string;
  fileName : string;
  contentType : string;
  fileSize : Z;
  buffer : string
}.

(** The blob is named [${userId}/${fileId}/${fileName}]. *)
Definition uploadFile (env : Env) (infra : Infra) (data : UploadFileData)
    : M File.IFile :=
  rethrowAs "Failed to upload file"
    (let fileId := uuidv4 env in
     let blobName := userId data ++ "/" ++ fileId ++ "/" ++ fileName data in
     blobUrl <- BlobService.uploadBlob env infra blobName ;;
     FileRepo.createFile infra
       {| File.fileId := fileId;
          File.userId := userId data;
          File.fileName := fileName data;
          File.blobUrl := blobUrl;
          File.fileSize := fileSize data;
          File.contentType := contentType data;
          File.uploadDate := now env;
          File.status := File.active |}).

Definition getUserFiles (env : Env) (uid : string) : M (list File.IFile) :=
  rethrowAs "Failed to get user files" (FileRepo.getFilesByUserId env uid).

Definition getFileById (env : Env) (fid : string) (uid : string)
    : M File.IFile :=
  file <- FileRepo.getFileById env fid ;;
  match file with
  | None => throw "File not found"
  | Some file =>
      if negb (String.eqb (File.userId file) uid)
      then throw "Unauthorized access to file"
      else ret file
  end.

Definition setFileName (name : string) (file : File.IFile) : File.IFile :=
  {| File.fileId := File.fileId file;
     File.userId := File.userId file;
     File.fileName := name;
     File.blobUrl := File.blobUrl file;
     File.fileSize := File.fileSize file;
     File.contentType := File.contentType file;
     File.uploadDate := File.uploadDate file;
     File.status := File.status file |}.

(** Rename.  [!fileName || fileName.trim().length === 0] rejects the empty
    name and the names made of white space. *)
Definition updateFile (env : Env) (infra : Infra) (fid : string)
    (uid : string) (name : string) : M File.IFile :=
  file <- FileRepo.getFileById env fid ;;
  match file with
  | None => throw "File not found"
  | Some file =>
      if negb (String.eqb (File.userId file) uid)
      then throw "Unauthorized access to file"
      else
        match Js.trim name with
        | EmptyString => throw "File name cannot be empty"
        | trimmed => FileRepo.updateFile env infra (setFileName trimmed file)
        end
  end.

End FileService.

(** ** routes/ShareRoutes.ts and routes/FileRoutes.ts *)

Module Http.

(** The members of [HTTP_STATUS_CODES] the routes use. *)
Inductive Status : Type :=
| Ok | Created | BadRequest | Unauthorized | NotFound | Gone
| InternalServerError.

(** [res.status(s).json(v)]: either the value or [{ error }]. *)
Inductive Body (A : Type) : Type :=
| Json (value : A)
| Error (error : string).
Arguments Json {A} value.
Arguments Error {A} error.

Record Response (A : Type) : Type := {
  status : Status;
  body : Body A
}.
Arguments status {A} r.
Arguments body {A} r.

End Http.

(** ** common/util/route-errors *)

Module RouteErrors.

(** [RouteError]: an error that carries the status to answer with. *)
Record RouteError : Type := {
  status : Http.Status;
  message : string
}.

(** What a middleware throws or gives to [next]: a [RouteError], or an
    [Error] of another class with its message. *)
Inductive Thrown : Type :=
| IsRouteError (e : RouteError)
| IsError (message : string).

End RouteErrors.

(** ** middleware/upload.ts *)

Module Upload.

(** The fields of [Express.Multer.File] the code reads. *)
Record MulterFile : Type := {
  originalname : string;
  mimetype : string;
  size : Z;
  buffer : string
}.

Definition MAX_FILE_SIZE : Z := 100 * 1024 * 1024.

Definition ALLOWED_MIME_TYPES : list string :=
  [ "image/jpeg"; "image/png"; "image/gif"; "video/mp4"; "video/quicktime";
    "application/pdf" ].

(** [ALLOWED_MIME_TYPES.includes(mimetype)] *)
Definition allowed (mimetype : string) : bool :=
  existsb (String.eqb mimetype) ALLOWED_MIME_TYPES.

Definition typeError : RouteErrors.RouteError :=
  {| RouteErrors.status := Http.BadRequest;
     RouteErrors.message := "File type not supported. Allowed types: "
                ++ Js.join ", " ALLOWED_MIME_TYPES |}.

(** [cb(null, true)] is [None]; [cb(error)] is [Some error]. *)
Definition fileFilter (file : MulterFile) : option RouteErrors.RouteError :=
  if allowed (mimetype file) then None else Some typeError.

(** [None] when the function returns, [Some error] when it throws. *)
Definition validateFileSize (file : MulterFile) : option RouteErrors.RouteError :=
  if size file >? MAX_FILE_SIZE
  then Some {| RouteErrors.status := Http.BadRequest;
               RouteErrors.message := "File size exceeds maximum allowed size of "
                          ++ Js.numberToString (MAX_FILE_SIZE / 1024 / 1024)
                          ++ "MB" |}
  else None.

Definition validateFileType (file : MulterFile) : option RouteErrors.RouteError :=
  if negb (allowed (mimetype file)) then Some typeError else None.

(** [upload.single('file')], where [upload] is multer with memory storage,
    [limits.fileSize = MAX_FILE_SIZE] and [fileFilter].  [part] is the part
    of the request named "file".  Multer calls [fileFilter] when it has read
    the headers of the part, and gives the error of [cb(error)] to [next];
    it then reads the content, and a content of more than [limits.fileSize]
    bytes makes it give a [MulterError], whose message is "File too large",
    to [next].  A file that passes is left in [req.file]; a request without
    the part goes on with no [req.file]. *)
Definition single (part : option MulterFile)
    : RouteErrors.Thrown + option MulterFile :=
  match part with
  | None => inr None
  | Some file =>
      match fileFilter file with
      | Some e => inl (RouteErrors.IsRouteError e)
      | None =>
          if size file >? MAX_FILE_SIZE
          then inl (RouteErrors.IsError "File too large")
          else inr (Some file)
      end
  end.

End Upload.

Module ShareRoutes.

(** The status chosen in the [catch] of [getFileByShareLink]. *)
Definition resolveErrorStatus (message : string) : Http.Status :=
  if Js.includes "not found" message then Http.NotFound
  else if Js.includes "expired" message || Js.includes "revoked" message
  then Http.Gone
  else Http.BadRequest.

(** The status chosen in the [catch] of [revokeShareLink]. *)
Definition revokeErrorStatus (message : string) : Http.Status :=
  if Js.includes "not found" message then Http.NotFound
  else if Js.includes "Unauthorized" message then Http.Unauthorized
  else Http.BadRequest.

Definition getFileByShareLink (env : Env) (id : string) (w : World)
    : Http.Response ShareLinkService.Resolved * World :=
  match id with
  | EmptyString =>
      ({| Http.status := Http.BadRequest;
          Http.body := Http.Error "Link ID is required" |}, w)
  | _ =>
      match ShareLinkService.getFileByShareLink env id w with
      | (Ok result, w') =>
          ({| Http.status := Http.Ok; Http.body := Http.Json result |}, w')
      | (Throw message, w') =>
          ({| Http.status := resolveErrorStatus message;
              Http.body :=
                Http.Error
                  (Js.orString message "Failed to access share link") |},
           w')
      end
  end.

(** [req.userId] is what the [authenticate] middleware left on the
    request; [req.params.linkId] is [id].  A success answers
    [{ message }]. *)
Definition revokeShareLink (env : Env) (reqUserId : option string)
    (id : string) (w : World) : Http.Response string * World :=
  match reqUserId with
  | None | Some EmptyString =>
      ({| Http.status := Http.Unauthorized;
          Http.body := Http.Error "User not authenticated" |}, w)
  | Some uid =>
      match id with
      | EmptyString =>
          ({| Http.status := Http.BadRequest;
              Http.body := Http.Error "Link ID is required" |}, w)
      | _ =>
          match ShareLinkService.revokeShareLink env id uid w with
          | (Ok _, w') =>
              ({| Http.status := Http.Ok;
                  Http.body := Http.Json "Share link revoked successfully" |},
               w')
          | (Throw message, w') =>
              ({| Http.status := revokeErrorStatus message;
                  Http.body :=
                    Http.Error
                      (Js.orString message "Failed to revoke share link") |},
               w')
          end
      end
  end.

(** [process.env.FRONTEND_URL || 'http://localhost:5173'] *)
Definition frontendUrl (penv : ProcessEnv) : string :=
  match FRONTEND_URL penv with
  | Some url => Js.orString url "http://localhost:5173"
  | None => "http://localhost:5173"
  end.

(** [`${frontendUrl}/share/${linkId}`] *)
Definition shareUrlOf (penv : ProcessEnv) (id : string) : string :=
  frontendUrl penv ++ "/share/" ++ id.

(** [{ ...shareLink, shareUrl }] *)
Record WithShareUrl : Type := {
  link : IShareLink;
  shareUrl : string
}.

Definition withShareUrl (penv : ProcessEnv) (l : IShareLink)
    : WithShareUrl :=
  {| link := l; shareUrl := shareUrlOf penv (linkId l) |}.

(** The status chosen in the [catch] of [createShareLink] and of
    [getShareLinksByFileId]. *)
Definition ownerErrorStatus (message : string) : Http.Status :=
  if Js.includes "not found" message then Http.NotFound
  else if Js.includes "Unauthorized" message then Http.Unauthorized
  else Http.BadRequest.

(** [req.params.id] is [fid]; [req.body.expirationDays] is [days]. *)
Definition createShareLink (env : Env) (penv : ProcessEnv)
    (reqUserId : option string) (fid : string) (days : option Z)
    (w : World) : Http.Response WithShareUrl * World :=
  match reqUserId with
  | None | Some EmptyString =>
      ({| Http.status := Http.Unauthorized;
          Http.body := Http.Error "User not authenticated" |}, w)
  | Some uid =>
      match fid with
      | EmptyString =>
          ({| Http.status := Http.BadRequest;
              Http.body := Http.Error "File ID is required" |}, w)
      | _ =>
          match ShareLinkService.createShareLink env
                  {| CreateShareLinkData.fileId := fid;
                     CreateShareLinkData.userId := uid;
                     CreateShareLinkData.expirationDays := days |} w with
          | (Ok shareLink, w') =>
              ({| Http.status := Http.Created;
                  Http.body := Http.Json (withShareUrl penv shareLink) |},
               w')
          | (Throw message, w') =>
              ({| Http.status := ownerErrorStatus message;
                  Http.body :=
                    Http.Error
                      (Js.orString message "Failed to create share link") |},
               w')
          end
      end
  end.

(** The body is [{ shareLinks: shareLinksWithUrls }]. *)
Definition getShareLinksByFileId (env : Env) (penv : ProcessEnv)
    (reqUserId : option string) (fid : string) (w : World)
    : Http.Response (list WithShareUrl) * World :=
  match reqUserId with
  | None | Some EmptyString =>
      ({| Http.status := Http.Unauthorized;
          Http.body := Http.Error "User not authenticated" |}, w)
  | Some uid =>
      match fid with
      | EmptyString =>
          ({| Http.status := Http.BadRequest;
              Http.body := Http.Error "File ID is required" |}, w)
      | _ =>
          match ShareLinkService.getShareLinksByFileId env fid uid w with
          | (Ok shareLinks, w') =>
              ({| Http.status := Http.Ok;
                  Http.body := Http.Json (map (withShareUrl penv) shareLinks)
               |}, w')
          | (Throw message, w') =>
              ({| Http.status := ownerErrorStatus message;
                  Http.body :=
                    Http.Error
                      (Js.orString message "Failed to get share links") |},
               w')
          end
      end
  end.

(** The five fields of a file that the listing by user shows. *)
Record FileInfo : Type := {
  infoFileId : string;
  infoFileName : string;
  infoContentType : string;
  infoFileSize : Z;
  infoUploadDate : Z
}.

(** [{ ...link, shareUrl, file }] *)
Record WithDetails : Type := {
  detailsLink : IShareLink;
  detailsShareUrl : string;
  detailsFile : option FileInfo
}.

(** One turn of the [map]: the file is looked up; a missing file and a
    failed lookup both give [file: null]. *)
Definition withDetails (env : Env) (penv : ProcessEnv) (w : World)
    (l : IShareLink) : WithDetails :=
  {| detailsLink := l;
     detailsShareUrl := shareUrlOf penv (linkId l);
     detailsFile :=
       match FileRepo.getFileById env (fileId l) w with
       | (Ok (Some file), _) =>
           Some {| infoFileId := File.fileId file;
                   infoFileName := File.fileName file;
                   infoContentType := File.contentType file;
                   infoFileSize := File.fileSize file;
                   infoUploadDate := File.uploadDate file |}
       | _ => None
       end |}.

(** The body is [{ shareLinks: shareLinksWithDetails }]. *)
Definition getUserShareLinks (env : Env) (penv : ProcessEnv)
    (reqUserId : option string) (w : World)
    : Http.Response (list WithDetails) * World :=
  match reqUserId with
  | None | Some EmptyString =>
      ({| Http.status := Http.Unauthorized;
          Http.body := Http.Error "User not authenticated" |}, w)
  | Some uid =>
      match ShareLinkService.getUserShareLinks env uid w with
      | (Ok shareLinks, w') =>
          ({| Http.status := Http.Ok;
              Http.body := Http.Json (map (withDetails env penv w') shareLinks)
           |}, w')
      | (Throw message, w') =>
          ({| Http.status := Http.InternalServerError;
              Http.body :=
                Http.Error
                  (Js.orString message "Failed to get user share links") |},
           w')
      end
  end.

End ShareRoutes.

Module FileRoutes.

Definition deleteErrorStatus (message : string) : Http.Status :=
  if Js.includes "not found" message then Http.NotFound
  else if Js.includes "Unauthorized" message then Http.Unauthorized
  else Http.InternalServerError.

Definition deleteFile (env : Env) (reqUserId : option string)
    (id : string) (w : World) : Http.Response string * World :=
  match reqUserId with
  | None | Some EmptyString =>
      ({| Http.status := Http.Unauthorized;
          Http.body := Http.Error "User not authenticated" |}, w)
  | Some uid =>
      match id with
      | EmptyString =>
          ({| Http.status := Http.BadRequest;
              Http.body := Http.Error "File ID is required" |}, w)
      | _ =>
          match FileService.deleteFile env id uid w with
          | (Ok _, w') =>
              ({| Http.status := Http.Ok;
                  Http.body := Http.Json "File deleted successfully" |}, w')
          | (Throw message, w') =>
              ({| Http.status := deleteErrorStatus message;
                  Http.body :=
                    Http.Error
                      (Js.orString message "Failed to delete file") |}, w')
          end
      end
  end.

(** [req.file] is what multer left on the request. *)
Definition uploadFile (env : Env) (infra : Infra)
    (reqUserId : option string) (reqFile : option Upload.MulterFile)
    (w : World) : Http.Response File.IFile * World :=
  match reqUserId with
  | None | Some EmptyString =>
      ({| Http.status := Http.Unauthorized;
          Http.body := Http.Error "User not authenticated" |}, w)
  | Some uid =>
      match reqFile with
      | None =>
          ({| Http.status := Http.BadRequest;
              Http.body := Http.Error "No file provided" |}, w)
      | Some file =>
          match Upload.validateFileSize file with
          | Some e =>
              ({| Http.status := Http.BadRequest;
                  Http.body :=
                    Http.Error
                      (Js.orString (RouteErrors.message e)
                                   "Failed to upload file") |}, w)
          | None =>
              match Upload.validateFileType file with
              | Some e =>
                  ({| Http.status := Http.BadRequest;
                      Http.body :=
                        Http.Error
                          (Js.orString (RouteErrors.message e)
                                       "Failed to upload file") |}, w)
              | None =>
                  match FileService.uploadFile env infra
                          {| FileService.userId := uid;
                             FileService.fileName := Upload.originalname file;
                             FileService.contentType := Upload.mimetype file;
                             FileService.fileSize := Upload.size file;
                             FileService.buffer := Upload.buffer file |} w
                  with
                  | (Ok result, w') =>
                      ({| Http.status := Http.Created;
                          Http.body := Http.Json result |}, w')
                  | (Throw message, w') =>
                      ({| Http.status := Http.BadRequest;
                          Http.body :=
                            Http.Error
                              (Js.orString message "Failed to upload file")
                       |}, w')
                  end
              end
          end
      end
  end.

(** The [catch] of [getFileById] answers 404 for a message with "not found"
    and 401 for every other. *)
Definition getFileById (env : Env) (reqUserId : option string)
    (id : string) (w : World) : Http.Response File.IFile * World :=
  match reqUserId with
  | None | Some EmptyString =>
      ({| Http.status := Http.Unauthorized;
          Http.body := Http.Error "User not authenticated" |}, w)
  | Some uid =>
      match FileService.getFileById env id uid w with
      | (Ok file, w') =>
          ({| Http.status := Http.Ok; Http.body := Http.Json file |}, w')
      | (Throw message, w') =>
          ({| Http.status :=
                if Js.includes "not found" message then Http.NotFound
                else Http.Unauthorized;
              Http.body :=
                Http.Error (Js.orString message "Failed to get file") |}, w')
      end
  end.

End FileRoutes.

(** ** utils/jwt.ts and middleware/auth.ts *)

Module Jwt.

Record JWTPayload : Type := {
  userId : string;
  email : string
}.

(** What [jwt.verify(token, JWT_SECRET)] does: it returns the payload or
    throws an error with a [name]. *)
Inductive Verdict : Type :=
| Verified (payload : JWTPayload)
| TokenExpiredError
| JsonWebTokenError
| OtherError.

Definition verifyToken (verify : string -> Verdict) (token : string)
    : result JWTPayload :=
  match verify token with
  | Verified payload => Ok payload
  | TokenExpiredError => Throw "Token has expired"
  | JsonWebTokenError => Throw "Invalid token"
  | OtherError => Throw "Failed to verify token"
  end.

(** [authHeader] is [None] when the header is absent. *)
Definition extractTokenFromHeader (authHeader : option string)
    : option string :=
  match authHeader with
  | None | Some EmptyString => None
  | Some header =>
      let parts := Js.split " " header in
      if negb (Nat.eqb (List.length parts) 2)
         || negb (String.eqb (Js.head parts) "Bearer")
      then None
      else Some (Js.second parts)
  end.

End Jwt.

Module Auth.

(** [authenticate]: the payload it leaves on the request ([req.userId],
    [req.userEmail]) before [next()], or the [RouteError] it throws. *)
Definition authenticate (verify : string -> Jwt.Verdict)
    (authorization : option string) : RouteErrors.RouteError + Jwt.JWTPayload :=
  match Jwt.extractTokenFromHeader authorization with
  | None | Some EmptyString =>
      inl {| RouteErrors.status := Http.Unauthorized;
             RouteErrors.message := "Authentication required" |}
  | Some token =>
      match Jwt.verifyToken verify token with
      | Ok payload => inr payload
      | Throw _ =>
          inl {| RouteErrors.status := Http.Unauthorized;
                 RouteErrors.message := "Invalid or expired token" |}
      end
  end.

End Auth.

(** ** server.ts and the upload route of routes/FileRoutes.ts *)

Module Server.

(** The error handler of the application: the status of a [RouteError],
    400 for every other error. *)
Definition errorHandler {A : Type} (err : RouteErrors.Thrown)
    : Http.Response A :=
  match err with
  | RouteErrors.IsRouteError e =>
      {| Http.status := RouteErrors.status e;
         Http.body := Http.Error (RouteErrors.message e) |}
  | RouteErrors.IsError message =>
      {| Http.status := Http.BadRequest;
         Http.body := Http.Error (Js.orString message "Internal server error")
      |}
  end.

(** [upload: [authenticate, upload.single('file'), uploadFile]]: what
    [POST /api/files/upload] answers to a request with the given
    Authorization header and the given part named "file". *)
Definition upload (verify : string -> Jwt.Verdict) (env : Env)
    (infra : Infra) (authorization : option string)
    (part : option Upload.MulterFile) (w : World)
    : Http.Response File.IFile * World :=
  match Auth.authenticate verify authorization with
  | inl e => (errorHandler (RouteErrors.IsRouteError e), w)
  | inr payload =>
      match Upload.single part with
      | inl err => (errorHandler err, w)
      | inr reqFile =>
          FileRoutes.uploadFile env infra (Some (Jwt.userId payload))
            reqFile w
      end
  end.

End Server.

(** ** services/azure/CosmosService.ts *)

Module CosmosService.

Record CosmosConfig : Type := {
  endpoint : string;
  key : string;
  databaseName : string
}.

(** A variable of [process.env] is truthy when set and not empty. *)
Definition truthy (v : option string) : option string :=
  match v with
  | Some (String _ _ as s) => Some s
  | _ => None
  end.

Definition getCosmosConfig (penv : ProcessEnv) : result CosmosConfig :=
  let databaseName :=
    match truthy (COSMOS_DB_NAME penv) with
    | Some name => name
    | None => "CloudPixDB"
    end in
  let fromVariables :=
    match truthy (COSMOS_DB_ENDPOINT penv), truthy (COSMOS_DB_KEY penv) with
    | Some endpoint, Some key =>
        Ok {| endpoint := endpoint; key := key;
              databaseName := databaseName |}
    | _, _ =>
        Throw ("Cosmos DB configuration missing. Provide either "
               ++ "AZURE_COSMOS_CONNECTION_STRING or COSMOS_DB_ENDPOINT + COSMOS_DB_KEY")
    end in
  match truthy (AZURE_COSMOS_CONNECTION_STRING penv) with
  | Some connectionString =>
      let parts := Js.split ";" connectionString in
      let endpointPart := find (Js.startsWith "AccountEndpoint=") parts in
      let keyPart := find (Js.startsWith "AccountKey=") parts in
      match endpointPart, keyPart with
      | Some endpointPart, Some keyPart =>
          Ok {| endpoint := Js.second (Js.split "=" endpointPart);
                key := Js.second (Js.split "=" keyPart);
                databaseName := databaseName |}
      | _, _ => fromVariables
      end
  | None => fromVariables
  end.

End CosmosService.

(** ** The rules of the specification, in its own words *)

Module Spec.

(** "returns valid iff [!revoked && (expiresAt is "never" || now <
    expiresAt)]" *)
Definition Validate (revoked : bool) (expiresAt : option Z) (now : Z)
    : bool :=
  negb revoked
  && match expiresAt with
     | None => true
     | Some t => now <? t
     end.

(** "[min(requestedLifetime, storageCeiling,
    timeRemainingUntilExpiresAt)]", in milliseconds. *)
Definition lifetimeBound (requestedLifetime storageCeiling
    timeRemainingUntilExpiresAt : Z) : Z :=
  Z.min requestedLifetime (Z.min storageCeiling timeRemainingUntilExpiresAt).

(** The storage ceiling at share-access time: 24 hours. *)
Definition storageCeiling : Z := 24 * BlobService.msPerHour.

End Spec.

(** ** What a mutation may do to a share-link document *)

(** [after] carries the identity and provenance of [before]; its
    revocation flag was not cleared and its counter did not go down. *)
Record preserved (before after : IShareLink) : Prop := {
  preserved_linkId : linkId after = linkId before;
  preserved_fileId : fileId after = fileId before;
  preserved_userId : userId after = userId before;
  preserved_createdDate : createdDate after = createdDate before;
  preserved_expiryDate : expiryDate after = expiryDate before;
  preserved_revoked : isRevoked before = true -> isRevoked after = true;
  preserved_accessCount : accessCount before <= accessCount after
}.

(** A share link can be resolved when [getFileByShareLink] returns. *)
Definition resolvable (env : Env) (id : string) (w : World) : Prop :=
  exists r w', ShareLinkService.getFileByShareLink env id w = (Ok r, w').

(** ** The cascade of a file deletion *)

(** The documents the cascade asks for: unrevoked links of the file. *)
Definition cascaded (fid : string) (c : IShareLink) : bool :=
  String.eqb (fileId c) fid && Bool.eqb (isRevoked c) false.

(** ** The credential of a resolution *)

(** The SDK signed a read token for the blob of [f], expiring after the
    hours computed for [l] at [now]. *)
Definition minted (env : Env) (f : File.IFile) (l : IShareLink)
    (token : string) : Prop :=
  sasToken env (ShareLinkService.blobNameOf (File.blobUrl f))
    (BlobService.expiresOn env
       (ShareLinkService.sasExpirationHours l (now env)))
  = Some token.

(** The URL [generateBlobSASUrl] builds around that token. *)
Definition sasUrlOf (env : Env) (f : File.IFile) (token : string) : string :=
  BlobService.blobUrlOf env (ShareLinkService.blobNameOf (File.blobUrl f))
  ++ "?" ++ token.

(** ** Resolving a link again and again *)

(** The store after [n] resolutions of the link [id], one after the
    other. *)
Fixpoint resolveTimes (env : Env) (id : string) (n : nat) (w : World)
    : World :=
  match n with
  | O => w
  | S k =>
      resolveTimes env id k
        (snd (ShareLinkService.getFileByShareLink env id w))
  end.

(** Everything a resolution of [id] needs is there: the link [l] is found
    and valid, its file [f] is found and active, the token is signed and
    the store accepts the update of the link. *)
Definition ready (env : Env) (id : string) (w : World) (l : IShareLink)
    (f : File.IFile) (token : string) : Prop :=
  queryLinks env = NoFault
  /\ find (fun c => String.eqb (linkId c) id) (shareLinks w) = Some l
  /\ ShareLinkRepo.isShareLinkValid l (now env) = true
  /\ queryFiles env = NoFault
  /\ find (fun c => String.eqb (File.fileId c) (fileId l)) (files w) = Some f
  /\ File.status f = File.active
  /\ minted env f l token
  /\ replaceThrows env id = false.

(** ** A small deployment to run the code on *)

Module Sample.

Definition noThrow : string -> bool := fun _ => false.

Definition token (blobName : string) (expiresOn : option Z)
    : option string :=
  match expiresOn with
  | Some _ => Some "sv=2024-11-04&sp=r&sig=c2ln"
  | None => None
  end.

(** Nothing fails; the clock reads [t]. *)
Definition env (t : Z) : Env :=
  {| now := t;
     nowExpiry := t;
     nowTTL := t;
     uuidv4 := "9b2d";
     queryLinks := NoFault;
     queryFiles := NoFault;
     createThrows := false;
     replaceThrows := noThrow;
     deleteThrows := noThrow;
     deleteFileItem := NoFault;
     deleteBlobThrows := noThrow;
     accountName := "acct";
     containerName := "cloudpix-files";
     sasToken := token |}.

(** As [env t], but the clock ticks while [createShareLink] runs:
    [calculateExpiryDate] reads it 10 ms and [calculateTTL] 4 ms before the
    document is built at [t]. *)
Definition envTick (t : Z) : Env :=
  {| now := t;
     nowExpiry := t - 10;
     nowTTL := t - 4;
     uuidv4 := "9b2d";
     queryLinks := NoFault;
     queryFiles := NoFault;
     createThrows := false;
     replaceThrows := noThrow;
     deleteThrows := noThrow;
     deleteFileItem := NoFault;
     deleteBlobThrows := noThrow;
     accountName := "acct";
     containerName := "cloudpix-files";
     sasToken := token |}.

(** As [env t], but replacing the document of link [id] is rejected. *)
Definition envReplaceFails (t : Z) (id : string) : Env :=
  {| now := t;
     nowExpiry := t;
     nowTTL := t;
     uuidv4 := "9b2d";
     queryLinks := NoFault;
     queryFiles := NoFault;
     createThrows := false;
     replaceThrows := String.eqb id;
     deleteThrows := noThrow;
     deleteFileItem := NoFault;
     deleteBlobThrows := noThrow;
     accountName := "acct";
     containerName := "cloudpix-files";
     sasToken := token |}.

(** As [env t], but deleting the document of link [id] is rejected. *)
Definition envDeleteFails (t : Z) (id : string) : Env :=
  {| now := t;
     nowExpiry := t;
     nowTTL := t;
     uuidv4 := "9b2d";
     queryLinks := NoFault;
     queryFiles := NoFault;
     createThrows := false;
     replaceThrows := noThrow;
     deleteThrows := String.eqb id;
     deleteFileItem := NoFault;
     deleteBlobThrows := noThrow;
     accountName := "acct";
     containerName := "cloudpix-files";
     sasToken := token |}.

Definition photo : File.IFile :=
  {| File.fileId := "f1";
     File.userId := "alice";
     File.fileName := "a.png";
     File.blobUrl :=
       "https://acct.blob.core.windows.net/cloudpix-files/alice/f1/a.png?sv=2023-01-03&sp=r&sig=b2xk";
     File.fileSize := 5242880;
     File.contentType := "image/png";
     File.uploadDate := 1000;
     File.status := File.active |}.

Definition link (id : string) (expiry : Z) (revoked : bool) : IShareLink :=
  {| linkId := id;
     fileId := "f1";
     userId := "alice";
     expiryDate := Some expiry;
     accessCount := 0;
     createdDate := 2000;
     isRevoked := revoked;
     ttl := None |}.

Definition hour : Z := 3600000.

(** At time [10 * hour]: [l1] and [l4] are live, [l2] is revoked before
    its expiry, [l3] is past its expiry, [l5] expires in ten seconds. *)
Definition world : World :=
  {| shareLinks :=
       [ link "l1" (100 * hour) false;
         link "l2" (100 * hour) true;
         link "l3" (9 * hour) false;
         link "l4" (50 * hour) false;
         link "l5" (10 * hour + 10000) false ];
     files := [photo];
     blobs := ["alice/f1/a.png"] |}.

(** Three links on the one file, all live at time [10 * hour]. *)
Definition world3 : World :=
  {| shareLinks :=
       [ link "l1" (100 * hour) false;
         link "l2" (100 * hour) false;
         link "l3" (100 * hour) false ];
     files := [photo];
     blobs := ["alice/f1/a.png"] |}.

(** What resolving ["l1"] in [world] returns. *)
Definition resolved1 : ShareLinkService.Resolved :=
  {| ShareLinkService.file := photo;
     ShareLinkService.shareLink := link "l1" (100 * hour) false;
     ShareLinkService.downloadUrl :=
       "https://acct.blob.core.windows.net/cloudpix-files/alice/f1/a.png?sv=2024-11-04&sp=r&sig=c2ln" |}.

(** What resolving ["l5"] in [world] returns. *)
Definition resolved5 : ShareLinkService.Resolved :=
  {| ShareLinkService.file := photo;
     ShareLinkService.shareLink := link "l5" (10 * hour + 10000) false;
     ShareLinkService.downloadUrl :=
       "https://acct.blob.core.windows.net/cloudpix-files/alice/f1/a.png?sv=2024-11-04&sp=r&sig=c2ln" |}.

Definition request (days : option Z) : CreateShareLinkData.t :=
  {| CreateShareLinkData.fileId := "f1";
     CreateShareLinkData.userId := "alice";
     CreateShareLinkData.expirationDays := days |}.

End Sample.

(** ** A second deployment, for the file operations *)

Module Demo.

(** The file store accepts every call. *)
Definition infra : Infra :=
  {| createFileThrows := false;
     replaceFileThrows := Sample.noThrow;
     uploadThrows := Sample.noThrow |}.

(** The Files container rejects new documents. *)
Definition infraNoDocument : Infra :=
  {| createFileThrows := true;
     replaceFileThrows := Sample.noThrow;
     uploadThrows := Sample.noThrow |}.




(** [jwt.verify] accepts the token "good" of alice, finds "old" expired and
    every other token malformed. *)
Definition verify (token : string) : Jwt.Verdict :=
  if String.eqb token "good"
  then Jwt.Verified {| Jwt.userId := "alice";
                       Jwt.email := "alice@example.com" |}
  else if String.eqb token "old" then Jwt.TokenExpiredError
  else Jwt.JsonWebTokenError.

Definition data : FileService.UploadFileData :=
  {| FileService.userId := "alice";
     FileService.fileName := "b.png";
     FileService.contentType := "image/png";
     FileService.fileSize := 2048;
     FileService.buffer := "PNG" |}.

Definition empty : World :=
  {| shareLinks := []; files := []; blobs := [] |}.

(** What uploading [data] at time 1000 returns. *)
Definition uploaded : File.IFile :=
  {| File.fileId := "9b2d";
     File.userId := "alice";
     File.fileName := "b.png";
     File.blobUrl :=
       "https://acct.blob.core.windows.net/cloudpix-files/alice/9b2d/b.png?sv=2024-11-04&sp=r&sig=c2ln";
     File.fileSize := 2048;
     File.contentType := "image/png";
     File.uploadDate := 1000;
     File.status := File.active |}.

(** The store after that upload. *)
Definition afterUpload : World :=
  {| shareLinks := []; files := [uploaded]; blobs := ["alice/9b2d/b.png"] |}.

Definition penv : ProcessEnv :=
  {| FRONTEND_URL := Some "https://cloudpix.example";
     AZURE_COSMOS_CONNECTION_STRING :=
       Some "AccountEndpoint=https://cloudpix.documents.azure.com:443/;AccountKey=c2VjcmV0a2V5==;";
     COSMOS_DB_ENDPOINT := None;
     COSMOS_DB_KEY := None;
     COSMOS_DB_NAME := None |}.

(** The link a request for seven days creates at time [10 * hour]. *)
Definition weekLink : IShareLink :=
  {| linkId := "9b2d";
     fileId := "f1";
     userId := "alice";
     expiryDate := Some (36000000 + 7 * 86400000);
     accessCount := 0;
     createdDate := 36000000;
     isRevoked := false;
     ttl := Some (7 * 86400) |}.

(** The same request when the clock ticks as in [Sample.envTick]. *)
Definition weekLinkTick : IShareLink :=
  {| linkId := "9b2d";
     fileId := "f1";
     userId := "alice";
     expiryDate := Some (35999990 + 7 * 86400000);
     accessCount := 0;
     createdDate := 36000000;
     isRevoked := false;
     ttl := Some (7 * 86400 - 1) |}.

(** The link a request for a hundred million days creates. *)
Definition foreverLink : IShareLink :=
  {| linkId := "9b2d";
     fileId := "f1";
     userId := "alice";
     expiryDate := None;
     accessCount := 0;
     createdDate := 36000000;
     isRevoked := false;
     ttl := None |}.

(** The store after that request on [Sample.world3]. *)
Definition afterForever : World :=
  {| shareLinks := (shareLinks Sample.world3 ++ [foreverLink])%list;
     files := files Sample.world3;
     blobs := blobs Sample.world3 |}.

End Demo.

(** * Properties *)

(** ** Validity of a share link *)

Lemma isShareLinkValid_eq (l : IShareLink) (t : Z) :
  ShareLinkRepo.isShareLinkValid l t
  = negb (isRevoked l)
    && match expiryDate l with
       | None => true
       | Some expiry => t <=? expiry
       end.
Proof.
  unfold ShareLinkRepo.isShareLinkValid.
  destruct (isRevoked l); simpl; [reflexivity|].
  destruct (expiryDate l) as [expiry|]; [|reflexivity].
  destruct (Z.ltb_spec expiry t), (Z.leb_spec t expiry); auto; lia.
Qed.

Lemma isShareLinkValid_true (l : IShareLink) (t : Z) :
  ShareLinkRepo.isShareLinkValid l t = true
  <-> isRevoked l = false
      /\ (expiryDate l = None
          \/ exists expiry, expiryDate l = Some expiry /\ t <= expiry).
Proof.
  rewrite isShareLinkValid_eq, andb_true_iff, negb_true_iff.
  destruct (expiryDate l) as [expiry|].
  - rewrite Z.leb_le. split.
    + intros [Hr Ht]. split; [exact Hr|]. right. now exists expiry.
    + intros [Hr [Hn | [e [He Ht]]]]; [discriminate|].
      injection He as ->. now split.
  - split; intros [Hr _]; split; auto.
Qed.

(** C4 (as amended).  [isShareLinkValid] is a function of the triple
    (isRevoked, expiryDate, now) alone: it answers valid exactly when the
    link is not revoked and either carries no expiry date or [now] is not
    later than the expiry date.  At the boundary instant
    [now = expiryDate] an unrevoked link is still valid. *)
Theorem isShareLinkValid_triple :
  exists validate : bool -> option Z -> Z -> bool,
    (forall l t,
        ShareLinkRepo.isShareLinkValid l t
        = validate (isRevoked l) (expiryDate l) t)
    /\ (forall revoked expiresAt t,
           validate revoked expiresAt t = true
           <-> revoked = false
               /\ (expiresAt = None
                   \/ exists expiry, expiresAt = Some expiry /\ t <= expiry))
    /\ (forall expiry, validate false (Some expiry) expiry = true).
Proof.
  exists (fun revoked expiresAt t =>
            negb revoked
            && match expiresAt with
               | None => true
               | Some expiry => t <=? expiry
               end).
  split; [exact isShareLinkValid_eq|]. split.
  - intros revoked expiresAt t.
    rewrite andb_true_iff, negb_true_iff.
    destruct expiresAt as [expiry|].
    + rewrite Z.leb_le. split.
      * intros [Hr Ht]. split; [exact Hr|]. right. now exists expiry.
      * intros [Hr [Hn | [e [He Ht]]]]; [discriminate|].
        injection He as ->. now split.
    + split; intros [Hr _]; split; auto.
  - intros expiry. simpl. apply Z.leb_refl.
Qed.

(** C4, the claim as stated, fails at the boundary: an unrevoked link whose
    expiry date is the present instant is valid for the code and invalid for
    the rule of the specification. *)
Lemma isShareLinkValid_boundary_differs :
  let l := Sample.link "l1" 36000000 false in
  ShareLinkRepo.isShareLinkValid l 36000000 = true
  /\ Spec.Validate (isRevoked l) (expiryDate l) 36000000 = false.
Proof. split; reflexivity. Qed.

(** ** Creation *)

Lemma timeClip_in_range (t : Z) :
  - 8640000000000000 <= t <= 8640000000000000 ->
  Js.timeClip t = Some t.
Proof.
  intros H. unfold Js.timeClip, Js.maxTime.
  destruct (Z.leb_spec (Z.abs t) 8640000000000000); [reflexivity|lia].
Qed.

Lemma timeClip_out_of_range (t : Z) :
  t < - 8640000000000000 \/ 8640000000000000 < t ->
  Js.timeClip t = None.
Proof.
  intros H. unfold Js.timeClip, Js.maxTime.
  destruct (Z.leb_spec (Z.abs t) 8640000000000000); [lia|reflexivity].
Qed.

Lemma calculateTTL_nonpositive (env : Env) (expiry : Z) :
  expiry <= nowTTL env ->
  ShareLinkService.calculateTTL env (Some (Some expiry)) = None.
Proof.
  intros H. unfold ShareLinkService.calculateTTL.
  assert ((expiry - nowTTL env) / 1000 <= 0)
    by (apply Z.div_le_upper_bound; lia).
  destruct (Z.gtb_spec ((expiry - nowTTL env) / 1000) 0); [lia|reflexivity].
Qed.

(** What [createShareLink] does once the file checks pass. *)
Lemma createShareLink_run (env : Env) (w : World) (f : File.IFile)
    (fid uid : string) (days : option Z) :
  queryFiles env = NoFault ->
  find (fun c => String.eqb (File.fileId c) fid) (files w) = Some f ->
  File.userId f = uid ->
  File.status f = File.active ->
  createThrows env = false ->
  let expiry := ShareLinkService.calculateExpiryDate env days in
  let link :=
    {| linkId := uuidv4 env;
       fileId := fid;
       userId := uid;
       expiryDate := match expiry with
                     | Some date => date
                     | None => Some (now env)
                     end;
       accessCount := 0;
       createdDate := now env;
       isRevoked := false;
       ttl := ShareLinkService.calculateTTL env expiry |} in
  ShareLinkService.createShareLink env
    {| CreateShareLinkData.fileId := fid;
       CreateShareLinkData.userId := uid;
       CreateShareLinkData.expirationDays := days |} w
  = (Ok link, ShareLinkRepo.setShareLinks (shareLinks w ++ [link]) w).
Proof.
  intros Hq Hf Hu Hs Hc. simpl.
  unfold ShareLinkService.createShareLink, bind, FileRepo.getFileById.
  simpl. rewrite Hq, Hf, Hu, String.eqb_refl, Hs. simpl.
  unfold ShareLinkRepo.createShareLink. now rewrite Hc.
Qed.

(** C1.  A share link created with no duration stores the creation instant
    as its expiry date (and no ttl); the code then judges it invalid at
    every strictly later instant. *)
Theorem createShareLink_never_expires_at_once (env : Env) (w w' : World)
    (fid uid : string) (link : IShareLink) :
  ShareLinkService.createShareLink env
    {| CreateShareLinkData.fileId := fid;
       CreateShareLinkData.userId := uid;
       CreateShareLinkData.expirationDays := None |} w = (Ok link, w') ->
  expiryDate link = Some (now env)
  /\ createdDate link = now env
  /\ isRevoked link = false
  /\ ttl link = None
  /\ forall later, now env < later ->
       ShareLinkRepo.isShareLinkValid link later = false.
Proof.
  unfold ShareLinkService.createShareLink, bind, FileRepo.getFileById, throw.
  simpl.
  destruct (queryFiles env); try discriminate.
  - destruct (find _ (files w)) as [f|]; [|discriminate].
    destruct (negb (String.eqb (File.userId f) uid)); [discriminate|].
    destruct (negb (File.status_eqb (File.status f) File.active));
      [discriminate|].
    unfold ShareLinkRepo.createShareLink.
    destruct (createThrows env); [discriminate|].
    intros H. injection H as <- _. simpl. repeat split.
    intros later Hlt. unfold ShareLinkRepo.isShareLinkValid. simpl.
    destruct (Z.ltb_spec (now env) later); [reflexivity|lia].
Qed.

Lemma createShareLink_never_expires_at_once_sample :
  let env := Sample.env 36000000 in
  let link :=
    {| linkId := "9b2d";
       fileId := "f1";
       userId := "alice";
       expiryDate := Some 36000000;
       accessCount := 0;
       createdDate := 36000000;
       isRevoked := false;
       ttl := None |} in
  ShareLinkService.createShareLink env (Sample.request None) Sample.world3
  = (Ok link,
     ShareLinkRepo.setShareLinks (shareLinks Sample.world3 ++ [link])
       Sample.world3)
  /\ ShareLinkRepo.isShareLinkValid link 36000001 = false.
Proof.
  split; [reflexivity|].
  apply (createShareLink_never_expires_at_once (Sample.env 36000000)
           Sample.world3 _ "f1" "alice" _ eq_refl); simpl; lia.
Defined.

(** C10 (as amended).  Creation does not check the duration against 1, 7
    and 30: once the file checks pass and the store accepts the document, a
    link is created and stored for every integer [expirationDays].  A
    duration of [0] is absent for [calculateExpiryDate], so the two requests
    create the same link, the one whose expiry date is the creation instant.
    With a clock that does not run backwards during the call, a negative
    duration whose date is still a [Date] (not below -8.64e15 ms) stores
    that date, which is in the past, and no ttl, and the link is invalid from
    its creation on.  A negative duration beyond that makes an Invalid Date:
    [null] is stored, with no ttl, and the link is valid at every instant. *)
Theorem createShareLink_duration_unchecked (env : Env) (w : World)
    (f : File.IFile) (fid uid : string) :
  queryFiles env = NoFault ->
  find (fun c => String.eqb (File.fileId c) fid) (files w) = Some f ->
  File.userId f = uid ->
  File.status f = File.active ->
  createThrows env = false ->
  nowExpiry env <= 8640000000000000 ->
  nowExpiry env <= nowTTL env ->
  nowTTL env <= now env ->
  let create days :=
    ShareLinkService.createShareLink env
      {| CreateShareLinkData.fileId := fid;
         CreateShareLinkData.userId := uid;
         CreateShareLinkData.expirationDays := days |} w in
  (forall days, exists link w',
      create days = (Ok link, w')
      /\ shareLinks w' = (shareLinks w ++ [link])%list
      /\ files w' = files w)
  /\ ShareLinkService.calculateExpiryDate env (Some 0)
     = ShareLinkService.calculateExpiryDate env None
  /\ create (Some 0) = create None
  /\ (exists link w',
         create (Some 0) = (Ok link, w')
         /\ expiryDate link = Some (now env)
         /\ ttl link = None)
  /\ (forall d, d < 0 ->
        - 8640000000000000 <= nowExpiry env + d * 86400000 ->
        exists link w',
          create (Some d) = (Ok link, w')
          /\ expiryDate link = Some (nowExpiry env + d * 86400000)
          /\ nowExpiry env + d * 86400000 < now env
          /\ ttl link = None
          /\ forall t, now env <= t ->
               ShareLinkRepo.isShareLinkValid link t = false)
  /\ (forall d, d < 0 ->
        nowExpiry env + d * 86400000 < - 8640000000000000 ->
        exists link w',
          create (Some d) = (Ok link, w')
          /\ expiryDate link = None
          /\ ttl link = None
          /\ isRevoked link = false
          /\ forall t, ShareLinkRepo.isShareLinkValid link t = true).
Proof.
  intros Hq Hf Hu Hs Hc Hmax Hclock1 Hclock2 create.
  assert (Hrun := fun days =>
            createShareLink_run env w f fid uid days Hq Hf Hu Hs Hc).
  simpl in Hrun. split; [|split; [|split; [|split; [|split]]]].
  - intros days. do 2 eexists. split; [apply Hrun|]. split; reflexivity.
  - reflexivity.
  - unfold create. now rewrite !Hrun.
  - unfold create. do 2 eexists. split; [apply Hrun|].
    split; reflexivity.
  - intros d Hd Hmin. unfold create.
    do 2 eexists. split; [apply Hrun|].
    unfold ShareLinkService.calculateExpiryDate.
    destruct (Z.eqb_spec d 0); [lia|].
    unfold ShareLinkService.msPerDay.
    rewrite timeClip_in_range by lia. cbn [expiryDate ttl].
    split; [reflexivity|]. split; [lia|].
    split; [apply calculateTTL_nonpositive; lia|].
    intros t Ht. unfold ShareLinkRepo.isShareLinkValid. simpl.
    destruct (Z.ltb_spec (nowExpiry env + d * 86400000) t);
      [reflexivity|lia].
  - intros d Hd Hmin. unfold create.
    do 2 eexists. split; [apply Hrun|].
    unfold ShareLinkService.calculateExpiryDate.
    destruct (Z.eqb_spec d 0); [lia|].
    unfold ShareLinkService.msPerDay.
    rewrite timeClip_out_of_range by lia. cbn [expiryDate ttl isRevoked].
    repeat split.
Qed.

Lemma createShareLink_duration_unchecked_sample :
  let create days :=
    ShareLinkService.createShareLink (Sample.envTick 36000000)
      (Sample.request days) Sample.world3 in
  create (Some 0) = create None
  /\ (exists link w',
         create (Some (-2)) = (Ok link, w')
         /\ expiryDate link = Some (35999990 + -2 * 86400000)
         /\ 35999990 + -2 * 86400000 < 36000000
         /\ ttl link = None
         /\ forall t, 36000000 <= t ->
              ShareLinkRepo.isShareLinkValid link t = false)
  /\ (exists link w',
         create (Some (-200000000)) = (Ok link, w')
         /\ expiryDate link = None
         /\ ttl link = None
         /\ isRevoked link = false
         /\ forall t, ShareLinkRepo.isShareLinkValid link t = true).
Proof.
  pose proof (createShareLink_duration_unchecked (Sample.envTick 36000000)
                Sample.world3 Sample.photo "f1" "alice"
                eq_refl eq_refl eq_refl eq_refl eq_refl
                ltac:(simpl; lia) ltac:(simpl; lia) ltac:(simpl; lia))
    as (_ & _ & Hzero & _ & Hneg & Hfar).
  split; [exact Hzero|]. split.
  - exact (Hneg (-2) eq_refl ltac:(simpl; lia)).
  - exact (Hfar (-200000000) eq_refl eq_refl).
Defined.

(** C10, the claim as stated, fails: [expirationDays = -200000000] is
    negative, and the link created for it carries no expiry date and is
    valid at its creation and a hundred years later. *)
Lemma createShareLink_far_past_never_expires :
  let link :=
    {| linkId := "9b2d";
       fileId := "f1";
       userId := "alice";
       expiryDate := None;
       accessCount := 0;
       createdDate := 36000000;
       isRevoked := false;
       ttl := None |} in
  ShareLinkService.createShareLink (Sample.env 36000000)
    (Sample.request (Some (-200000000))) Sample.world3
  = (Ok link,
     {| shareLinks := (shareLinks Sample.world3 ++ [link])%list;
        files := files Sample.world3;
        blobs := blobs Sample.world3 |})
  /\ ShareLinkRepo.isShareLinkValid link 36000000 = true
  /\ ShareLinkRepo.isShareLinkValid link (36000000 + 36500 * 86400000)
     = true.
Proof. repeat split. Qed.

(** ** The lifetime of the minted credential *)

Lemma sasExpirationHours_eq (l : IShareLink) (expiry t : Z) :
  expiryDate l = Some expiry ->
  ShareLinkService.sasExpirationHours l t
  = Some (Z.min (Z.max 1 ((expiry - t) / 3600000)) 24).
Proof.
  intros H.
  unfold ShareLinkService.sasExpirationHours,
    ShareLinkService.hoursUntilExpiry.
  now rewrite H.
Qed.

Lemma sasExpirationHours_bounds (remaining : Z) :
  let h := Z.min (Z.max 1 (remaining / 3600000)) 24 in
  1 <= h <= 24
  /\ (3600000 <= remaining -> h * 3600000 <= remaining)
  /\ (remaining < 3600000 -> h = 1).
Proof.
  intros h. subst h.
  assert (Hdiv := Z.mul_div_le remaining 3600000 ltac:(lia)).
  split; [lia|]. split.
  - intros Hr.
    assert (1 <= remaining / 3600000)
      by (apply Z.div_le_lower_bound; lia).
    lia.
  - intros Hr.
    assert (remaining / 3600000 <= 0).
    { destruct (Z_lt_le_dec remaining 0).
      - assert (remaining / 3600000 < 0) by (apply Z.div_lt_upper_bound; lia).
        lia.
      - rewrite Z.div_small; lia. }
    lia.
Qed.

(** ** Running the repository operations *)

Lemma find_linkId (id : string) (docs : list IShareLink) (l : IShareLink) :
  find (fun c => String.eqb (linkId c) id) docs = Some l ->
  linkId l = id /\ In l docs.
Proof.
  intros H. apply find_some in H. destruct H as [Hin Heq].
  apply String.eqb_eq in Heq. now split.
Qed.

Lemma updateShareLink_run (env : Env) (w : World) (l l0 : IShareLink) :
  queryLinks env = NoFault ->
  find (fun c => String.eqb (linkId c) (linkId l)) (shareLinks w) = Some l0 ->
  ShareLinkRepo.updateShareLink env l w
  = if replaceThrows env (linkId l)
    then (Throw "Failed to update share link", w)
    else (Ok l,
          ShareLinkRepo.setShareLinks
            (ShareLinkRepo.replaceItem (linkId l) l (shareLinks w)) w).
Proof.
  intros Hq Hf.
  unfold ShareLinkRepo.updateShareLink, rethrowAs, bind,
    ShareLinkRepo.getShareLinkById, ShareLinkRepo.replace.
  rewrite Hq, Hf. now destruct (replaceThrows env (linkId l)).
Qed.

Lemma revokeShareLink_run (env : Env) (w : World) (id : string)
    (l : IShareLink) :
  queryLinks env = NoFault ->
  find (fun c => String.eqb (linkId c) id) (shareLinks w) = Some l ->
  ShareLinkRepo.revokeShareLink env id w
  = if replaceThrows env id
    then (Throw "Failed to revoke share link", w)
    else (Ok tt,
          ShareLinkRepo.setShareLinks
            (ShareLinkRepo.replaceItem id (ShareLinkRepo.setRevoked l)
               (shareLinks w)) w).
Proof.
  intros Hq Hf. destruct (find_linkId _ _ _ Hf) as [Hid _].
  unfold ShareLinkRepo.revokeShareLink, rethrowAs, bind.
  unfold ShareLinkRepo.getShareLinkById at 1. rewrite Hq, Hf.
  rewrite (updateShareLink_run env w (ShareLinkRepo.setRevoked l) l Hq)
    by (simpl; now rewrite Hid).
  simpl. rewrite Hid. now destruct (replaceThrows env id).
Qed.

Lemma incrementAccessCount_run (env : Env) (w : World) (id : string)
    (l : IShareLink) :
  queryLinks env = NoFault ->
  find (fun c => String.eqb (linkId c) id) (shareLinks w) = Some l ->
  ShareLinkRepo.incrementAccessCount env id w
  = if replaceThrows env id
    then (Throw "Failed to increment access count", w)
    else (Ok tt,
          ShareLinkRepo.setShareLinks
            (ShareLinkRepo.replaceItem id
               (ShareLinkRepo.setAccessCount
                  (Js.orZero (accessCount l) + 1) l)
               (shareLinks w)) w).
Proof.
  intros Hq Hf. destruct (find_linkId _ _ _ Hf) as [Hid _].
  unfold ShareLinkRepo.incrementAccessCount, rethrowAs, bind.
  unfold ShareLinkRepo.getShareLinkById at 1. rewrite Hq, Hf.
  rewrite (updateShareLink_run env w
             (ShareLinkRepo.setAccessCount (Js.orZero (accessCount l) + 1) l)
             l Hq)
    by (simpl; now rewrite Hid).
  simpl. rewrite Hid. now destruct (replaceThrows env id).
Qed.

(** Whatever the store does, record-access throws one message only. *)
Lemma incrementAccessCount_throws (env : Env) (w w' : World) (id : string)
    (message : string) :
  ShareLinkRepo.incrementAccessCount env id w = (Throw message, w') ->
  message = "Failed to increment access count".
Proof.
  unfold ShareLinkRepo.incrementAccessCount, rethrowAs.
  destruct (bind _ _ w) as [[v|m] w1]; [discriminate|].
  intros H. now injection H as <- _.
Qed.

(** ** Running the resolution of a share link *)

(** Once the link is found valid, the file found active and the credential
    minted, the outcome of the resolution is the outcome of
    [incrementAccessCount]. *)
Lemma getFileByShareLink_after_minting (env : Env) (w : World) (id : string)
    (l : IShareLink) (f : File.IFile) (token : string) :
  queryLinks env = NoFault ->
  find (fun c => String.eqb (linkId c) id) (shareLinks w) = Some l ->
  ShareLinkRepo.isShareLinkValid l (now env) = true ->
  queryFiles env = NoFault ->
  find (fun c => String.eqb (File.fileId c) (fileId l)) (files w) = Some f ->
  File.status f = File.active ->
  minted env f l token ->
  ShareLinkService.getFileByShareLink env id w
  = match ShareLinkRepo.incrementAccessCount env id w with
    | (Ok _, w') =>
        (Ok {| ShareLinkService.file := f;
               ShareLinkService.shareLink := l;
               ShareLinkService.downloadUrl := sasUrlOf env f token |}, w')
    | (Throw message, w') => (Throw message, w')
    end.
Proof.
  intros Hq Hl Hv Hqf Hf Hs Hm.
  unfold ShareLinkService.getFileByShareLink, bind.
  unfold ShareLinkRepo.getShareLinkById at 1. rewrite Hq, Hl, Hv. simpl.
  unfold FileRepo.getFileById. rewrite Hqf, Hf, Hs. simpl.
  unfold BlobService.getBlobUrl, BlobService.generateBlobSASUrl.
  unfold minted in Hm. rewrite Hm. unfold ret at 1.
  destruct (ShareLinkRepo.incrementAccessCount env id w) as [[u|m] w'];
    reflexivity.
Qed.

(** A resolution that returns went through every step. *)
Lemma getFileByShareLink_ok_inv (env : Env) (w w' : World) (id : string)
    (r : ShareLinkService.Resolved) :
  ShareLinkService.getFileByShareLink env id w = (Ok r, w') ->
  exists l f token,
    queryLinks env = NoFault
    /\ find (fun c => String.eqb (linkId c) id) (shareLinks w) = Some l
    /\ ShareLinkRepo.isShareLinkValid l (now env) = true
    /\ queryFiles env = NoFault
    /\ find (fun c => String.eqb (File.fileId c) (fileId l)) (files w)
       = Some f
    /\ File.status f = File.active
    /\ minted env f l token
    /\ ShareLinkRepo.incrementAccessCount env id w = (Ok tt, w')
    /\ r = {| ShareLinkService.file := f;
              ShareLinkService.shareLink := l;
              ShareLinkService.downloadUrl := sasUrlOf env f token |}.
Proof.
  unfold ShareLinkService.getFileByShareLink, bind.
  unfold ShareLinkRepo.getShareLinkById at 1.
  destruct (queryLinks env) eqn:Hq; try discriminate.
  destruct (find _ (shareLinks w)) as [l|] eqn:Hl; [|discriminate].
  destruct (ShareLinkRepo.isShareLinkValid l (now env)) eqn:Hv;
    [|discriminate].
  simpl. unfold FileRepo.getFileById.
  destruct (queryFiles env) eqn:Hqf; try discriminate.
  destruct (find _ (files w)) as [f|] eqn:Hf; [|discriminate].
  destruct (File.status f) eqn:Hs; [|discriminate]. simpl.
  unfold BlobService.getBlobUrl, BlobService.generateBlobSASUrl.
  destruct (sasToken env _ _) as [token|] eqn:Hm; [|discriminate].
  unfold ret at 1.
  destruct (ShareLinkRepo.incrementAccessCount env id w) as [[[]|m] w1]
    eqn:Hi; [|discriminate].
  unfold ret. intros H. injection H as <- <-.
  exists l, f, token. repeat split; auto.
Qed.

Lemma route_getFileByShareLink_run (env : Env) (w : World) (id : string) :
  id <> "" ->
  ShareRoutes.getFileByShareLink env id w
  = match ShareLinkService.getFileByShareLink env id w with
    | (Ok result, w') =>
        ({| Http.status := Http.Ok; Http.body := Http.Json result |}, w')
    | (Throw message, w') =>
        ({| Http.status := ShareRoutes.resolveErrorStatus message;
            Http.body :=
              Http.Error (Js.orString message "Failed to access share link")
         |}, w')
    end.
Proof.
  intros Hid. unfold ShareRoutes.getFileByShareLink.
  destruct id; [contradiction|reflexivity].
Qed.

(** C7 (as amended).  On a successful resolution of a link that carries an
    expiry date, the credential is minted for
    [min(max(1, floor(remaining / 1h)), 24)] hours, where [remaining] is
    the time left until the expiry date: between 1 and 24 hours, within the
    remaining time when at least an hour remains, and exactly one hour when
    less than an hour remains. *)
Theorem getFileByShareLink_credential_lifetime (env : Env) (w w' : World)
    (id : string) (r : ShareLinkService.Resolved) (expiry : Z) :
  ShareLinkService.getFileByShareLink env id w = (Ok r, w') ->
  expiryDate (ShareLinkService.shareLink r) = Some expiry ->
  let remaining := expiry - now env in
  let hours := Z.min (Z.max 1 (remaining / 3600000)) 24 in
  (exists token,
      sasToken env
        (ShareLinkService.blobNameOf
           (File.blobUrl (ShareLinkService.file r)))
        (Some (now env + hours * 3600000)) = Some token
      /\ ShareLinkService.downloadUrl r
         = sasUrlOf env (ShareLinkService.file r) token)
  /\ 0 <= remaining
  /\ 1 <= hours <= 24
  /\ (3600000 <= remaining -> hours * 3600000 <= remaining)
  /\ (remaining < 3600000 -> hours = 1).
Proof.
  intros Hrun Hexp remaining hours.
  destruct (getFileByShareLink_ok_inv _ _ _ _ _ Hrun)
    as (l & f & token & _ & _ & Hv & _ & _ & _ & Hm & _ & ->).
  simpl in Hexp |- *.
  split; [|split].
  - exists token. split; [|reflexivity].
    unfold minted in Hm.
    rewrite (sasExpirationHours_eq l expiry (now env) Hexp) in Hm.
    exact Hm.
  - apply isShareLinkValid_true in Hv. destruct Hv as [_ [Hn|[e [He Hle]]]].
    + congruence.
    + assert (e = expiry) by congruence. subst e. unfold remaining. lia.
  - exact (sasExpirationHours_bounds remaining).
Qed.

Lemma getFileByShareLink_credential_lifetime_sample :
  (exists token,
      Sample.token "alice/f1/a.png" (Some (36000000 + 24 * 3600000))
      = Some token
      /\ ShareLinkService.downloadUrl Sample.resolved1
         = sasUrlOf (Sample.env 36000000) Sample.photo token)
  /\ 0 <= 324000000.
Proof.
  pose proof (getFileByShareLink_credential_lifetime (Sample.env 36000000)
                Sample.world
                (snd (ShareLinkService.getFileByShareLink
                        (Sample.env 36000000) "l1" Sample.world))
                "l1" Sample.resolved1 360000000 eq_refl eq_refl) as H.
  exact (conj (proj1 H) (proj1 (proj2 H))).
Defined.

(** C7, the claim as stated, fails: link ["l5"] expires in ten seconds,
    its resolution succeeds, and the credential is minted for one hour,
    which is above [min(requested, 24 h, 10 s)] whatever was requested. *)
Lemma credential_outlives_link :
  let env := Sample.env 36000000 in
  (exists w',
      ShareLinkService.getFileByShareLink env "l5" Sample.world
      = (Ok Sample.resolved5, w'))
  /\ expiryDate (ShareLinkService.shareLink Sample.resolved5)
     = Some (now env + 10000)
  /\ ShareLinkService.sasExpirationHours
       (ShareLinkService.shareLink Sample.resolved5) (now env) = Some 1
  /\ forall requestedLifetime,
       ~ 1 * BlobService.msPerHour
         <= Spec.lifetimeBound requestedLifetime Spec.storageCeiling 10000.
Proof.
  cbv zeta. split; [eexists; vm_compute; reflexivity|].
  split; [reflexivity|]. split; [reflexivity|].
  intros requestedLifetime. unfold Spec.lifetimeBound, Spec.storageCeiling.
  unfold BlobService.msPerHour. lia.
Qed.

(** C2.  The value of a successful resolution carries a document of the
    Files container as it is stored, [blobUrl] included, and the route
    sends that value as the body of its answer. *)
Theorem getFileByShareLink_returns_stored_file (env : Env) (w w' : World)
    (id : string) (r : ShareLinkService.Resolved) :
  ShareLinkService.getFileByShareLink env id w = (Ok r, w') ->
  id <> "" ->
  In (ShareLinkService.file r) (files w)
  /\ ShareRoutes.getFileByShareLink env id w
     = ({| Http.status := Http.Ok; Http.body := Http.Json r |}, w').
Proof.
  intros Hrun Hid.
  rewrite (route_getFileByShareLink_run env w id Hid), Hrun.
  split; [|reflexivity].
  destruct (getFileByShareLink_ok_inv _ _ _ _ _ Hrun)
    as (l & f & token & _ & _ & _ & _ & Hf & _ & _ & _ & ->).
  simpl. apply find_some in Hf. tauto.
Qed.

Lemma getFileByShareLink_returns_stored_file_sample :
  (In Sample.photo (files Sample.world)
   /\ fst (ShareRoutes.getFileByShareLink (Sample.env 36000000) "l1"
             Sample.world)
      = {| Http.status := Http.Ok;
           Http.body := Http.Json Sample.resolved1 |})
  /\ File.blobUrl (ShareLinkService.file Sample.resolved1)
     = "https://acct.blob.core.windows.net/cloudpix-files/alice/f1/a.png?sv=2023-01-03&sp=r&sig=b2xk".
Proof.
  split; [|reflexivity].
  pose proof (getFileByShareLink_returns_stored_file (Sample.env 36000000)
                Sample.world
                (snd (ShareLinkService.getFileByShareLink
                        (Sample.env 36000000) "l1" Sample.world))
                "l1" Sample.resolved1 eq_refl
                ltac:(discriminate)) as [Hin Hroute].
  split; [exact Hin|]. now rewrite Hroute.
Defined.

(** ** Failures of the resolution *)

(** C3 (as amended).  Resolving a link that fails validation, whether
    revoked or past its expiry date, throws the one message "Share link is
    expired or revoked" and leaves the store as it was; the route answers
    410 Gone with that message. *)
Theorem getFileByShareLink_invalid (env : Env) (w : World) (id : string)
    (l : IShareLink) :
  queryLinks env = NoFault ->
  find (fun c => String.eqb (linkId c) id) (shareLinks w) = Some l ->
  ShareLinkRepo.isShareLinkValid l (now env) = false ->
  id <> "" ->
  ShareLinkService.getFileByShareLink env id w
  = (Throw "Share link is expired or revoked", w)
  /\ ShareRoutes.getFileByShareLink env id w
     = ({| Http.status := Http.Gone;
           Http.body := Http.Error "Share link is expired or revoked" |}, w).
Proof.
  intros Hq Hl Hv Hid.
  assert (Hrun : ShareLinkService.getFileByShareLink env id w
                 = (Throw "Share link is expired or revoked", w)).
  { unfold ShareLinkService.getFileByShareLink, bind,
      ShareLinkRepo.getShareLinkById.
    now rewrite Hq, Hl, Hv. }
  split; [exact Hrun|].
  now rewrite (route_getFileByShareLink_run env w id Hid), Hrun.
Qed.

Lemma getFileByShareLink_invalid_sample :
  ShareLinkService.getFileByShareLink (Sample.env 36000000) "l3"
    Sample.world
  = (Throw "Share link is expired or revoked", Sample.world)
  /\ ShareRoutes.getFileByShareLink (Sample.env 36000000) "l3" Sample.world
     = ({| Http.status := Http.Gone;
           Http.body := Http.Error "Share link is expired or revoked" |},
        Sample.world).
Proof.
  apply (getFileByShareLink_invalid (Sample.env 36000000) Sample.world "l3"
           (Sample.link "l3" (9 * Sample.hour) false)
           eq_refl eq_refl eq_refl).
  discriminate.
Defined.

(** C3, the claim as stated, fails: ["l2"] is revoked and not expired,
    ["l3"] is expired and not revoked, and both the service and the route
    answer the two resolutions alike, so nothing computed from the answer
    tells Revoked from Expired. *)
Lemma expired_and_revoked_collapse :
  let env := Sample.env 36000000 in
  let revoked := Sample.link "l2" (100 * Sample.hour) true in
  let expired := Sample.link "l3" (9 * Sample.hour) false in
  In revoked (shareLinks Sample.world)
  /\ In expired (shareLinks Sample.world)
  /\ isRevoked revoked = true
  /\ expiryDate revoked = Some 360000000
  /\ isRevoked expired = false
  /\ expiryDate expired = Some 32400000
  /\ ShareLinkService.getFileByShareLink env "l2" Sample.world
     = ShareLinkService.getFileByShareLink env "l3" Sample.world
  /\ ShareRoutes.getFileByShareLink env "l2" Sample.world
     = ShareRoutes.getFileByShareLink env "l3" Sample.world
  /\ ~ exists kind : Http.Response ShareLinkService.Resolved -> bool,
         kind (fst (ShareRoutes.getFileByShareLink env "l2" Sample.world))
         = true
         /\ kind (fst (ShareRoutes.getFileByShareLink env "l3" Sample.world))
            = false.
Proof.
  cbv zeta.
  split; [simpl; tauto|]. split; [simpl; tauto|].
  do 4 (split; [reflexivity|]).
  split; [reflexivity|]. split; [reflexivity|].
  intros [kind [H2 H3]].
  change (ShareRoutes.getFileByShareLink (Sample.env 36000000) "l3"
            Sample.world)
    with (ShareRoutes.getFileByShareLink (Sample.env 36000000) "l2"
            Sample.world) in H3.
  congruence.
Qed.

(** C6 (as amended).  After validation, the file check and the minting of
    the credential, the resolution does what [incrementAccessCount] does:
    when the accounting throws, the resolution throws "Failed to increment
    access count" (the route answers 400 with that message) and no
    credential is returned; when the accounting returns, the file, the link
    and the credential are returned. *)
Theorem getFileByShareLink_accounting_decides (env : Env) (w : World)
    (id : string) (l : IShareLink) (f : File.IFile) (token : string) :
  queryLinks env = NoFault ->
  find (fun c => String.eqb (linkId c) id) (shareLinks w) = Some l ->
  ShareLinkRepo.isShareLinkValid l (now env) = true ->
  queryFiles env = NoFault ->
  find (fun c => String.eqb (File.fileId c) (fileId l)) (files w) = Some f ->
  File.status f = File.active ->
  minted env f l token ->
  id <> "" ->
  (forall message w',
      ShareLinkRepo.incrementAccessCount env id w = (Throw message, w') ->
      ShareLinkService.getFileByShareLink env id w
      = (Throw "Failed to increment access count", w')
      /\ ShareRoutes.getFileByShareLink env id w
         = ({| Http.status := Http.BadRequest;
               Http.body := Http.Error "Failed to increment access count" |},
            w'))
  /\ (forall w',
         ShareLinkRepo.incrementAccessCount env id w = (Ok tt, w') ->
         ShareLinkService.getFileByShareLink env id w
         = (Ok {| ShareLinkService.file := f;
                  ShareLinkService.shareLink := l;
                  ShareLinkService.downloadUrl := sasUrlOf env f token |},
            w'))
  /\ (replaceThrows env id = true ->
      ShareLinkRepo.incrementAccessCount env id w
      = (Throw "Failed to increment access count", w)).
Proof.
  intros Hq Hl Hv Hqf Hf Hs Hm Hid.
  assert (Hrun := getFileByShareLink_after_minting env w id l f token
                    Hq Hl Hv Hqf Hf Hs Hm).
  split; [|split].
  - intros message w' Hi.
    assert (message = "Failed to increment access count")
      by exact (incrementAccessCount_throws _ _ _ _ _ Hi).
    subst message. rewrite Hi in Hrun. split; [exact Hrun|].
    now rewrite (route_getFileByShareLink_run env w id Hid), Hrun.
  - intros w' Hi. now rewrite Hi in Hrun.
  - intros Hr. rewrite (incrementAccessCount_run env w id l Hq Hl).
    now rewrite Hr.
Qed.

Lemma getFileByShareLink_accounting_decides_sample :
  ShareLinkService.getFileByShareLink
    (Sample.envReplaceFails 36000000 "l1") "l1" Sample.world
  = (Throw "Failed to increment access count", Sample.world)
  /\ ShareRoutes.getFileByShareLink
       (Sample.envReplaceFails 36000000 "l1") "l1" Sample.world
     = ({| Http.status := Http.BadRequest;
           Http.body := Http.Error "Failed to increment access count" |},
        Sample.world).
Proof.
  exact (proj1
           (getFileByShareLink_accounting_decides
              (Sample.envReplaceFails 36000000 "l1") Sample.world "l1"
              (Sample.link "l1" (100 * Sample.hour) false) Sample.photo
              "sv=2024-11-04&sp=r&sig=c2ln"
              eq_refl eq_refl eq_refl eq_refl eq_refl eq_refl eq_refl
              ltac:(discriminate))
           "Failed to increment access count" Sample.world eq_refl).
Defined.

(** C6, the claim as stated, fails: ["l1"] is valid, its file is active
    and the credential is minted, yet when the store rejects the update of
    the counter the resolution throws and the route answers 400 without a
    credential. *)
Lemma accounting_failure_blocks :
  let env := Sample.envReplaceFails 36000000 "l1" in
  let l := Sample.link "l1" (100 * Sample.hour) false in
  find (fun c => String.eqb (linkId c) "l1") (shareLinks Sample.world)
  = Some l
  /\ ShareLinkRepo.isShareLinkValid l (now env) = true
  /\ find (fun c => String.eqb (File.fileId c) (fileId l))
       (files Sample.world) = Some Sample.photo
  /\ File.status Sample.photo = File.active
  /\ BlobService.getBlobUrl env
       (ShareLinkService.blobNameOf (File.blobUrl Sample.photo))
       (ShareLinkService.sasExpirationHours l (now env)) Sample.world
     = (Ok (ShareLinkService.downloadUrl Sample.resolved1), Sample.world)
  /\ ShareLinkRepo.incrementAccessCount env "l1" Sample.world
     = (Throw "Failed to increment access count", Sample.world)
  /\ ShareLinkService.getFileByShareLink env "l1" Sample.world
     = (Throw "Failed to increment access count", Sample.world)
  /\ ShareRoutes.getFileByShareLink env "l1" Sample.world
     = ({| Http.status := Http.BadRequest;
           Http.body := Http.Error "Failed to increment access count" |},
        Sample.world).
Proof. cbv zeta. repeat split; vm_compute; reflexivity. Qed.

(** ** Replacing a document of the ShareLinks container *)

Lemma find_replaceItem (id : string) (d l : IShareLink)
    (docs : list IShareLink) :
  linkId d = id ->
  find (fun c => String.eqb (linkId c) id) docs = Some l ->
  find (fun c => String.eqb (linkId c) id)
    (ShareLinkRepo.replaceItem id d docs) = Some d.
Proof.
  intros Hd. induction docs as [|c docs IH]; simpl; [discriminate|].
  destruct (String.eqb (linkId c) id) eqn:Hc; simpl.
  - intros _. now rewrite Hd, String.eqb_refl.
  - rewrite Hc. exact IH.
Qed.

Lemma replaceItem_twice (id : string) (d : IShareLink)
    (docs : list IShareLink) :
  linkId d = id ->
  ShareLinkRepo.replaceItem id d (ShareLinkRepo.replaceItem id d docs)
  = ShareLinkRepo.replaceItem id d docs.
Proof.
  intros Hd. induction docs as [|c docs IH]; simpl; [reflexivity|].
  destruct (String.eqb (linkId c) id) eqn:Hc; simpl.
  - now rewrite Hd, String.eqb_refl.
  - now rewrite Hc, IH.
Qed.

Lemma preserved_refl (l : IShareLink) : preserved l l.
Proof. constructor; auto; lia. Qed.

Lemma Forall2_preserved_refl (docs : list IShareLink) :
  Forall2 preserved docs docs.
Proof. induction docs; constructor; auto using preserved_refl. Qed.

Lemma Forall2_preserved_replaceItem (id : string) (d l : IShareLink)
    (docs : list IShareLink) :
  find (fun c => String.eqb (linkId c) id) docs = Some l ->
  preserved l d ->
  Forall2 preserved docs (ShareLinkRepo.replaceItem id d docs).
Proof.
  intros Hf Hp. induction docs as [|c docs IH]; simpl in *; [discriminate|].
  destruct (String.eqb (linkId c) id).
  - injection Hf as ->. constructor; [exact Hp|].
    apply Forall2_preserved_refl.
  - constructor; [apply preserved_refl|auto].
Qed.

Lemma preserved_setRevoked (l : IShareLink) :
  preserved l (ShareLinkRepo.setRevoked l).
Proof. constructor; simpl; auto; lia. Qed.

Lemma preserved_setAccessCount (l : IShareLink) :
  preserved l
    (ShareLinkRepo.setAccessCount (Js.orZero (accessCount l) + 1) l).
Proof.
  constructor; simpl; auto. unfold Js.orZero.
  destruct (Z.eqb_spec (accessCount l) 0); lia.
Qed.

(** The store after each mutating operation: untouched, or one document
    replaced by its revoked, respectively counted, version. *)
Lemma revokeShareLink_world (env : Env) (w : World) (id : string) :
  snd (ShareLinkRepo.revokeShareLink env id w) = w
  \/ exists l,
       find (fun c => String.eqb (linkId c) id) (shareLinks w) = Some l
       /\ snd (ShareLinkRepo.revokeShareLink env id w)
          = ShareLinkRepo.setShareLinks
              (ShareLinkRepo.replaceItem id (ShareLinkRepo.setRevoked l)
                 (shareLinks w)) w.
Proof.
  destruct (queryLinks env) eqn:Hq.
  - destruct (find (fun c => String.eqb (linkId c) id) (shareLinks w))
      as [l|] eqn:Hf.
    + rewrite (revokeShareLink_run env w id l Hq Hf).
      destruct (replaceThrows env id); [now left|].
      right. now exists l.
    + left. unfold ShareLinkRepo.revokeShareLink, rethrowAs, bind,
        ShareLinkRepo.getShareLinkById.
      now rewrite Hq, Hf.
  - left. unfold ShareLinkRepo.revokeShareLink, rethrowAs, bind,
      ShareLinkRepo.getShareLinkById.
    now rewrite Hq.
  - left. unfold ShareLinkRepo.revokeShareLink, rethrowAs, bind,
      ShareLinkRepo.getShareLinkById.
    now rewrite Hq.
Qed.

Lemma incrementAccessCount_world (env : Env) (w : World) (id : string) :
  snd (ShareLinkRepo.incrementAccessCount env id w) = w
  \/ exists l,
       find (fun c => String.eqb (linkId c) id) (shareLinks w) = Some l
       /\ snd (ShareLinkRepo.incrementAccessCount env id w)
          = ShareLinkRepo.setShareLinks
              (ShareLinkRepo.replaceItem id
                 (ShareLinkRepo.setAccessCount
                    (Js.orZero (accessCount l) + 1) l)
                 (shareLinks w)) w.
Proof.
  destruct (queryLinks env) eqn:Hq.
  - destruct (find (fun c => String.eqb (linkId c) id) (shareLinks w))
      as [l|] eqn:Hf.
    + rewrite (incrementAccessCount_run env w id l Hq Hf).
      destruct (replaceThrows env id); [now left|].
      right. now exists l.
    + left. unfold ShareLinkRepo.incrementAccessCount, rethrowAs, bind,
        ShareLinkRepo.getShareLinkById.
      now rewrite Hq, Hf.
  - left. unfold ShareLinkRepo.incrementAccessCount, rethrowAs, bind,
      ShareLinkRepo.getShareLinkById.
    now rewrite Hq.
  - left. unfold ShareLinkRepo.incrementAccessCount, rethrowAs, bind,
      ShareLinkRepo.getShareLinkById.
    now rewrite Hq.
Qed.

Lemma service_revokeShareLink_world (env : Env) (w : World)
    (id uid : string) :
  snd (ShareLinkService.revokeShareLink env id uid w) = w
  \/ snd (ShareLinkService.revokeShareLink env id uid w)
     = snd (ShareLinkRepo.revokeShareLink env id w).
Proof.
  set (repo := snd (ShareLinkRepo.revokeShareLink env id w)).
  unfold ShareLinkService.revokeShareLink, bind,
    ShareLinkRepo.getShareLinkById.
  destruct (queryLinks env); try (now left).
  destruct (find _ (shareLinks w)) as [l|]; [|now left].
  destruct (negb (String.eqb (userId l) uid)); [now left|now right].
Qed.

Lemma service_getFileByShareLink_world (env : Env) (w : World)
    (id : string) :
  snd (ShareLinkService.getFileByShareLink env id w) = w
  \/ snd (ShareLinkService.getFileByShareLink env id w)
     = snd (ShareLinkRepo.incrementAccessCount env id w).
Proof.
  set (repo := snd (ShareLinkRepo.incrementAccessCount env id w)).
  unfold ShareLinkService.getFileByShareLink, bind.
  unfold ShareLinkRepo.getShareLinkById.
  destruct (queryLinks env); try (now left).
  destruct (find _ (shareLinks w)) as [l|]; [|now left].
  destruct (negb (ShareLinkRepo.isShareLinkValid l (now env))); [now left|].
  unfold FileRepo.getFileById.
  destruct (queryFiles env); try (now left).
  destruct (find _ (files w)) as [f|]; [|now left].
  destruct (negb (File.status_eqb (File.status f) File.active));
    [now left|].
  unfold BlobService.getBlobUrl, BlobService.generateBlobSASUrl.
  destruct (sasToken env _ _); [|now left].
  right. subst repo. unfold ret. simpl.
  now destruct (ShareLinkRepo.incrementAccessCount env id w) as [[u|m] w'].
Qed.

(** ** Invariants of a share-link document *)

(** C9.  Revoking and recording an access, in the repository and through
    the services that call it, leave every document of the ShareLinks
    container with its linkId, fileId, userId, createdDate and expiryDate;
    no document goes from revoked to unrevoked and no accessCount goes
    down.  This holds whether the operation returns or throws. *)
Theorem mutations_preserve_share_links (env : Env) (w : World)
    (id uid : string) :
  Forall2 preserved (shareLinks w)
    (shareLinks (snd (ShareLinkRepo.revokeShareLink env id w)))
  /\ Forall2 preserved (shareLinks w)
       (shareLinks (snd (ShareLinkRepo.incrementAccessCount env id w)))
  /\ Forall2 preserved (shareLinks w)
       (shareLinks (snd (ShareLinkService.revokeShareLink env id uid w)))
  /\ Forall2 preserved (shareLinks w)
       (shareLinks (snd (ShareLinkService.getFileByShareLink env id w))).
Proof.
  assert (Hrev : Forall2 preserved (shareLinks w)
            (shareLinks (snd (ShareLinkRepo.revokeShareLink env id w)))).
  { destruct (revokeShareLink_world env w id) as [-> | (l & Hf & ->)].
    - apply Forall2_preserved_refl.
    - simpl. eapply Forall2_preserved_replaceItem; eauto.
      apply preserved_setRevoked. }
  assert (Hinc : Forall2 preserved (shareLinks w)
            (shareLinks (snd (ShareLinkRepo.incrementAccessCount env id w)))).
  { destruct (incrementAccessCount_world env w id) as [-> | (l & Hf & ->)].
    - apply Forall2_preserved_refl.
    - simpl. eapply Forall2_preserved_replaceItem; eauto.
      apply preserved_setAccessCount. }
  repeat split; auto.
  - destruct (service_revokeShareLink_world env w id uid) as [-> | ->];
      [apply Forall2_preserved_refl|exact Hrev].
  - destruct (service_getFileByShareLink_world env w id) as [-> | ->];
      [apply Forall2_preserved_refl|exact Hinc].
Qed.

(** ** Revocation *)

Lemma service_revokeShareLink_owner (env : Env) (w : World) (id : string)
    (l : IShareLink) :
  queryLinks env = NoFault ->
  find (fun c => String.eqb (linkId c) id) (shareLinks w) = Some l ->
  replaceThrows env id = false ->
  ShareLinkService.revokeShareLink env id (userId l) w
  = (Ok tt,
     ShareLinkRepo.setShareLinks
       (ShareLinkRepo.replaceItem id (ShareLinkRepo.setRevoked l)
          (shareLinks w)) w).
Proof.
  intros Hq Hf Hr.
  unfold ShareLinkService.revokeShareLink, bind.
  unfold ShareLinkRepo.getShareLinkById at 1.
  rewrite Hq, Hf, String.eqb_refl. simpl.
  now rewrite (revokeShareLink_run env w id l Hq Hf), Hr.
Qed.

Lemma service_revokeShareLink_stranger (env : Env) (w : World)
    (id uid : string) (l : IShareLink) :
  queryLinks env = NoFault ->
  find (fun c => String.eqb (linkId c) id) (shareLinks w) = Some l ->
  uid <> userId l ->
  ShareLinkService.revokeShareLink env id uid w
  = (Throw "Unauthorized access", w).
Proof.
  intros Hq Hf Hu.
  unfold ShareLinkService.revokeShareLink, bind,
    ShareLinkRepo.getShareLinkById.
  rewrite Hq, Hf.
  destruct (String.eqb_spec (userId l) uid); [congruence|reflexivity].
Qed.

Lemma service_revokeShareLink_unknown (env : Env) (w : World)
    (id uid : string) :
  queryLinks env = NoFault ->
  find (fun c => String.eqb (linkId c) id) (shareLinks w) = None ->
  ShareLinkService.revokeShareLink env id uid w
  = (Throw "Share link not found", w).
Proof.
  intros Hq Hf.
  unfold ShareLinkService.revokeShareLink, bind,
    ShareLinkRepo.getShareLinkById.
  now rewrite Hq, Hf.
Qed.

Lemma route_revokeShareLink_run (env : Env) (w : World) (id uid : string) :
  uid <> "" ->
  id <> "" ->
  ShareRoutes.revokeShareLink env (Some uid) id w
  = match ShareLinkService.revokeShareLink env id uid w with
    | (Ok _, w') =>
        ({| Http.status := Http.Ok;
            Http.body := Http.Json "Share link revoked successfully" |}, w')
    | (Throw message, w') =>
        ({| Http.status := ShareRoutes.revokeErrorStatus message;
            Http.body :=
              Http.Error (Js.orString message "Failed to revoke share link")
         |}, w')
    end.
Proof.
  intros Hu Hid. unfold ShareRoutes.revokeShareLink.
  destruct uid; [contradiction|]. destruct id; [contradiction|reflexivity].
Qed.

(** C8.  With the store answering, revoking an existing link as its stored
    owner returns, and revoking it again returns and leaves the store as the
    first revocation left it.  Any other user is refused with "Unauthorized
    access" (401), before and after the revocation, and the store is not
    changed.  An id with no document is refused with "Share link not found"
    (404). *)
Theorem revokeShareLink_idempotent_owner_only (env env' : Env) (w : World)
    (id : string) (l : IShareLink) :
  queryLinks env = NoFault ->
  replaceThrows env id = false ->
  queryLinks env' = NoFault ->
  replaceThrows env' id = false ->
  find (fun c => String.eqb (linkId c) id) (shareLinks w) = Some l ->
  exists w1,
    ShareLinkService.revokeShareLink env id (userId l) w = (Ok tt, w1)
    /\ find (fun c => String.eqb (linkId c) id) (shareLinks w1)
       = Some (ShareLinkRepo.setRevoked l)
    /\ ShareLinkService.revokeShareLink env' id (userId l) w1 = (Ok tt, w1)
    /\ (forall uid, uid <> userId l ->
          ShareLinkService.revokeShareLink env id uid w
          = (Throw "Unauthorized access", w)
          /\ ShareLinkService.revokeShareLink env' id uid w1
             = (Throw "Unauthorized access", w1)
          /\ (uid <> "" -> id <> "" ->
              ShareRoutes.revokeShareLink env (Some uid) id w
              = ({| Http.status := Http.Unauthorized;
                    Http.body := Http.Error "Unauthorized access" |}, w)
              /\ ShareRoutes.revokeShareLink env' (Some uid) id w1
                 = ({| Http.status := Http.Unauthorized;
                       Http.body := Http.Error "Unauthorized access" |},
                    w1)))
    /\ (forall id' uid,
          find (fun c => String.eqb (linkId c) id') (shareLinks w) = None ->
          ShareLinkService.revokeShareLink env id' uid w
          = (Throw "Share link not found", w)
          /\ (uid <> "" -> id' <> "" ->
              ShareRoutes.revokeShareLink env (Some uid) id' w
              = ({| Http.status := Http.NotFound;
                    Http.body := Http.Error "Share link not found" |}, w))).
Proof.
  intros Hq Hr Hq' Hr' Hf.
  destruct (find_linkId _ _ _ Hf) as [Hid _].
  set (l1 := ShareLinkRepo.setRevoked l).
  set (w1 := ShareLinkRepo.setShareLinks
               (ShareLinkRepo.replaceItem id l1 (shareLinks w)) w).
  assert (Hf1 : find (fun c => String.eqb (linkId c) id) (shareLinks w1)
                = Some l1)
    by (apply (find_replaceItem id l1 l); [exact Hid|exact Hf]).
  exists w1. split; [|split; [|split; [|split]]].
  - apply service_revokeShareLink_owner; assumption.
  - exact Hf1.
  - change (userId l) with (userId l1).
    rewrite (service_revokeShareLink_owner env' w1 id l1 Hq' Hf1 Hr').
    f_equal. unfold w1, ShareLinkRepo.setShareLinks. simpl.
    change (ShareLinkRepo.setRevoked l1) with l1.
    now rewrite (replaceItem_twice id l1 (shareLinks w) Hid).
  - intros uid Hu.
    assert (H0 := service_revokeShareLink_stranger env w id uid l Hq Hf Hu).
    assert (H1 := service_revokeShareLink_stranger env' w1 id uid l1
                    Hq' Hf1 Hu).
    split; [exact H0|]. split; [exact H1|].
    intros Hne Hidne.
    rewrite !route_revokeShareLink_run by assumption.
    now rewrite H0, H1.
  - intros id' uid Hnone.
    assert (H0 := service_revokeShareLink_unknown env w id' uid Hq Hnone).
    split; [exact H0|].
    intros Hne Hidne.
    rewrite route_revokeShareLink_run by assumption.
    now rewrite H0.
Qed.

Lemma revokeShareLink_idempotent_owner_only_sample :
  exists w1,
    ShareLinkService.revokeShareLink (Sample.env 36000000) "l1" "alice"
      Sample.world = (Ok tt, w1)
    /\ ShareLinkService.revokeShareLink (Sample.env 36000001) "l1" "alice" w1
       = (Ok tt, w1)
    /\ ShareLinkService.revokeShareLink (Sample.env 36000000) "l1" "bob"
         Sample.world = (Throw "Unauthorized access", Sample.world)
    /\ ShareLinkService.revokeShareLink (Sample.env 36000001) "l1" "bob" w1
       = (Throw "Unauthorized access", w1)
    /\ ShareLinkService.revokeShareLink (Sample.env 36000000) "l0" "alice"
         Sample.world = (Throw "Share link not found", Sample.world).
Proof.
  destruct (revokeShareLink_idempotent_owner_only
              (Sample.env 36000000) (Sample.env 36000001) Sample.world "l1"
              (Sample.link "l1" (100 * Sample.hour) false)
              eq_refl eq_refl eq_refl eq_refl eq_refl)
    as (w1 & H1 & _ & H2 & Hbob & Hnone).
  exists w1. split; [exact H1|]. split; [exact H2|].
  destruct (Hbob "bob" ltac:(discriminate)) as (Hb0 & Hb1 & _).
  split; [exact Hb0|]. split; [exact Hb1|].
  exact (proj1 (Hnone "l0" "alice" eq_refl)).
Defined.

(** ** Deleting a file and its share links *)

Section Cascade.

Variable env : Env.
Hypothesis links_answer : queryLinks env = NoFault.

Lemma find_none_filter (id : string) (docs : list IShareLink) :
  find (fun c => String.eqb (linkId c) id) docs = None ->
  filter (fun c => negb (String.eqb (linkId c) id)) docs = docs.
Proof.
  induction docs as [|c docs IH]; simpl; [reflexivity|].
  destruct (String.eqb (linkId c) id); [discriminate|].
  intros H. simpl. now rewrite IH.
Qed.

Lemma deleteItem_filter (id : string) (docs : list IShareLink) :
  NoDup (map linkId docs) ->
  ShareLinkRepo.deleteItem id docs
  = filter (fun c => negb (String.eqb (linkId c) id)) docs.
Proof.
  induction docs as [|c docs IH]; simpl; [reflexivity|].
  intros Hnd. inversion Hnd as [|? ? Hnotin Hnd']; subst.
  destruct (String.eqb_spec (linkId c) id) as [Hc|Hc]; simpl.
  - symmetry. apply find_none_filter.
    destruct (find _ docs) as [l|] eqn:Hf; [|reflexivity].
    destruct (find_linkId _ _ _ Hf) as [Hl Hin].
    exfalso. apply Hnotin. rewrite Hc, <- Hl. now apply in_map.
  - now rewrite IH.
Qed.

Lemma NoDup_map_filter (p : IShareLink -> bool) (docs : list IShareLink) :
  NoDup (map linkId docs) -> NoDup (map linkId (filter p docs)).
Proof.
  induction docs as [|c docs IH]; simpl; [auto|].
  intros Hnd. inversion Hnd as [|? ? Hnotin Hnd']; subst.
  destruct (p c); simpl; [|auto].
  constructor; [|auto].
  intros Hin. apply Hnotin.
  apply in_map_iff in Hin. destruct Hin as (x & Hx & Hin).
  apply filter_In in Hin. rewrite <- Hx. apply in_map. tauto.
Qed.

Lemma NoDup_linkId_inj (docs : list IShareLink) (a b : IShareLink) :
  NoDup (map linkId docs) ->
  In a docs -> In b docs -> linkId a = linkId b -> a = b.
Proof.
  induction docs as [|c docs IH]; simpl; [tauto|].
  intros Hnd. inversion Hnd as [|? ? Hnotin Hnd']; subst.
  intros [-> | Ha] [-> | Hb] Heq; auto.
  - exfalso. apply Hnotin. rewrite Heq. now apply in_map.
  - exfalso. apply Hnotin. rewrite <- Heq. now apply in_map.
Qed.

(** What one turn of the loop leaves in the container when the store
    accepts the deletion. *)
Lemma deleteEach_step (w : World) (link : IShareLink)
    (rest : list IShareLink) :
  deleteThrows env (linkId link) = false ->
  NoDup (map linkId (shareLinks w)) ->
  ShareLinkRepo.deleteEach env (link :: rest) w
  = ShareLinkRepo.deleteEach env rest
      (ShareLinkRepo.setShareLinks
         (filter (fun c => negb (String.eqb (linkId c) (linkId link)))
                 (shareLinks w)) w).
Proof.
  intros Hd Hnd. simpl. unfold bind at 1.
  unfold ShareLinkRepo.getShareLinkById. rewrite links_answer.
  destruct (find _ (shareLinks w)) as [l|] eqn:Hf.
  - unfold bind, ShareLinkRepo.delete. rewrite Hd.
    now rewrite deleteItem_filter.
  - rewrite (find_none_filter _ _ Hf).
    now destruct w.
Qed.

Lemma filter_all {A : Type} (docs : list A) :
  filter (fun _ => true) docs = docs.
Proof. induction docs; simpl; congruence. Qed.

Lemma deleteEach_ok (links : list IShareLink) :
  forall w,
    (forall x, In x links -> deleteThrows env (linkId x) = false) ->
    NoDup (map linkId (shareLinks w)) ->
    ShareLinkRepo.deleteEach env links w
    = (Ok tt,
       ShareLinkRepo.setShareLinks
         (filter
            (fun c =>
               negb (existsb (fun x => String.eqb (linkId c) (linkId x))
                             links))
            (shareLinks w)) w).
Proof.
  induction links as [|link rest IH]; intros w Hd Hnd.
  - simpl. unfold ret. f_equal.
    destruct w as [docs fs bs]. unfold ShareLinkRepo.setShareLinks. simpl.
    now rewrite filter_all.
  - rewrite deleteEach_step by (auto; apply Hd; now left).
    rewrite IH.
    + f_equal. unfold ShareLinkRepo.setShareLinks. simpl. f_equal.
      clear. induction (shareLinks w) as [|c docs IHd]; simpl;
        [reflexivity|].
      destruct (String.eqb (linkId c) (linkId link)); simpl;
        [exact IHd|].
      destruct (existsb _ rest); simpl; [exact IHd|now rewrite IHd].
    + intros x Hx. apply Hd. now right.
    + simpl. now apply NoDup_map_filter.
Qed.

(** The loop throws as soon as the store rejects a deletion; the document
    it was asked to delete stays, and so does the Files container. *)
Lemma deleteEach_throws (links : list IShareLink) :
  forall w (l : IShareLink),
    In l links ->
    deleteThrows env (linkId l) = true ->
    NoDup (map linkId links) ->
    (forall x, In x links -> In x (shareLinks w)) ->
    NoDup (map linkId (shareLinks w)) ->
    exists message w',
      ShareLinkRepo.deleteEach env links w = (Throw message, w')
      /\ files w' = files w
      /\ In l (shareLinks w').
Proof.
  induction links as [|link rest IH]; intros w l Hin Hd Hndl Hsub Hnd;
    [contradiction|].
  inversion Hndl as [|? ? Hnotin Hndrest]; subst.
  destruct (deleteThrows env (linkId link)) eqn:Hlink.
  - simpl. unfold bind at 1.
    unfold ShareLinkRepo.getShareLinkById. rewrite links_answer.
    assert (Hlw : In link (shareLinks w)) by (apply Hsub; now left).
    destruct (find _ (shareLinks w)) as [l0|] eqn:Hf.
    + unfold bind, ShareLinkRepo.delete. rewrite Hlink.
      exists "Cosmos DB: delete rejected", w. split; [reflexivity|]. split; [reflexivity|].
      apply Hsub. exact Hin.
    + exfalso. eapply find_none in Hf; [|exact Hlw].
      simpl in Hf. now rewrite String.eqb_refl in Hf.
  - destruct Hin as [-> | Hin]; [congruence|].
    rewrite deleteEach_step by assumption.
    destruct (IH (ShareLinkRepo.setShareLinks
                    (filter
                       (fun c => negb (String.eqb (linkId c) (linkId link)))
                       (shareLinks w)) w) l Hin Hd Hndrest)
      as (message & w' & Hrun & Hfiles & Hl).
    + intros x Hx. simpl. apply filter_In. split; [apply Hsub; now right|].
      destruct (String.eqb_spec (linkId x) (linkId link)) as [Heq|];
        [|reflexivity].
      exfalso. apply Hnotin. rewrite <- Heq. now apply in_map.
    + simpl. now apply NoDup_map_filter.
    + exists message, w'. auto.
Qed.

End Cascade.

Lemma deleteShareLinksByFileId_ok (env : Env) (w : World) (fid : string) :
  queryLinks env = NoFault ->
  (forall x, In x (shareLinks w) -> fileId x = fid ->
             deleteThrows env (linkId x) = false) ->
  NoDup (map linkId (shareLinks w)) ->
  ShareLinkRepo.deleteShareLinksByFileId env fid w
  = (Ok tt,
     ShareLinkRepo.setShareLinks
       (filter (fun c => negb (cascaded fid c)) (shareLinks w)) w).
Proof.
  intros Hq Hd Hnd.
  unfold ShareLinkRepo.deleteShareLinksByFileId, rethrowAs, bind.
  unfold ShareLinkRepo.getShareLinksByFileId. rewrite Hq.
  fold (cascaded fid).
  rewrite (deleteEach_ok env Hq).
  - f_equal. unfold ShareLinkRepo.setShareLinks. f_equal.
    apply filter_ext_in. intros c Hc. f_equal.
    destruct (cascaded fid c) eqn:Hcas.
    + apply existsb_exists. exists c. split.
      * apply filter_In. now split.
      * apply String.eqb_refl.
    + destruct (existsb _ _) eqn:Hex; [|reflexivity].
      apply existsb_exists in Hex. destruct Hex as (x & Hx & Heq).
      apply filter_In in Hx. destruct Hx as [Hx Hcx].
      apply String.eqb_eq in Heq.
      assert (c = x) by (apply (NoDup_linkId_inj (shareLinks w)); auto).
      subst x. congruence.
  - intros x Hx. apply filter_In in Hx. destruct Hx as [Hx Hcx].
    apply Hd; [exact Hx|].
    unfold cascaded in Hcx. apply andb_true_iff in Hcx.
    now apply String.eqb_eq.
  - exact Hnd.
Qed.

Lemma deleteShareLinksByFileId_throws (env : Env) (w : World) (fid : string)
    (l : IShareLink) :
  queryLinks env = NoFault ->
  In l (shareLinks w) ->
  fileId l = fid ->
  isRevoked l = false ->
  deleteThrows env (linkId l) = true ->
  NoDup (map linkId (shareLinks w)) ->
  exists w',
    ShareLinkRepo.deleteShareLinksByFileId env fid w
    = (Throw "Failed to delete share links for file", w')
    /\ files w' = files w
    /\ In l (shareLinks w').
Proof.
  intros Hq Hin Hfid Hrev Hd Hnd.
  unfold ShareLinkRepo.deleteShareLinksByFileId, rethrowAs, bind.
  unfold ShareLinkRepo.getShareLinksByFileId. rewrite Hq.
  fold (cascaded fid).
  destruct (deleteEach_throws env Hq (filter (cascaded fid) (shareLinks w))
              w l) as (message & w' & Hrun & Hfiles & Hl).
  - apply filter_In. split; [exact Hin|].
    unfold cascaded. now rewrite Hfid, Hrev, String.eqb_refl.
  - exact Hd.
  - now apply NoDup_map_filter.
  - intros x Hx. apply filter_In in Hx. tauto.
  - exact Hnd.
  - rewrite Hrun. exists w'. auto.
Qed.

Lemma swallow_deleteBlob (env : Env) (w : World) (blobName : string) :
  exists w0,
    swallow (BlobService.deleteBlob env blobName) w = (Ok tt, w0)
    /\ shareLinks w0 = shareLinks w
    /\ files w0 = files w.
Proof.
  unfold swallow, BlobService.deleteBlob.
  destruct (deleteBlobThrows env blobName); eexists; split; try reflexivity;
    split; reflexivity.
Qed.

(** Past the ownership check, [deleteFile] is the cascade followed by the
    hard deletion. *)
Lemma deleteFile_run (env : Env) (w : World) (fid uid : string)
    (f : File.IFile) :
  queryFiles env = NoFault ->
  find (fun c => String.eqb (File.fileId c) fid) (files w) = Some f ->
  File.userId f = uid ->
  exists w0,
    shareLinks w0 = shareLinks w
    /\ files w0 = files w
    /\ FileService.deleteFile env fid uid w
       = match ShareLinkRepo.deleteShareLinksByFileId env fid w0 with
         | (Ok _, w1) => FileRepo.hardDeleteFile env fid w1
         | (Throw message, w1) => (Throw message, w1)
         end.
Proof.
  intros Hq Hf Hu.
  destruct (swallow_deleteBlob env w
              (FileService.blobNameOf (File.blobUrl f)))
    as (w0 & Hb & Hl0 & Hf0).
  exists w0. split; [exact Hl0|]. split; [exact Hf0|].
  unfold FileService.deleteFile, bind. unfold FileRepo.getFileById at 1.
  rewrite Hq, Hf, Hu, String.eqb_refl. simpl.
  now rewrite Hb.
Qed.

Lemma find_file_deleteItem (fid : string) (docs : list File.IFile) :
  NoDup (map File.fileId docs) ->
  find (fun c => String.eqb (File.fileId c) fid)
    (FileRepo.deleteItem fid docs) = None.
Proof.
  induction docs as [|c docs IH]; simpl; [reflexivity|].
  intros Hnd. inversion Hnd as [|? ? Hnotin Hnd']; subst.
  destruct (String.eqb_spec (File.fileId c) fid) as [Hc|Hc]; simpl.
  - destruct (find _ docs) as [x|] eqn:Hx; [|reflexivity].
    apply find_some in Hx. destruct Hx as [Hin Heq].
    apply String.eqb_eq in Heq.
    exfalso. apply Hnotin. rewrite Hc, <- Heq. now apply in_map.
  - destruct (String.eqb_spec (File.fileId c) fid); [contradiction|auto].
Qed.

Lemma hardDeleteFile_ok (env : Env) (w : World) (fid : string)
    (f : File.IFile) :
  queryFiles env = NoFault ->
  deleteFileItem env = NoFault ->
  find (fun c => String.eqb (File.fileId c) fid) (files w) = Some f ->
  FileRepo.hardDeleteFile env fid w
  = (Ok tt, FileRepo.setFiles (FileRepo.deleteItem fid (files w)) w).
Proof.
  intros Hq Hd Hf.
  unfold FileRepo.hardDeleteFile, FileRepo.getFileById.
  now rewrite Hq, Hf, Hd.
Qed.

(** A link whose file has no document cannot be resolved. *)
Lemma not_resolvable_without_file (env : Env) (w : World) (id : string)
    (l : IShareLink) :
  find (fun c => String.eqb (linkId c) id) (shareLinks w) = Some l ->
  find (fun c => String.eqb (File.fileId c) (fileId l)) (files w) = None ->
  ~ resolvable env id w.
Proof.
  intros Hl Hf (r & w' & Hrun).
  destruct (getFileByShareLink_ok_inv _ _ _ _ _ Hrun)
    as (l' & f & token & _ & Hl' & _ & _ & Hf' & _).
  rewrite Hl in Hl'. injection Hl' as <-.
  rewrite Hf in Hf'. discriminate.
Qed.

(** C5 (as amended).  When the owner deletes a file and the store answers,
    with link ids and file ids unique in their containers:
    - if the store accepts every deletion, [deleteFile] returns, every
      unrevoked share link of the file is gone, the file document is gone,
      and no share link of the file can be resolved afterwards;
    - if the store rejects the deletion of one unrevoked share link of the
      file, [deleteFile] throws "Failed to delete share links for file",
      that link stays and the Files container is left as it was. *)
Theorem deleteFile_cascade (env : Env) (w : World) (fid uid : string)
    (f : File.IFile) :
  queryFiles env = NoFault ->
  queryLinks env = NoFault ->
  find (fun c => String.eqb (File.fileId c) fid) (files w) = Some f ->
  File.userId f = uid ->
  NoDup (map linkId (shareLinks w)) ->
  NoDup (map File.fileId (files w)) ->
  ((forall x, In x (shareLinks w) -> fileId x = fid ->
              deleteThrows env (linkId x) = false) ->
   deleteFileItem env = NoFault ->
   exists w',
     FileService.deleteFile env fid uid w = (Ok tt, w')
     /\ (forall c, In c (shareLinks w') -> fileId c = fid ->
                   isRevoked c = true)
     /\ find (fun c => String.eqb (File.fileId c) fid) (files w') = None
     /\ (forall env' id c,
            find (fun x => String.eqb (linkId x) id) (shareLinks w') = Some c ->
            fileId c = fid ->
            ~ resolvable env' id w'))
  /\ (forall l,
         In l (shareLinks w) ->
         fileId l = fid ->
         isRevoked l = false ->
         deleteThrows env (linkId l) = true ->
         exists w',
           FileService.deleteFile env fid uid w
           = (Throw "Failed to delete share links for file", w')
           /\ files w' = files w
           /\ In l (shareLinks w')).
Proof.
  intros Hqf Hql Hf Hu Hndl Hndf.
  destruct (deleteFile_run env w fid uid f Hqf Hf Hu)
    as (w0 & Hl0 & Hf0 & Hrun).
  split.
  - intros Hd Hdf.
    rewrite deleteShareLinksByFileId_ok in Hrun; try assumption.
    + rewrite (hardDeleteFile_ok env _ fid f Hqf Hdf) in Hrun
        by (simpl; now rewrite Hf0).
      eexists. split; [exact Hrun|]. simpl. rewrite Hl0, Hf0.
      assert (Hgone : find (fun c => String.eqb (File.fileId c) fid)
                        (FileRepo.deleteItem fid (files w)) = None)
        by now apply find_file_deleteItem.
      split; [|split; [exact Hgone|]].
      * intros c Hc Hfid. apply filter_In in Hc. destruct Hc as [_ Hc].
        unfold cascaded in Hc. rewrite Hfid, String.eqb_refl in Hc.
        simpl in Hc. now destruct (isRevoked c).
      * intros env' id c Hc Hfid.
        apply (not_resolvable_without_file env' _ id c).
        -- exact Hc.
        -- simpl. now rewrite Hfid.
    + rewrite Hl0. exact Hd.
    + now rewrite Hl0.
  - intros l Hin Hfid Hrev Hd.
    destruct (deleteShareLinksByFileId_throws env w0 fid l Hql)
      as (w' & Hthrow & Hfiles & Hl); try assumption.
    + now rewrite Hl0.
    + now rewrite Hl0.
    + rewrite Hthrow in Hrun. exists w'.
      split; [exact Hrun|]. split; [congruence|exact Hl].
Qed.

Lemma deleteFile_cascade_sample :
  (exists w',
      FileService.deleteFile (Sample.env 36000000) "f1" "alice" Sample.world
      = (Ok tt, w')
      /\ (forall c, In c (shareLinks w') -> fileId c = "f1" ->
                    isRevoked c = true)
      /\ find (fun c => String.eqb (File.fileId c) "f1") (files w') = None)
  /\ (exists w',
         FileService.deleteFile (Sample.envDeleteFails 36000000 "l2") "f1"
           "alice" Sample.world3
         = (Throw "Failed to delete share links for file", w')
         /\ files w' = files Sample.world3
         /\ In (Sample.link "l2" (100 * Sample.hour) false) (shareLinks w')).
Proof.
  assert (Hndf : NoDup (map File.fileId (files Sample.world)))
    by (repeat constructor; simpl; tauto).
  assert (Hnd : NoDup (map linkId (shareLinks Sample.world))).
  { repeat constructor; simpl; intros H;
      repeat (destruct H as [H|H]; [discriminate H|]); exact H. }
  assert (Hnd3 : NoDup (map linkId (shareLinks Sample.world3))).
  { repeat constructor; simpl; intros H;
      repeat (destruct H as [H|H]; [discriminate H|]); exact H. }
  split.
  - destruct (proj1 (deleteFile_cascade (Sample.env 36000000) Sample.world
                       "f1" "alice" Sample.photo
                       eq_refl eq_refl eq_refl eq_refl Hnd Hndf)
                (fun _ _ _ => eq_refl) eq_refl)
      as (w' & Hrun & Hlinks & Hgone & _).
    exists w'. auto.
  - exact (proj2 (deleteFile_cascade (Sample.envDeleteFails 36000000 "l2")
                    Sample.world3 "f1" "alice" Sample.photo
                    eq_refl eq_refl eq_refl eq_refl Hnd3 Hndf)
             (Sample.link "l2" (100 * Sample.hour) false)
             (or_intror (or_introl eq_refl)) eq_refl eq_refl eq_refl).
Defined.

(** C5, the claim as stated, fails: the file has three live share links
    and the store rejects the deletion of the second.  [deleteFile] throws
    (the route answers 500), the file document stays, and the second and
    third links are resolved afterwards. *)
Lemma cascade_failure_aborts_deleteFile :
  let env := Sample.envDeleteFails 36000000 "l2" in
  let out := FileService.deleteFile env "f1" "alice" Sample.world3 in
  List.length (filter (fun c => String.eqb (fileId c) "f1")
                      (shareLinks Sample.world3)) = 3%nat
  /\ fst out = Throw "Failed to delete share links for file"
  /\ fst (FileRoutes.deleteFile env (Some "alice") "f1" Sample.world3)
     = {| Http.status := Http.InternalServerError;
          Http.body := Http.Error "Failed to delete share links for file" |}
  /\ files (snd out) = [Sample.photo]
  /\ map linkId (shareLinks (snd out)) = ["l2"; "l3"]
  /\ resolvable (Sample.env 36000000) "l2" (snd out)
  /\ resolvable (Sample.env 36000000) "l3" (snd out).
Proof.
  cbv zeta. do 5 (split; [vm_compute; reflexivity|]).
  split; eexists; eexists; vm_compute; reflexivity.
Qed.

(** * Further properties of the code *)

(** ** Strings: [split], [join] and [includes] *)

Lemma append_assoc (a b c : string) : (a ++ b) ++ c = a ++ (b ++ c).
Proof. induction a as [|x a IH]; simpl; [reflexivity|now rewrite IH]. Qed.

Lemma split_nonempty (sep : ascii) (s : string) :
  exists hd tl, Js.split sep s = hd :: tl.
Proof.
  induction s as [|c s (hd & tl & IH)]; simpl.
  - now exists EmptyString, [].
  - destruct (Ascii.eqb c sep).
    + now exists EmptyString, (Js.split sep s).
    + rewrite IH. now exists (String c hd), tl.
Qed.

Lemma split_app (sep : ascii) (a b : string) :
  Js.split sep (a ++ String sep b)
  = (Js.split sep a ++ Js.split sep b)%list.
Proof.
  induction a as [|c a IH]; simpl.
  - now rewrite Ascii.eqb_refl.
  - destruct (Ascii.eqb c sep); [now rewrite IH|].
    rewrite IH. destruct (split_nonempty sep a) as (hd & tl & ->).
    reflexivity.
Qed.

Lemma includes_char_cons (c x : ascii) (s : string) :
  Js.includes (String c EmptyString) (String x s)
  = Ascii.eqb x c || Js.includes (String c EmptyString) s.
Proof.
  simpl. destruct (ascii_dec c x) as [->|Hne].
  - rewrite Ascii.eqb_refl. now destruct s.
  - destruct (Ascii.eqb_spec x c); [congruence|reflexivity].
Qed.

Lemma includes_char_app (c : ascii) (a b : string) :
  Js.includes (String c EmptyString) (a ++ b)
  = Js.includes (String c EmptyString) a
    || Js.includes (String c EmptyString) b.
Proof.
  induction a as [|x a IH].
  - simpl. now destruct b.
  - change (String x a ++ b) with (String x (a ++ b)).
    rewrite !includes_char_cons, IH. now rewrite orb_assoc.
Qed.

Lemma split_without (sep : ascii) (s : string) :
  Js.includes (String sep EmptyString) s = false ->
  Js.split sep s = [s].
Proof.
  induction s as [|c s IH]; [reflexivity|].
  rewrite includes_char_cons. intros H.
  apply orb_false_iff in H. destruct H as [Hc Hs].
  simpl. now rewrite Hc, (IH Hs).
Qed.

Lemma split_parts_without (sep : ascii) (s : string) :
  Forall (fun part => Js.includes (String sep EmptyString) part = false)
         (Js.split sep s).
Proof.
  induction s as [|c s IH]; simpl.
  - now repeat constructor.
  - destruct (Ascii.eqb c sep) eqn:Hc.
    + constructor; [reflexivity|exact IH].
    + destruct (Js.split sep s) as [|hd tl].
      { constructor; [now rewrite includes_char_cons, Hc|constructor]. }
      inversion IH as [|? ? Hhd Htl]; subst.
      constructor; [|exact Htl].
      now rewrite includes_char_cons, Hc, Hhd.
Qed.

Lemma join_split (sep : ascii) (s : string) :
  Js.join (String sep EmptyString) (Js.split sep s) = s.
Proof.
  unfold Js.join. induction s as [|c s IH]; [reflexivity|]. simpl.
  destruct (Ascii.eqb_spec c sep) as [->|Hne].
  - destruct (split_nonempty sep s) as (hd & tl & Hs).
    rewrite Hs in IH |- *. simpl in IH |- *. now rewrite IH.
  - destruct (Js.split sep s) as [|hd [|x tl]];
      simpl in *; now rewrite <- IH.
Qed.

Lemma prefix_empty (s : string) : String.prefix EmptyString s = true.
Proof. now destruct s. Qed.

Lemma prefix_app (needle rest : string) :
  String.prefix needle (needle ++ rest) = true.
Proof.
  induction needle as [|c needle IH]; simpl; [apply prefix_empty|].
  destruct (ascii_dec c c); [exact IH|contradiction].
Qed.

Lemma includes_prefix (needle hay : string) :
  String.prefix needle hay = true -> Js.includes needle hay = true.
Proof.
  intros H. destruct hay as [|c hay].
  - destruct needle; [reflexivity|discriminate H].
  - unfold Js.includes; fold Js.includes. now rewrite H.
Qed.

Lemma includes_app (needle a b : string) :
  Js.includes needle (a ++ needle ++ b) = true.
Proof.
  induction a as [|c a IH].
  - apply includes_prefix. exact (prefix_app needle b).
  - change (String c a ++ needle ++ b) with (String c (a ++ needle ++ b)).
    simpl. rewrite IH. apply orb_true_r.
Qed.

Lemma head_split_app (sep : ascii) (a b : string) :
  Js.includes (String sep EmptyString) a = false ->
  Js.head (Js.split sep (a ++ String sep b)) = a.
Proof.
  intros H. now rewrite split_app, (split_without sep a H).
Qed.

(** ** The blob name behind a stored URL *)

Lemma split_blobUrlOf (env : Env) (blobName : string) :
  Js.includes "/" (accountName env) = false ->
  Js.includes "/" (containerName env) = false ->
  Js.split "/" (BlobService.blobUrlOf env blobName)
  = "https:" :: ""
    :: (accountName env ++ ".blob.core.windows.net")%string
    :: containerName env :: Js.split "/" blobName.
Proof.
  intros Ha Hc.
  assert (E : BlobService.blobUrlOf env blobName
              = "https:"
                ++ String "/"
                     (EmptyString
                      ++ String "/"
                           ((accountName env ++ ".blob.core.windows.net")
                            ++ String "/"
                                 (containerName env
                                  ++ String "/" blobName)))).
  { unfold BlobService.blobUrlOf. simpl. now rewrite append_assoc. }
  rewrite E, !split_app.
  rewrite (split_without "/" (containerName env) Hc).
  rewrite (split_without "/" (accountName env ++ ".blob.core.windows.net"))
    by (rewrite includes_char_app, Ha; reflexivity).
  reflexivity.
Qed.

Lemma blobNameOf_of_signed_url (env : Env) (blobName token : string) :
  Js.includes "/" (accountName env) = false ->
  Js.includes "?" (accountName env) = false ->
  Js.includes "/" (containerName env) = false ->
  Js.includes "?" (containerName env) = false ->
  Js.includes "?" blobName = false ->
  ShareLinkService.blobNameOf
    (BlobService.blobUrlOf env blobName ++ "?" ++ token)
  = blobName.
Proof.
  intros Ha Haq Hc Hcq Hb.
  unfold ShareLinkService.blobNameOf.
  change (BlobService.blobUrlOf env blobName ++ "?" ++ token)
    with (BlobService.blobUrlOf env blobName ++ String "?" token).
  rewrite head_split_app.
  - rewrite (split_blobUrlOf env blobName Ha Hc).
    assert (Hi : Js.includes ".blob.core.windows.net"
                   (accountName env ++ ".blob.core.windows.net") = true).
    { exact (includes_app ".blob.core.windows.net" (accountName env)
               EmptyString). }
    cbn [Js.findIndex]. rewrite Hi.
    change (Js.includes ".blob.core.windows.net" "https:") with false.
    change (Js.includes ".blob.core.windows.net" "") with false.
    cbn [Js.findIndex]. cbv iota beta.
    change (0 <? 0) with false. cbv iota.
    change (0 + 1 <? 0) with false. cbv iota.
    unfold Js.slice.
    change (0 + 1 + 1 + 2) with 4.
    change (4 <? 0) with false. cbv iota.
    destruct (split_nonempty "/" blobName) as (hd & tl & Hs).
    rewrite Hs.
    replace (Z.min 4 (Z.of_nat (List.length
               ("https:" :: ""
                :: (accountName env ++ ".blob.core.windows.net")%string
                :: containerName env :: hd :: tl)))) with 4
      by (simpl List.length; lia).
    change (Z.to_nat 4) with 4%nat. cbn [skipn].
    rewrite <- Hs. apply (join_split "/").
  - unfold BlobService.blobUrlOf.
    rewrite !includes_char_app, Haq, Hcq, Hb. reflexivity.
Qed.

(** X1.  The blob name that the resolution cuts out of a stored URL is the
    name the URL was built for by [generateBlobSASUrl], whenever the account
    and container names hold neither "/" nor "?" and the blob name holds no
    "?". *)
Theorem blobNameOf_blobUrlOf (env : Env) (blobName token : string) :
  Js.includes "/" (accountName env) = false ->
  Js.includes "?" (accountName env) = false ->
  Js.includes "/" (containerName env) = false ->
  Js.includes "?" (containerName env) = false ->
  Js.includes "?" blobName = false ->
  ShareLinkService.blobNameOf
    (BlobService.blobUrlOf env blobName ++ "?" ++ token)
  = blobName.
Proof.
  exact (blobNameOf_of_signed_url env blobName token).
Qed.

Lemma blobNameOf_blobUrlOf_sample :
  ShareLinkService.blobNameOf
    (BlobService.blobUrlOf (Sample.env 0) "alice/f1/a.png"
     ++ "?" ++ "sv=2024-11-04&sp=r&sig=c2ln")
  = "alice/f1/a.png".
Proof.
  exact (blobNameOf_blobUrlOf (Sample.env 0) "alice/f1/a.png"
           "sv=2024-11-04&sp=r&sig=c2ln"
           eq_refl eq_refl eq_refl eq_refl eq_refl).
Defined.

(** ** Uploading a file *)

Lemma uploadFile_ok_inv (env : Env) (infra : Infra)
    (data : FileService.UploadFileData) (w w' : World) (f : File.IFile) :
  FileService.uploadFile env infra data w = (Ok f, w') ->
  let blobName :=
    FileService.userId data ++ "/" ++ uuidv4 env ++ "/"
    ++ FileService.fileName data in
  exists token,
    sasToken env blobName (Some (now env + 24 * 365 * BlobService.msPerHour))
    = Some token
    /\ uploadThrows infra blobName = false
    /\ createFileThrows infra = false
    /\ f = {| File.fileId := uuidv4 env;
              File.userId := FileService.userId data;
              File.fileName := FileService.fileName data;
              File.blobUrl :=
                BlobService.blobUrlOf env blobName ++ "?" ++ token;
              File.fileSize := FileService.fileSize data;
              File.contentType := FileService.contentType data;
              File.uploadDate := now env;
              File.status := File.active |}
    /\ shareLinks w' = shareLinks w
    /\ files w' = (files w ++ [f])%list
    /\ blobs w'
       = blobName :: filter (fun b => negb (String.eqb b blobName)) (blobs w).
Proof.
  intros Hrun blobName. revert Hrun.
  unfold FileService.uploadFile, rethrowAs, bind.
  fold blobName.
  unfold BlobService.uploadBlob, rethrowAs, bind, BlobService.upload.
  destruct (uploadThrows infra blobName) eqn:Hu; [discriminate|].
  unfold BlobService.generateBlobSASUrl, BlobService.expiresOn.
  destruct (sasToken env blobName _) as [token|] eqn:Ht; [|discriminate].
  unfold ret, FileRepo.createFile.
  destruct (createFileThrows infra) eqn:Hc; [discriminate|].
  intros H. injection H as <- <-.
  exists token. repeat split; auto.
Qed.

(** X2.  A file that [uploadFile] returned is stored once more in the Files
    container, active and owned by the uploader, its blob is in the store
    under the name userId/fileId/fileName, and every later resolution of a
    share link that returns this file signs its download URL for that very
    blob name (the names holding no "?" and the account and container names
    neither "/" nor "?"). *)
Theorem uploadFile_resolves_to_its_blob (env : Env) (infra : Infra)
    (data : FileService.UploadFileData) (w w' : World) (f : File.IFile) :
  FileService.uploadFile env infra data w = (Ok f, w') ->
  Js.includes "/" (accountName env) = false ->
  Js.includes "?" (accountName env) = false ->
  Js.includes "/" (containerName env) = false ->
  Js.includes "?" (containerName env) = false ->
  Js.includes "?" (FileService.userId data) = false ->
  Js.includes "?" (uuidv4 env) = false ->
  Js.includes "?" (FileService.fileName data) = false ->
  let blobName :=
    FileService.userId data ++ "/" ++ uuidv4 env ++ "/"
    ++ FileService.fileName data in
  In blobName (blobs w')
  /\ In f (files w')
  /\ File.status f = File.active
  /\ File.userId f = FileService.userId data
  /\ File.fileId f = uuidv4 env
  /\ ShareLinkService.blobNameOf (File.blobUrl f) = blobName
  /\ forall env2 id w2 r w3,
       ShareLinkService.getFileByShareLink env2 id w2 = (Ok r, w3) ->
       ShareLinkService.file r = f ->
       exists token,
         sasToken env2 blobName
           (BlobService.expiresOn env2
              (ShareLinkService.sasExpirationHours
                 (ShareLinkService.shareLink r) (now env2)))
         = Some token
         /\ ShareLinkService.downloadUrl r
            = BlobService.blobUrlOf env2 blobName ++ "?" ++ token.
Proof.
  intros Hrun Ha Haq Hc Hcq Hu Hi Hn blobName.
  destruct (uploadFile_ok_inv env infra data w w' f Hrun)
    as (token & Ht & _ & _ & Hf & _ & Hfiles & Hblobs).
  fold blobName in Ht, Hf, Hblobs.
  assert (Hname : ShareLinkService.blobNameOf (File.blobUrl f) = blobName).
  { rewrite Hf. simpl. apply blobNameOf_of_signed_url; auto.
    unfold blobName. rewrite !includes_char_app, Hu, Hi, Hn. reflexivity. }
  split; [rewrite Hblobs; now left|].
  split; [rewrite Hfiles; apply in_or_app; right; now left|].
  split; [now rewrite Hf|]. split; [now rewrite Hf|].
  split; [now rewrite Hf|]. split; [exact Hname|].
  intros env2 id w2 r w3 Hres Hfile.
  destruct (getFileByShareLink_ok_inv _ _ _ _ _ Hres)
    as (l & f' & token2 & _ & _ & _ & _ & _ & _ & Hm & _ & ->).
  simpl in Hfile. subst f'. simpl.
  unfold minted in Hm. rewrite Hname in Hm.
  exists token2. split; [exact Hm|].
  unfold sasUrlOf. now rewrite Hname.
Qed.

(** ** The blob name [deleteFile] computes *)

Lemma slice_last_three {A : Type} (front : list A) (a b c : A) :
  Js.slice (-3) (front ++ [a; b; c])%list = [a; b; c].
Proof.
  unfold Js.slice. change (-3 <? 0) with true. cbv iota.
  rewrite length_app. simpl List.length.
  replace (Z.max (Z.of_nat (List.length front + 3) + -3) 0)
    with (Z.of_nat (List.length front)) by lia.
  rewrite Nat2Z.id. induction front; simpl; auto.
Qed.

(** The last three parts of a URL, as long as none of them holds "/". *)
Lemma FileService_blobNameOf_tail (front u f last : string) :
  Js.includes "/" u = false ->
  Js.includes "/" f = false ->
  Js.includes "/" last = false ->
  FileService.blobNameOf (front ++ "/" ++ u ++ "/" ++ f ++ "/" ++ last)
  = u ++ "/" ++ f ++ "/" ++ last.
Proof.
  intros Hu Hf Hl. unfold FileService.blobNameOf.
  change (front ++ "/" ++ u ++ "/" ++ f ++ "/" ++ last)
    with (front ++ String "/" (u ++ String "/" (f ++ String "/" last))).
  rewrite !split_app.
  rewrite (split_without "/" u Hu), (split_without "/" f Hf),
    (split_without "/" last Hl).
  change ([u] ++ [f] ++ [last])%list with [u; f; last].
  now rewrite slice_last_three.
Qed.

Lemma deleteEach_blobs (env : Env) (links : list IShareLink) :
  forall w,
    blobs (snd (ShareLinkRepo.deleteEach env links w)) = blobs w.
Proof.
  induction links as [|link rest IH]; intros w; [reflexivity|].
  simpl. unfold bind at 1. unfold ShareLinkRepo.getShareLinkById.
  destruct (queryLinks env); try reflexivity; try apply IH.
  destruct (find _ (shareLinks w)); [|apply IH].
  unfold bind, ShareLinkRepo.delete.
  destruct (deleteThrows env (linkId link)); [reflexivity|].
  now rewrite IH.
Qed.

Lemma deleteShareLinksByFileId_blobs (env : Env) (fid : string) (w : World) :
  blobs (snd (ShareLinkRepo.deleteShareLinksByFileId env fid w)) = blobs w.
Proof.
  unfold ShareLinkRepo.deleteShareLinksByFileId, rethrowAs, bind,
    ShareLinkRepo.getShareLinksByFileId.
  destruct (queryLinks env); try reflexivity.
  pose proof (deleteEach_blobs env
                (filter (fun c => String.eqb (fileId c) fid
                                  && Bool.eqb (isRevoked c) false)
                        (shareLinks w)) w) as H.
  destruct (ShareLinkRepo.deleteEach env _ w) as [[u|m] w']; exact H.
Qed.

Lemma hardDeleteFile_blobs (env : Env) (fid : string) (w : World) :
  blobs (snd (FileRepo.hardDeleteFile env fid w)) = blobs w.
Proof.
  unfold FileRepo.hardDeleteFile, FileRepo.getFileById.
  destruct (queryFiles env); try reflexivity.
  destruct (find _ (files w)); [|reflexivity].
  now destruct (deleteFileItem env).
Qed.

(** The blobs after [deleteFile]: those before, less at most the name cut
    out of the stored URL. *)
Lemma deleteFile_blobs (env : Env) (w : World) (fid uid name : string) :
  In name (blobs w) ->
  (forall f,
      find (fun c => String.eqb (File.fileId c) fid) (files w) = Some f ->
      FileService.blobNameOf (File.blobUrl f) <> name) ->
  In name (blobs (snd (FileService.deleteFile env fid uid w))).
Proof.
  intros Hin Hne.
  unfold FileService.deleteFile, bind. unfold FileRepo.getFileById at 1.
  destruct (queryFiles env); try exact Hin.
  destruct (find _ (files w)) as [f|] eqn:Hf; [|exact Hin].
  destruct (negb (String.eqb (File.userId f) uid)); [exact Hin|].
  cbv zeta.
  assert (Hb : In name
                 (blobs (snd (swallow
                                (BlobService.deleteBlob env
                                   (FileService.blobNameOf (File.blobUrl f)))
                                w)))).
  { unfold swallow, BlobService.deleteBlob.
    destruct (deleteBlobThrows env _); [exact Hin|]. simpl.
    apply filter_In. split; [exact Hin|].
    destruct (String.eqb_spec name (FileService.blobNameOf (File.blobUrl f)))
      as [E|]; [|reflexivity].
    exfalso. apply (Hne f eq_refl). now symmetry. }
  destruct (swallow _ w) as [[u|m] w0]; simpl in Hb.
  - pose proof (deleteShareLinksByFileId_blobs env fid w0) as Hc.
    destruct (ShareLinkRepo.deleteShareLinksByFileId env fid w0)
      as [[u1|m1] w1]; simpl in Hc |- *.
    + rewrite hardDeleteFile_blobs. now rewrite Hc.
    + now rewrite Hc.
  - exact Hb.
Qed.

Lemma append_longer (a b : string) : b <> EmptyString -> a ++ b <> a.
Proof.
  intros Hb. induction a as [|c a IH]; simpl.
  - exact Hb.
  - intros E. injection E as E. now apply IH.
Qed.

(** X3.  Deleting a file that [uploadFile] stored leaves its blob in the
    store.  The name [deleteFile] hands to [deleteBlob] is the last three
    parts of the stored URL, which end with "?" and the SAS token, so it is
    not the name userId/fileId/fileName the blob was uploaded under (the
    user id, file id, file name and token holding no "/"). *)
Theorem deleteFile_keeps_uploaded_blob (env0 : Env) (infra : Infra)
    (data : FileService.UploadFileData) (w0 w1 : World) (f : File.IFile) :
  FileService.uploadFile env0 infra data w0 = (Ok f, w1) ->
  Js.includes "/" (FileService.userId data) = false ->
  Js.includes "/" (uuidv4 env0) = false ->
  Js.includes "/" (FileService.fileName data) = false ->
  (forall name expires token,
      sasToken env0 name expires = Some token ->
      Js.includes "/" token = false) ->
  let blobName :=
    FileService.userId data ++ "/" ++ uuidv4 env0 ++ "/"
    ++ FileService.fileName data in
  (exists token,
      FileService.blobNameOf (File.blobUrl f) = blobName ++ "?" ++ token)
  /\ forall env w uid,
       find (fun c => String.eqb (File.fileId c) (File.fileId f)) (files w)
       = Some f ->
       In blobName (blobs w) ->
       In blobName
          (blobs (snd (FileService.deleteFile env (File.fileId f) uid w))).
Proof.
  intros Hrun Hu Hi Hn Htok blobName.
  destruct (uploadFile_ok_inv env0 infra data w0 w1 f Hrun)
    as (token & Ht & _ & _ & Hf & _).
  fold blobName in Ht, Hf.
  pose proof (Htok _ _ _ Ht) as Hslash.
  assert (Hname : FileService.blobNameOf (File.blobUrl f)
                  = blobName ++ "?" ++ token).
  { rewrite Hf. cbn [File.blobUrl].
    replace (BlobService.blobUrlOf env0 blobName ++ "?" ++ token)
      with (("https://" ++ accountName env0
             ++ ".blob.core.windows.net/" ++ containerName env0)
            ++ "/" ++ FileService.userId data ++ "/" ++ uuidv4 env0 ++ "/"
            ++ (FileService.fileName data ++ "?" ++ token))
      by (unfold BlobService.blobUrlOf, blobName;
          now rewrite !append_assoc).
    rewrite FileService_blobNameOf_tail; auto.
    - unfold blobName. now rewrite !append_assoc.
    - rewrite includes_char_app, Hn.
      change ("?" ++ token) with (String "?" token).
      now rewrite includes_char_cons, Hslash. }
  split; [now exists token|].
  intros env w uid Hfind Hin.
  apply deleteFile_blobs; [exact Hin|].
  intros f' Hf'. rewrite Hfind in Hf'. injection Hf' as <-.
  rewrite Hname. apply append_longer. discriminate.
Qed.

(** ** Resolution: the failures before the credential *)

(** X4.  With the store answering its queries, a resolution that stops
    before the accounting leaves the store untouched: an unknown id throws
    "Share link not found" (404); a valid link whose file document is
    missing or not active throws "File not found or deleted" (404, not
    410); a valid link on an active file for which no token is signed
    throws "Failed to generate blob access URL" (400). *)
Theorem getFileByShareLink_stops_early (env : Env) (w : World)
    (id : string) :
  queryLinks env = NoFault ->
  queryFiles env = NoFault ->
  id <> "" ->
  (find (fun c => String.eqb (linkId c) id) (shareLinks w) = None ->
   ShareLinkService.getFileByShareLink env id w
   = (Throw "Share link not found", w)
   /\ ShareRoutes.getFileByShareLink env id w
      = ({| Http.status := Http.NotFound;
            Http.body := Http.Error "Share link not found" |}, w))
  /\ (forall l,
         find (fun c => String.eqb (linkId c) id) (shareLinks w) = Some l ->
         ShareLinkRepo.isShareLinkValid l (now env) = true ->
         (forall f,
             find (fun c => String.eqb (File.fileId c) (fileId l)) (files w)
             = Some f ->
             File.status f = File.deleted) ->
         ShareLinkService.getFileByShareLink env id w
         = (Throw "File not found or deleted", w)
         /\ ShareRoutes.getFileByShareLink env id w
            = ({| Http.status := Http.NotFound;
                  Http.body := Http.Error "File not found or deleted" |}, w))
  /\ (forall l f,
         find (fun c => String.eqb (linkId c) id) (shareLinks w) = Some l ->
         ShareLinkRepo.isShareLinkValid l (now env) = true ->
         find (fun c => String.eqb (File.fileId c) (fileId l)) (files w)
         = Some f ->
         File.status f = File.active ->
         sasToken env (ShareLinkService.blobNameOf (File.blobUrl f))
           (BlobService.expiresOn env
              (ShareLinkService.sasExpirationHours l (now env))) = None ->
         ShareLinkService.getFileByShareLink env id w
         = (Throw "Failed to generate blob access URL", w)
         /\ ShareRoutes.getFileByShareLink env id w
            = ({| Http.status := Http.BadRequest;
                  Http.body :=
                    Http.Error "Failed to generate blob access URL" |}, w)).
Proof.
  intros Hq Hqf Hid.
  assert (Hroute : forall message,
             ShareLinkService.getFileByShareLink env id w
             = (Throw message, w) ->
             ShareRoutes.getFileByShareLink env id w
             = ({| Http.status := ShareRoutes.resolveErrorStatus message;
                   Http.body :=
                     Http.Error
                       (Js.orString message "Failed to access share link") |},
                w)).
  { intros message H.
    now rewrite (route_getFileByShareLink_run env w id Hid), H. }
  split; [|split].
  - intros Hnone.
    assert (H : ShareLinkService.getFileByShareLink env id w
                = (Throw "Share link not found", w)).
    { unfold ShareLinkService.getFileByShareLink, bind,
        ShareLinkRepo.getShareLinkById.
      now rewrite Hq, Hnone. }
    split; [exact H|exact (Hroute _ H)].
  - intros l Hl Hv Hfile.
    assert (H : ShareLinkService.getFileByShareLink env id w
                = (Throw "File not found or deleted", w)).
    { unfold ShareLinkService.getFileByShareLink, bind.
      unfold ShareLinkRepo.getShareLinkById at 1. rewrite Hq, Hl, Hv.
      simpl. unfold FileRepo.getFileById. rewrite Hqf.
      destruct (find _ (files w)) as [f|]; [|reflexivity].
      now rewrite (Hfile f eq_refl). }
    split; [exact H|exact (Hroute _ H)].
  - intros l f Hl Hv Hf Hs Hnone.
    assert (H : ShareLinkService.getFileByShareLink env id w
                = (Throw "Failed to generate blob access URL", w)).
    { unfold ShareLinkService.getFileByShareLink, bind.
      unfold ShareLinkRepo.getShareLinkById at 1. rewrite Hq, Hl, Hv.
      simpl. unfold FileRepo.getFileById. rewrite Hqf, Hf, Hs. simpl.
      unfold BlobService.getBlobUrl, BlobService.generateBlobSASUrl.
      now rewrite Hnone. }
    split; [exact H|exact (Hroute _ H)].
Qed.

(** ** Resolution: the accounting *)

Lemma orZero_id (n : Z) : Js.orZero n = n.
Proof. unfold Js.orZero. now destruct (Z.eqb_spec n 0). Qed.

Lemma find_replaceItem_other (id id' : string) (d : IShareLink)
    (docs : list IShareLink) :
  linkId d = id ->
  id' <> id ->
  find (fun c => String.eqb (linkId c) id')
    (ShareLinkRepo.replaceItem id d docs)
  = find (fun c => String.eqb (linkId c) id') docs.
Proof.
  intros Hd Hne. induction docs as [|c docs IH]; simpl; [reflexivity|].
  destruct (String.eqb_spec (linkId c) id) as [Hc|Hc]; simpl.
  - rewrite Hd.
    destruct (String.eqb_spec id id'); [congruence|].
    destruct (String.eqb_spec (linkId c) id'); [congruence|reflexivity].
  - now rewrite IH.
Qed.

Lemma length_replaceItem (id : string) (d : IShareLink)
    (docs : list IShareLink) :
  List.length (ShareLinkRepo.replaceItem id d docs) = List.length docs.
Proof.
  induction docs as [|c docs IH]; simpl; [reflexivity|].
  destruct (String.eqb (linkId c) id); simpl; [reflexivity|].
  now rewrite IH.
Qed.

(** X5.  A resolution that returns has replaced the document of the link
    by a document whose [accessCount] is one higher and whose other fields
    are the same; no document is added or removed and the document found
    under any other id is the same as before; the link returned to the
    caller is the document as read before, with the old count; the files
    and the blobs are as before. *)
Theorem getFileByShareLink_counts_once (env : Env) (w w' : World)
    (id : string) (r : ShareLinkService.Resolved) :
  ShareLinkService.getFileByShareLink env id w = (Ok r, w') ->
  let l := ShareLinkService.shareLink r in
  let counted :=
    {| linkId := linkId l;
       fileId := fileId l;
       userId := userId l;
       expiryDate := expiryDate l;
       accessCount := accessCount l + 1;
       createdDate := createdDate l;
       isRevoked := isRevoked l;
       ttl := ttl l |} in
  find (fun c => String.eqb (linkId c) id) (shareLinks w) = Some l
  /\ find (fun c => String.eqb (linkId c) id) (shareLinks w') = Some counted
  /\ (forall id',
         id' <> id ->
         find (fun c => String.eqb (linkId c) id') (shareLinks w')
         = find (fun c => String.eqb (linkId c) id') (shareLinks w))
  /\ List.length (shareLinks w') = List.length (shareLinks w)
  /\ files w' = files w
  /\ blobs w' = blobs w.
Proof.
  intros Hrun.
  destruct (getFileByShareLink_ok_inv _ _ _ _ _ Hrun)
    as (l & f & token & Hq & Hl & _ & _ & _ & _ & _ & Hinc & ->).
  cbn [ShareLinkService.shareLink].
  destruct (find_linkId _ _ _ Hl) as [Hid _].
  rewrite (incrementAccessCount_run env w id l Hq Hl), orZero_id in Hinc.
  destruct (replaceThrows env id); [discriminate|].
  injection Hinc as <-.
  cbn [shareLinks files blobs ShareLinkRepo.setShareLinks].
  split; [exact Hl|]. split; [|split; [|split; [|split]]].
  - exact (find_replaceItem id
             (ShareLinkRepo.setAccessCount (accessCount l + 1) l) l
             (shareLinks w) Hid Hl).
  - intros id' Hne. now apply find_replaceItem_other.
  - apply length_replaceItem.
  - reflexivity.
  - reflexivity.
Qed.

Lemma ready_of_ok (env : Env) (w w' : World) (id : string)
    (r : ShareLinkService.Resolved) :
  ShareLinkService.getFileByShareLink env id w = (Ok r, w') ->
  exists token,
    ready env id w (ShareLinkService.shareLink r) (ShareLinkService.file r)
      token
    /\ ShareLinkService.downloadUrl r
       = sasUrlOf env (ShareLinkService.file r) token.
Proof.
  intros Hrun.
  destruct (getFileByShareLink_ok_inv _ _ _ _ _ Hrun)
    as (l & f & token & Hq & Hl & Hv & Hqf & Hf & Hs & Hm & Hinc & ->).
  exists token. simpl. split; [|reflexivity].
  repeat split; auto.
  rewrite (incrementAccessCount_run env w id l Hq Hl) in Hinc.
  now destruct (replaceThrows env id).
Qed.

Lemma ready_step (env : Env) (w : World) (id : string) (l : IShareLink)
    (f : File.IFile) (token : string) :
  ready env id w l f token ->
  let counted := ShareLinkRepo.setAccessCount (accessCount l + 1) l in
  let w' :=
    ShareLinkRepo.setShareLinks
      (ShareLinkRepo.replaceItem id counted (shareLinks w)) w in
  ShareLinkService.getFileByShareLink env id w
  = (Ok {| ShareLinkService.file := f;
           ShareLinkService.shareLink := l;
           ShareLinkService.downloadUrl := sasUrlOf env f token |}, w')
  /\ ready env id w' counted f token.
Proof.
  intros (Hq & Hl & Hv & Hqf & Hf & Hs & Hm & Hr) counted w'.
  destruct (find_linkId _ _ _ Hl) as [Hid _].
  split.
  - rewrite (getFileByShareLink_after_minting env w id l f token
               Hq Hl Hv Hqf Hf Hs Hm).
    rewrite (incrementAccessCount_run env w id l Hq Hl), Hr, orZero_id.
    reflexivity.
  - repeat split; auto.
    apply (find_replaceItem id counted l); [exact Hid|exact Hl].
Qed.

Lemma resolveTimes_ready (env : Env) (id : string) (f : File.IFile)
    (token : string) (n : nat) :
  forall w l,
    ready env id w l f token ->
    ready env id (resolveTimes env id n w)
      (ShareLinkRepo.setAccessCount (accessCount l + Z.of_nat n) l) f token.
Proof.
  induction n as [|n IH]; intros w l Hready.
  - simpl. rewrite Z.add_0_r. now destruct l.
  - destruct (ready_step env w id l f token Hready) as [Hrun Hnext].
    cbn [resolveTimes]. rewrite Hrun. cbn [snd].
    specialize (IH _ _ Hnext). cbn in IH.
    replace (accessCount l + 1 + Z.of_nat n)
      with (accessCount l + Z.of_nat (S n)) in IH by lia.
    exact IH.
Qed.

(** X6.  When a resolution of a link returns, so does every further
    resolution at the same instant against the same outside world: the one
    that follows [n] others finds the link stored with an [accessCount]
    that is [n] higher, and returns that document together with the same
    file and the same download URL. *)
Theorem resolutions_count_up (env : Env) (w w1 : World) (id : string)
    (r : ShareLinkService.Resolved) (n : nat) :
  ShareLinkService.getFileByShareLink env id w = (Ok r, w1) ->
  let l := ShareLinkService.shareLink r in
  let counted :=
    {| linkId := linkId l;
       fileId := fileId l;
       userId := userId l;
       expiryDate := expiryDate l;
       accessCount := accessCount l + Z.of_nat n;
       createdDate := createdDate l;
       isRevoked := isRevoked l;
       ttl := ttl l |} in
  find (fun c => String.eqb (linkId c) id)
       (shareLinks (resolveTimes env id n w)) = Some counted
  /\ exists wn,
       ShareLinkService.getFileByShareLink env id (resolveTimes env id n w)
       = (Ok {| ShareLinkService.file := ShareLinkService.file r;
                ShareLinkService.shareLink := counted;
                ShareLinkService.downloadUrl := ShareLinkService.downloadUrl r
             |}, wn).
Proof.
  intros Hrun l counted.
  destruct (ready_of_ok env w w1 id r Hrun) as (token & Hready & Hurl).
  pose proof (resolveTimes_ready env id _ token n w _ Hready) as Hn.
  destruct (ready_step env _ id _ _ token Hn) as [Hrunn _].
  split.
  - destruct Hn as (_ & Hfind & _). exact Hfind.
  - eexists. rewrite Hrunn, Hurl. reflexivity.
Qed.

(** ** Revoking, then resolving and listing *)

(** X7.  Once the owner's revocation has returned, every resolution of the
    link, at whatever later time, throws "Share link is expired or revoked"
    and the route answers 410, as long as the link query is answered; the
    store is not changed by it. *)
Theorem revoked_link_no_longer_resolves (env env2 : Env) (w w1 : World)
    (id uid : string) :
  ShareLinkService.revokeShareLink env id uid w = (Ok tt, w1) ->
  queryLinks env2 = NoFault ->
  id <> "" ->
  ShareLinkService.getFileByShareLink env2 id w1
  = (Throw "Share link is expired or revoked", w1)
  /\ ShareRoutes.getFileByShareLink env2 id w1
     = ({| Http.status := Http.Gone;
           Http.body := Http.Error "Share link is expired or revoked" |},
        w1).
Proof.
  intros Hrev Hq2 Hid.
  assert (Hfind : exists l,
             find (fun c => String.eqb (linkId c) id) (shareLinks w1)
             = Some (ShareLinkRepo.setRevoked l)).
  { revert Hrev.
    unfold ShareLinkService.revokeShareLink, bind.
    unfold ShareLinkRepo.getShareLinkById at 1.
    destruct (queryLinks env) eqn:Hq; try discriminate.
    destruct (find _ (shareLinks w)) as [l|] eqn:Hl; [|discriminate].
    destruct (negb (String.eqb (userId l) uid)); [discriminate|].
    rewrite (revokeShareLink_run env w id l Hq Hl).
    destruct (replaceThrows env id); [discriminate|].
    intros H. injection H as <-. exists l. simpl.
    destruct (find_linkId _ _ _ Hl) as [Hlid _].
    now apply (find_replaceItem id _ l). }
  destruct Hfind as (l & Hl1).
  assert (Hrun : ShareLinkService.getFileByShareLink env2 id w1
                 = (Throw "Share link is expired or revoked", w1)).
  { unfold ShareLinkService.getFileByShareLink, bind,
      ShareLinkRepo.getShareLinkById.
    now rewrite Hq2, Hl1. }
  split; [exact Hrun|].
  now rewrite (route_getFileByShareLink_run env2 w1 id Hid), Hrun.
Qed.

(** ** Listing the share links of a file and of a user *)

Lemma route_getShareLinksByFileId_run (env : Env) (penv : ProcessEnv)
    (w : World) (fid uid : string) :
  uid <> "" ->
  fid <> "" ->
  ShareRoutes.getShareLinksByFileId env penv (Some uid) fid w
  = match ShareLinkService.getShareLinksByFileId env fid uid w with
    | (Ok listed, w') =>
        ({| Http.status := Http.Ok;
            Http.body := Http.Json (map (ShareRoutes.withShareUrl penv) listed)
         |}, w')
    | (Throw message, w') =>
        ({| Http.status := ShareRoutes.ownerErrorStatus message;
            Http.body :=
              Http.Error (Js.orString message "Failed to get share links")
         |}, w')
    end.
Proof.
  intros Hu Hf. unfold ShareRoutes.getShareLinksByFileId.
  destruct uid; [contradiction|]. destruct fid; [contradiction|reflexivity].
Qed.

(** X8.  The listing by file is for the owner of the file document only.
    With the store answering, the owner gets exactly the unrevoked links of
    the file, in the order of the container, whether or not they are past
    their expiry date and whatever the status of the file, each with its
    share URL; another user gets "Unauthorized access to file" (401), a
    missing file "File not found" (404); the store is never changed. *)
Theorem getShareLinksByFileId_owner_only (env : Env) (penv : ProcessEnv)
    (w : World) (fid uid : string) :
  queryFiles env = NoFault ->
  queryLinks env = NoFault ->
  uid <> "" ->
  fid <> "" ->
  (find (fun c => String.eqb (File.fileId c) fid) (files w) = None ->
   ShareRoutes.getShareLinksByFileId env penv (Some uid) fid w
   = ({| Http.status := Http.NotFound;
         Http.body := Http.Error "File not found" |}, w))
  /\ (forall f,
         find (fun c => String.eqb (File.fileId c) fid) (files w) = Some f ->
         File.userId f <> uid ->
         ShareRoutes.getShareLinksByFileId env penv (Some uid) fid w
         = ({| Http.status := Http.Unauthorized;
               Http.body := Http.Error "Unauthorized access to file" |}, w))
  /\ (forall f,
         find (fun c => String.eqb (File.fileId c) fid) (files w) = Some f ->
         File.userId f = uid ->
         let listed :=
           filter (fun c => String.eqb (fileId c) fid && negb (isRevoked c))
                  (shareLinks w) in
         ShareLinkService.getShareLinksByFileId env fid uid w
         = (Ok listed, w)
         /\ ShareRoutes.getShareLinksByFileId env penv (Some uid) fid w
            = ({| Http.status := Http.Ok;
                  Http.body :=
                    Http.Json (map (ShareRoutes.withShareUrl penv) listed)
               |}, w)
         /\ forall l,
              In l listed
              <-> In l (shareLinks w)
                  /\ fileId l = fid /\ isRevoked l = false).
Proof.
  intros Hqf Hql Hu Hf.
  rewrite (route_getShareLinksByFileId_run env penv w fid uid Hu Hf).
  unfold ShareLinkService.getShareLinksByFileId, bind, FileRepo.getFileById.
  rewrite Hqf. split; [|split].
  - now intros ->.
  - intros f -> Hne.
    now destruct (String.eqb_spec (File.userId f) uid).
  - intros f -> <-. rewrite String.eqb_refl. simpl.
    unfold ShareLinkRepo.getShareLinksByFileId. rewrite Hql.
    assert (E : filter (fun c => String.eqb (fileId c) fid
                                 && Bool.eqb (isRevoked c) false)
                       (shareLinks w)
                = filter (fun c => String.eqb (fileId c) fid
                                   && negb (isRevoked c)) (shareLinks w)).
    { apply filter_ext. intros c. now destruct (isRevoked c). }
    rewrite E. split; [reflexivity|]. split; [reflexivity|].
    intros l.
    rewrite filter_In, andb_true_iff, String.eqb_eq.
    destruct (isRevoked l); simpl; intuition congruence.
Qed.

(** ** Creating a share link *)

Lemma createShareLink_ok_inv (env : Env) (w w' : World) (fid uid : string)
    (days : option Z) (link : IShareLink) :
  ShareLinkService.createShareLink env
    {| CreateShareLinkData.fileId := fid;
       CreateShareLinkData.userId := uid;
       CreateShareLinkData.expirationDays := days |} w = (Ok link, w') ->
  exists f,
    queryFiles env = NoFault
    /\ find (fun c => String.eqb (File.fileId c) fid) (files w) = Some f
    /\ File.userId f = uid
    /\ File.status f = File.active
    /\ createThrows env = false.
Proof.
  unfold ShareLinkService.createShareLink, bind, FileRepo.getFileById, throw.
  simpl.
  destruct (queryFiles env); try discriminate.
  destruct (find _ (files w)) as [f|]; [|discriminate].
  destruct (String.eqb_spec (File.userId f) uid); [|discriminate].
  destruct (File.status f) eqn:Hs; [|discriminate]. simpl.
  unfold ShareLinkRepo.createShareLink.
  destruct (createThrows env); [discriminate|].
  intros _. exists f. auto.
Qed.

Lemma createShareLink_some_run (env : Env) (w w' : World)
    (fid uid : string) (d : Z) (link : IShareLink) :
  ShareLinkService.createShareLink env
    {| CreateShareLinkData.fileId := fid;
       CreateShareLinkData.userId := uid;
       CreateShareLinkData.expirationDays := Some d |} w = (Ok link, w') ->
  d <> 0 ->
  let date := Js.timeClip (nowExpiry env + d * 86400000) in
  link = {| linkId := uuidv4 env;
            fileId := fid;
            userId := uid;
            expiryDate := date;
            accessCount := 0;
            createdDate := now env;
            isRevoked := false;
            ttl := ShareLinkService.calculateTTL env (Some date) |}
  /\ w' = ShareLinkRepo.setShareLinks (shareLinks w ++ [link]) w.
Proof.
  intros Hrun Hd date.
  destruct (createShareLink_ok_inv _ _ _ _ _ _ _ Hrun)
    as (f & Hq & Hf & Hu & Hs & Hc).
  pose proof (createShareLink_run env w f fid uid (Some d) Hq Hf Hu Hs Hc)
    as Hrun'.
  cbv zeta in Hrun'. rewrite Hrun in Hrun'.
  unfold ShareLinkService.calculateExpiryDate in Hrun'.
  destruct (Z.eqb_spec d 0) as [|_]; [contradiction|].
  unfold ShareLinkService.msPerDay in Hrun'. fold date in Hrun'.
  injection Hrun' as -> ->. now split.
Qed.

(** The seconds [calculateTTL] counts for a date [d] days after the reading
    of [calculateExpiryDate], when its own reading is [lag] ms later. *)
Lemma calculateTTL_lag (env : Env) (d : Z) :
  let lag := nowTTL env - nowExpiry env in
  0 <= lag ->
  lag + 1000 <= d * 86400000 ->
  ShareLinkService.calculateTTL env
    (Some (Some (nowExpiry env + d * 86400000)))
  = Some (d * 86400 - (lag + 999) / 1000).
Proof.
  intros lag H0 Hd. unfold ShareLinkService.calculateTTL.
  assert (Hq : (nowExpiry env + d * 86400000 - nowTTL env) / 1000
               = d * 86400 - (lag + 999) / 1000).
  { symmetry.
    apply (Z.div_unique _ 1000 _ (999 - (lag + 999) mod 1000)).
    - pose proof (Z.mod_pos_bound (lag + 999) 1000 ltac:(lia)). lia.
    - pose proof (Z.div_mod (lag + 999) 1000 ltac:(lia)).
      subst lag. lia. }
  rewrite Hq.
  assert ((lag + 999) / 1000 < d * 86400)
    by (apply Z.div_lt_upper_bound; lia).
  destruct (Z.gtb_spec (d * 86400 - (lag + 999) / 1000) 0);
    [reflexivity|lia].
Qed.

(** X9.  A share link created for [d > 0] days starts unrevoked with a
    count of 0 and is appended to the container.  When the date [d] times
    86400000 ms after the clock reading of [calculateExpiryDate] is still a
    [Date] (at most 8.64e15 ms), it is the expiry date, the link is valid
    exactly up to and including it, and the ttl counts the whole seconds
    from the later reading of [calculateTTL] to it: [d] times 86400 when
    the two readings agree, one less when the clock has moved on by at most
    a second.  Beyond that range the date is an Invalid Date: [null] is
    stored with no ttl, and the link is valid at every instant. *)
Theorem createShareLink_positive_duration (env : Env) (w w' : World)
    (fid uid : string) (d : Z) (link : IShareLink) :
  ShareLinkService.createShareLink env
    {| CreateShareLinkData.fileId := fid;
       CreateShareLinkData.userId := uid;
       CreateShareLinkData.expirationDays := Some d |} w = (Ok link, w') ->
  0 < d ->
  let expiry := nowExpiry env + d * 86400000 in
  let lag := nowTTL env - nowExpiry env in
  linkId link = uuidv4 env
  /\ fileId link = fid
  /\ userId link = uid
  /\ accessCount link = 0
  /\ createdDate link = now env
  /\ isRevoked link = false
  /\ shareLinks w' = (shareLinks w ++ [link])%list
  /\ files w' = files w
  /\ (- 8640000000000000 <= expiry <= 8640000000000000 ->
      expiryDate link = Some expiry
      /\ (forall t,
             ShareLinkRepo.isShareLinkValid link t = true <-> t <= expiry)
      /\ (0 <= lag ->
          lag + 1000 <= d * 86400000 ->
          ttl link = Some (d * 86400 - (lag + 999) / 1000))
      /\ (lag = 0 -> ttl link = Some (d * 86400))
      /\ (0 < lag <= 1000 -> ttl link = Some (d * 86400 - 1)))
  /\ (8640000000000000 < expiry ->
      expiryDate link = None
      /\ ttl link = None
      /\ forall t, ShareLinkRepo.isShareLinkValid link t = true).
Proof.
  intros Hrun Hd expiry lag.
  destruct (createShareLink_some_run env w w' fid uid d link Hrun
              ltac:(lia)) as [Hlink ->].
  cbv zeta in Hlink. fold expiry in Hlink.
  do 6 (split; [now rewrite Hlink|]).
  split; [reflexivity|]. split; [reflexivity|]. split.
  - intros Hrange. rewrite (timeClip_in_range expiry Hrange) in Hlink.
    assert (Httl : 0 <= lag ->
                   lag + 1000 <= d * 86400000 ->
                   ttl link = Some (d * 86400 - (lag + 999) / 1000)).
    { intros H0 H1. rewrite Hlink. cbn [ttl].
      exact (calculateTTL_lag env d H0 H1). }
    split; [now rewrite Hlink|]. split; [|split; [exact Httl|split]].
    + intros t. rewrite isShareLinkValid_eq, Hlink. simpl. apply Z.leb_le.
    + intros H0. rewrite Httl by lia. rewrite H0.
      change ((0 + 999) / 1000) with 0. f_equal. lia.
    + intros H0. rewrite Httl by lia.
      replace ((lag + 999) / 1000) with 1; [reflexivity|].
      apply (Z.div_unique _ 1000 _ (lag - 1)); lia.
  - intros Hfar.
    rewrite (timeClip_out_of_range expiry (or_intror Hfar)) in Hlink.
    rewrite Hlink. repeat split.
Qed.

Lemma route_createShareLink_run (env : Env) (penv : ProcessEnv) (w : World)
    (fid uid : string) (days : option Z) :
  uid <> "" ->
  fid <> "" ->
  ShareRoutes.createShareLink env penv (Some uid) fid days w
  = match ShareLinkService.createShareLink env
            {| CreateShareLinkData.fileId := fid;
               CreateShareLinkData.userId := uid;
               CreateShareLinkData.expirationDays := days |} w with
    | (Ok shareLink, w') =>
        ({| Http.status := Http.Created;
            Http.body := Http.Json (ShareRoutes.withShareUrl penv shareLink)
         |}, w')
    | (Throw message, w') =>
        ({| Http.status := ShareRoutes.ownerErrorStatus message;
            Http.body :=
              Http.Error (Js.orString message "Failed to create share link")
         |}, w')
    end.
Proof.
  intros Hu Hf. unfold ShareRoutes.createShareLink.
  destruct uid; [contradiction|]. destruct fid; [contradiction|reflexivity].
Qed.

(** X10.  Creation is refused, and the store left as it was, in this order
    of checks: no document for the file, 404 "File not found"; a file of
    another user, 401 "Unauthorized access to file", whatever its status;
    the caller's own file with status deleted, 400 "Cannot share deleted
    file"; and, the checks passed, a store that rejects the new document,
    400 "Failed to create share link". *)
Theorem createShareLink_refusals (env : Env) (penv : ProcessEnv) (w : World)
    (fid uid : string) (days : option Z) :
  queryFiles env = NoFault ->
  uid <> "" ->
  fid <> "" ->
  let answer := ShareRoutes.createShareLink env penv (Some uid) fid days w in
  (find (fun c => String.eqb (File.fileId c) fid) (files w) = None ->
   answer = ({| Http.status := Http.NotFound;
                Http.body := Http.Error "File not found" |}, w))
  /\ (forall f,
         find (fun c => String.eqb (File.fileId c) fid) (files w) = Some f ->
         File.userId f <> uid ->
         answer = ({| Http.status := Http.Unauthorized;
                      Http.body := Http.Error "Unauthorized access to file"
                   |}, w))
  /\ (forall f,
         find (fun c => String.eqb (File.fileId c) fid) (files w) = Some f ->
         File.userId f = uid ->
         File.status f = File.deleted ->
         answer = ({| Http.status := Http.BadRequest;
                      Http.body := Http.Error "Cannot share deleted file"
                   |}, w))
  /\ (forall f,
         find (fun c => String.eqb (File.fileId c) fid) (files w) = Some f ->
         File.userId f = uid ->
         File.status f = File.active ->
         createThrows env = true ->
         answer = ({| Http.status := Http.BadRequest;
                      Http.body := Http.Error "Failed to create share link"
                   |}, w)).
Proof.
  intros Hq Hu Hf answer. subst answer.
  rewrite (route_createShareLink_run env penv w fid uid days Hu Hf).
  unfold ShareLinkService.createShareLink, bind, FileRepo.getFileById.
  cbn [CreateShareLinkData.fileId CreateShareLinkData.userId
       CreateShareLinkData.expirationDays].
  rewrite Hq. split; [|split; [|split]].
  - now intros ->.
  - intros f -> Hne.
    now destruct (String.eqb_spec (File.userId f) uid).
  - intros f -> <- Hs. now rewrite String.eqb_refl, Hs.
  - intros f -> <- Hs Hc. rewrite String.eqb_refl, Hs. simpl.
    unfold ShareLinkRepo.createShareLink. now rewrite Hc.
Qed.

Lemma find_app_fresh (id : string) (docs : list IShareLink)
    (l : IShareLink) :
  find (fun c => String.eqb (linkId c) id) docs = None ->
  linkId l = id ->
  find (fun c => String.eqb (linkId c) id) (docs ++ [l])%list = Some l.
Proof.
  intros Hnone Hid. induction docs as [|c docs IH]; simpl in *.
  - now rewrite Hid, String.eqb_refl.
  - destruct (String.eqb (linkId c) id); [discriminate|auto].
Qed.

(** X11.  A share link created for [d > 0] days under an id no document
    carries yet, its expiry date being a [Date], can be resolved at every
    instant up to that date: with the store answering and the token signed,
    the resolution returns the file, the link as created and a download URL
    signed for between 1 and 24 hours (24 whenever that much time remains),
    and leaves the link stored with a count of 1. *)
Theorem created_link_resolves_at_once (env env2 : Env) (w w' : World)
    (fid uid : string) (d : Z) (link : IShareLink) (f : File.IFile)
    (token : string) :
  ShareLinkService.createShareLink env
    {| CreateShareLinkData.fileId := fid;
       CreateShareLinkData.userId := uid;
       CreateShareLinkData.expirationDays := Some d |} w = (Ok link, w') ->
  0 < d ->
  let expiry := nowExpiry env + d * 86400000 in
  let hours := Z.min (Z.max 1 ((expiry - now env2) / 3600000)) 24 in
  let blobName := ShareLinkService.blobNameOf (File.blobUrl f) in
  - 8640000000000000 <= expiry <= 8640000000000000 ->
  find (fun c => String.eqb (File.fileId c) fid) (files w) = Some f ->
  find (fun c => String.eqb (linkId c) (uuidv4 env)) (shareLinks w) = None ->
  queryLinks env2 = NoFault ->
  queryFiles env2 = NoFault ->
  replaceThrows env2 (uuidv4 env) = false ->
  now env2 <= expiry ->
  sasToken env2 blobName (Some (now env2 + hours * 3600000)) = Some token ->
  1 <= hours <= 24
  /\ (now env2 + 24 * 3600000 <= expiry -> hours = 24)
  /\ expiryDate link = Some expiry
  /\ accessCount link = 0
  /\ exists w2,
       ShareLinkService.getFileByShareLink env2 (uuidv4 env) w'
       = (Ok {| ShareLinkService.file := f;
                ShareLinkService.shareLink := link;
                ShareLinkService.downloadUrl :=
                  BlobService.blobUrlOf env2 blobName ++ "?" ++ token |},
          w2)
       /\ find (fun c => String.eqb (linkId c) (uuidv4 env)) (shareLinks w2)
          = Some {| linkId := uuidv4 env;
                    fileId := fid;
                    userId := uid;
                    expiryDate := Some expiry;
                    accessCount := 1;
                    createdDate := now env;
                    isRevoked := false;
                    ttl := ttl link |}.
Proof.
  intros Hrun Hd expiry hours blobName Hrange Hf Hfresh Hql Hqf Hr Hlive Htok.
  destruct (createShareLink_ok_inv _ _ _ _ _ _ _ Hrun)
    as (f' & _ & Hf' & Hu & Hs & _).
  rewrite Hf in Hf'. injection Hf' as <-.
  destruct (createShareLink_some_run env w w' fid uid d link Hrun
              ltac:(lia)) as [Hlink Hw'].
  cbv zeta in Hlink. fold expiry in Hlink.
  rewrite (timeClip_in_range expiry Hrange) in Hlink.
  assert (Hhours : 1 <= hours <= 24) by (subst hours; lia).
  split; [exact Hhours|]. split.
  { intros H24. subst hours.
    assert (24 <= (expiry - now env2) / 3600000)
      by (apply Z.div_le_lower_bound; lia).
    lia. }
  split; [now rewrite Hlink|]. split; [now rewrite Hlink|].
  assert (Hready : ready env2 (uuidv4 env) w' link f token).
  { unfold ready. split; [exact Hql|]. split.
    - rewrite Hw'. simpl. apply find_app_fresh; [exact Hfresh|].
      now rewrite Hlink.
    - split.
      { rewrite isShareLinkValid_eq, Hlink. simpl. now apply Z.leb_le. }
      split; [exact Hqf|]. split.
      + rewrite Hw'. simpl. now rewrite Hlink.
      + split; [exact Hs|]. split; [|exact Hr].
        unfold minted.
        rewrite (sasExpirationHours_eq link expiry)
          by now rewrite Hlink.
        exact Htok. }
  destruct (ready_step env2 w' (uuidv4 env) link f token Hready)
    as [Hres Hnext].
  cbv zeta in Hres, Hnext.
  eexists. split; [exact Hres|].
  destruct Hnext as (_ & Hfind & _). rewrite Hfind.
  rewrite Hlink. reflexivity.
Qed.

(** X24.  A stored link whose expiry date is [null] (what an Invalid Date
    leaves in the document) and that is not revoked is valid at every
    instant, and each resolution signs its download URL for one hour:
    [new Date(null)] is the epoch, so no time is found to remain.  With the
    store answering and the token signed, the resolution returns, at any
    instant from the epoch on. *)
Theorem null_expiry_resolves_for_one_hour (env : Env) (w : World)
    (id : string) (l : IShareLink) (f : File.IFile) (token : string) :
  expiryDate l = None ->
  isRevoked l = false ->
  0 <= now env ->
  let blobName := ShareLinkService.blobNameOf (File.blobUrl f) in
  queryLinks env = NoFault ->
  find (fun c => String.eqb (linkId c) id) (shareLinks w) = Some l ->
  queryFiles env = NoFault ->
  find (fun c => String.eqb (File.fileId c) (fileId l)) (files w) = Some f ->
  File.status f = File.active ->
  replaceThrows env id = false ->
  sasToken env blobName (Some (now env + 1 * 3600000)) = Some token ->
  (forall t, ShareLinkRepo.isShareLinkValid l t = true)
  /\ ShareLinkService.sasExpirationHours l (now env) = Some 1
  /\ exists w',
       ShareLinkService.getFileByShareLink env id w
       = (Ok {| ShareLinkService.file := f;
                ShareLinkService.shareLink := l;
                ShareLinkService.downloadUrl :=
                  BlobService.blobUrlOf env blobName ++ "?" ++ token |},
          w').
Proof.
  intros He Hrev Hnow blobName Hql Hl Hqf Hf Hs Hr Htok.
  assert (Hvalid : forall t, ShareLinkRepo.isShareLinkValid l t = true)
    by (intros t; now rewrite isShareLinkValid_eq, Hrev, He).
  assert (Hhours : ShareLinkService.sasExpirationHours l (now env) = Some 1).
  { unfold ShareLinkService.sasExpirationHours,
      ShareLinkService.hoursUntilExpiry.
    rewrite He.
    assert ((0 - now env) / (1000 * 60 * 60) <= 0)
      by (apply Z.div_le_upper_bound; lia).
    f_equal. lia. }
  split; [exact Hvalid|]. split; [exact Hhours|].
  assert (Hready : ready env id w l f token).
  { unfold ready, minted. rewrite Hhours. repeat split; auto. }
  destruct (ready_step env w id l f token Hready) as [Hres _].
  eexists. exact Hres.
Qed.

Lemma map_linkId_replaceItem (id : string) (d : IShareLink)
    (docs : list IShareLink) :
  linkId d = id ->
  map linkId (ShareLinkRepo.replaceItem id d docs) = map linkId docs.
Proof.
  intros Hd. induction docs as [|c docs IH]; simpl; [reflexivity|].
  destruct (String.eqb_spec (linkId c) id) as [Hc|Hc]; simpl.
  - now rewrite Hd, Hc.
  - now rewrite IH.
Qed.

(** X12.  Once the owner's revocation has returned, link ids being unique,
    the link is gone from every listing by file and is still in the
    listing of its owner, now revoked. *)
Theorem revoked_link_listings (env env2 : Env) (w w1 : World)
    (id uid : string) :
  ShareLinkService.revokeShareLink env id uid w = (Ok tt, w1) ->
  NoDup (map linkId (shareLinks w)) ->
  (forall fid uid2 listed w2,
      ShareLinkService.getShareLinksByFileId env2 fid uid2 w1
      = (Ok listed, w2) ->
      forall x, In x listed -> linkId x <> id)
  /\ (queryLinks env2 = NoFault ->
      exists l listed,
        find (fun c => String.eqb (linkId c) id) (shareLinks w) = Some l
        /\ ShareLinkService.getUserShareLinks env2 uid w1 = (Ok listed, w1)
        /\ In (ShareLinkRepo.setRevoked l) listed).
Proof.
  intros Hrev Hnd.
  assert (Hw1 : exists l,
             find (fun c => String.eqb (linkId c) id) (shareLinks w) = Some l
             /\ userId l = uid
             /\ w1 = ShareLinkRepo.setShareLinks
                       (ShareLinkRepo.replaceItem id
                          (ShareLinkRepo.setRevoked l) (shareLinks w)) w).
  { revert Hrev.
    unfold ShareLinkService.revokeShareLink, bind.
    unfold ShareLinkRepo.getShareLinkById at 1.
    destruct (queryLinks env) eqn:Hq; try discriminate.
    destruct (find _ (shareLinks w)) as [l|] eqn:Hl; [|discriminate].
    destruct (String.eqb_spec (userId l) uid); [|discriminate]. simpl.
    rewrite (revokeShareLink_run env w id l Hq Hl).
    destruct (replaceThrows env id); [discriminate|].
    intros H. injection H as <-. now exists l. }
  destruct Hw1 as (l & Hl & Hu & ->).
  destruct (find_linkId _ _ _ Hl) as [Hlid _].
  set (l1 := ShareLinkRepo.setRevoked l).
  set (docs1 := ShareLinkRepo.replaceItem id l1 (shareLinks w)).
  assert (Hfind1 : find (fun c => String.eqb (linkId c) id) docs1 = Some l1)
    by now apply (find_replaceItem id l1 l).
  split.
  - intros fid uid2 listed w2.
    unfold ShareLinkService.getShareLinksByFileId, bind,
      FileRepo.getFileById.
    destruct (queryFiles env2); try discriminate.
    + destruct (find (fun c => String.eqb (File.fileId c) fid) _) as [f|];
        [|discriminate].
      destruct (negb (String.eqb (File.userId f) uid2)); [discriminate|].
      unfold ShareLinkRepo.getShareLinksByFileId.
      destruct (queryLinks env2); try discriminate.
      intros H. injection H as <- _. simpl.
      intros x Hx Heq. apply filter_In in Hx. destruct Hx as [Hin Hp].
      fold docs1 in Hin.
      assert (x = l1).
      { apply (NoDup_linkId_inj docs1); auto.
        - unfold docs1. now rewrite map_linkId_replaceItem.
        - apply find_some in Hfind1. tauto.
        - now rewrite Heq. }
      subst x. simpl in Hp. now rewrite andb_false_r in Hp.
  - intros Hq2. exists l, (filter (fun c => String.eqb (userId c) uid) docs1).
    split; [exact Hl|]. split.
    + unfold ShareLinkService.getUserShareLinks,
        ShareLinkRepo.getShareLinksByUserId.
      now rewrite Hq2.
    + apply filter_In. split.
      * apply find_some in Hfind1. tauto.
      * simpl. rewrite Hu. apply String.eqb_refl.
Qed.

(** ** Replacing a document of the Files container *)

Lemma find_fileId (id : string) (docs : list File.IFile) (f : File.IFile) :
  find (fun c => String.eqb (File.fileId c) id) docs = Some f ->
  File.fileId f = id /\ In f docs.
Proof.
  intros H. apply find_some in H. destruct H as [Hin Heq].
  apply String.eqb_eq in Heq. now split.
Qed.

Lemma find_file_replaceItem (id : string) (d f : File.IFile)
    (docs : list File.IFile) :
  File.fileId d = id ->
  find (fun c => String.eqb (File.fileId c) id) docs = Some f ->
  find (fun c => String.eqb (File.fileId c) id)
    (FileRepo.replaceItem id d docs) = Some d.
Proof.
  intros Hd. induction docs as [|c docs IH]; simpl; [discriminate|].
  destruct (String.eqb (File.fileId c) id) eqn:Hc; simpl.
  - intros _. now rewrite Hd, String.eqb_refl.
  - rewrite Hc. exact IH.
Qed.

Lemma find_file_replaceItem_other (id id' : string) (d : File.IFile)
    (docs : list File.IFile) :
  File.fileId d = id ->
  id' <> id ->
  find (fun c => String.eqb (File.fileId c) id')
    (FileRepo.replaceItem id d docs)
  = find (fun c => String.eqb (File.fileId c) id') docs.
Proof.
  intros Hd Hne. induction docs as [|c docs IH]; simpl; [reflexivity|].
  destruct (String.eqb_spec (File.fileId c) id) as [Hc|Hc]; simpl.
  - rewrite Hd.
    destruct (String.eqb_spec id id'); [congruence|].
    destruct (String.eqb_spec (File.fileId c) id'); [congruence|reflexivity].
  - now rewrite IH.
Qed.

Lemma map_fileId_replaceItem (id : string) (d : File.IFile)
    (docs : list File.IFile) :
  File.fileId d = id ->
  map File.fileId (FileRepo.replaceItem id d docs) = map File.fileId docs.
Proof.
  intros Hd. induction docs as [|c docs IH]; simpl; [reflexivity|].
  destruct (String.eqb_spec (File.fileId c) id) as [Hc|Hc]; simpl.
  - now rewrite Hd, Hc.
  - now rewrite IH.
Qed.

Lemma NoDup_fileId_inj (docs : list File.IFile) (a b : File.IFile) :
  NoDup (map File.fileId docs) ->
  In a docs -> In b docs -> File.fileId a = File.fileId b -> a = b.
Proof.
  induction docs as [|c docs IH]; simpl; [tauto|].
  intros Hnd. inversion Hnd as [|? ? Hnotin Hnd']; subst.
  intros [-> | Ha] [-> | Hb] Heq; auto.
  - exfalso. apply Hnotin. rewrite Heq. now apply in_map.
  - exfalso. apply Hnotin. rewrite <- Heq. now apply in_map.
Qed.

Lemma repo_updateFile_ok_inv (env : Env) (infra : Infra) (w w' : World)
    (d r : File.IFile) :
  FileRepo.updateFile env infra d w = (Ok r, w') ->
  exists f,
    find (fun c => String.eqb (File.fileId c) (File.fileId d)) (files w)
    = Some f
    /\ r = d
    /\ w' = FileRepo.setFiles
              (FileRepo.replaceItem (File.fileId d) d (files w)) w.
Proof.
  unfold FileRepo.updateFile, rethrowAs, bind, FileRepo.getFileById.
  destruct (queryFiles env); try discriminate.
  destruct (find _ (files w)) as [f|]; [|discriminate].
  unfold FileRepo.replace.
  destruct (replaceFileThrows infra (File.fileId d)); [discriminate|].
  intros H. injection H as <- <-. now exists f.
Qed.

(** ** Soft deletion of a file *)

Lemma softDelete_ok_inv (env : Env) (infra : Infra) (w w' : World)
    (fid : string) :
  FileRepo.deleteFile env infra fid w = (Ok tt, w') ->
  exists f,
    find (fun c => String.eqb (File.fileId c) fid) (files w) = Some f
    /\ w' = FileRepo.setFiles
              (FileRepo.replaceItem fid
                 (FileRepo.setStatus File.deleted f) (files w)) w.
Proof.
  unfold FileRepo.deleteFile, rethrowAs, bind.
  unfold FileRepo.getFileById at 1.
  destruct (queryFiles env) eqn:Hq; try discriminate.
  destruct (find _ (files w)) as [f|] eqn:Hf; [|discriminate].
  destruct (FileRepo.updateFile env infra
              (FileRepo.setStatus File.deleted f) w) as [[r|m] w1] eqn:Hu;
    [|discriminate].
  destruct (repo_updateFile_ok_inv _ _ _ _ _ _ Hu) as (f0 & _ & _ & ->).
  destruct (find_fileId _ _ _ Hf) as [Hid _].
  simpl. rewrite Hid. unfold ret. intros H. injection H as <-.
  now exists f.
Qed.

(** X13.  After [FileRepo.deleteFile] (the soft deletion) has returned, file
    ids being unique: the document is still there with status deleted and
    its owner can still read it by id; it is in no listing of active files;
    no share link can be created for it ("Cannot share deleted file"); and
    no share link that points to it can be resolved, while the share links
    themselves are left in their container. *)
Theorem soft_deleted_file (env : Env) (infra : Infra) (w w1 : World)
    (fid : string) :
  FileRepo.deleteFile env infra fid w = (Ok tt, w1) ->
  NoDup (map File.fileId (files w)) ->
  exists f,
    find (fun c => String.eqb (File.fileId c) fid) (files w) = Some f
    /\ shareLinks w1 = shareLinks w
    /\ (forall env2,
           queryFiles env2 = NoFault ->
           FileService.getFileById env2 fid (File.userId f) w1
           = (Ok (FileRepo.setStatus File.deleted f), w1))
    /\ (forall env2 uid listed w2,
           FileService.getUserFiles env2 uid w1 = (Ok listed, w2) ->
           forall x, In x listed -> File.fileId x <> fid)
    /\ (forall env2 days,
           queryFiles env2 = NoFault ->
           ShareLinkService.createShareLink env2
             {| CreateShareLinkData.fileId := fid;
                CreateShareLinkData.userId := File.userId f;
                CreateShareLinkData.expirationDays := days |} w1
           = (Throw "Cannot share deleted file", w1))
    /\ (forall env2 id l,
           find (fun c => String.eqb (linkId c) id) (shareLinks w1) = Some l ->
           fileId l = fid ->
           ~ resolvable env2 id w1).
Proof.
  intros Hdel Hnd.
  destruct (softDelete_ok_inv _ _ _ _ _ Hdel) as (f & Hf & ->).
  destruct (find_fileId _ _ _ Hf) as [Hid Hin].
  set (gone := FileRepo.setStatus File.deleted f).
  assert (Hfind : find (fun c => String.eqb (File.fileId c) fid)
                    (FileRepo.replaceItem fid gone (files w)) = Some gone)
    by now apply (find_file_replaceItem fid gone f).
  exists f. split; [exact Hf|]. split; [reflexivity|].
  split; [|split; [|split]].
  - intros env2 Hq.
    unfold FileService.getFileById, bind, FileRepo.getFileById.
    simpl. rewrite Hq, Hfind. simpl. now rewrite String.eqb_refl.
  - intros env2 uid listed w2.
    unfold FileService.getUserFiles, rethrowAs, FileRepo.getFilesByUserId.
    destruct (queryFiles env2); try discriminate.
    intros H. injection H as <- _.
    intros x Hx Heq. apply filter_In in Hx. destruct Hx as [Hx Hp].
    simpl in Hx.
    assert (x = gone).
    { apply (NoDup_fileId_inj (FileRepo.replaceItem fid gone (files w)));
        auto.
      - now rewrite map_fileId_replaceItem.
      - apply find_some in Hfind. tauto.
      - now rewrite Heq. }
    subst x. simpl in Hp. now rewrite andb_false_r in Hp.
  - intros env2 days Hq.
    unfold ShareLinkService.createShareLink, bind, FileRepo.getFileById.
    simpl. rewrite Hq, Hfind. simpl. now rewrite String.eqb_refl.
  - intros env2 id l Hl Hfid (r & w' & Hrun).
    destruct (getFileByShareLink_ok_inv _ _ _ _ _ Hrun)
      as (l' & f' & token & _ & Hl' & _ & _ & Hf' & Hs & _).
    rewrite Hl in Hl'. injection Hl' as <-.
    simpl in Hf'. rewrite Hfid, Hfind in Hf'. injection Hf' as <-.
    discriminate Hs.
Qed.

(** ** Renaming a file *)

(** X14.  [updateFile] refuses, and leaves the store as it was: a file id
    with no document ("File not found"), the file of another user
    ("Unauthorized access to file"), and, for the owner, a name that is
    empty once trimmed ("File name cannot be empty"); the ownership check
    comes before the check of the name. *)
Theorem updateFile_refusals (env : Env) (infra : Infra) (w : World)
    (fid uid name : string) :
  queryFiles env = NoFault ->
  (find (fun c => String.eqb (File.fileId c) fid) (files w) = None ->
   FileService.updateFile env infra fid uid name w
   = (Throw "File not found", w))
  /\ (forall f,
         find (fun c => String.eqb (File.fileId c) fid) (files w) = Some f ->
         File.userId f <> uid ->
         FileService.updateFile env infra fid uid name w
         = (Throw "Unauthorized access to file", w))
  /\ (forall f,
         find (fun c => String.eqb (File.fileId c) fid) (files w) = Some f ->
         File.userId f = uid ->
         Js.trim name = "" ->
         FileService.updateFile env infra fid uid name w
         = (Throw "File name cannot be empty", w)).
Proof.
  intros Hq.
  unfold FileService.updateFile, bind, FileRepo.getFileById.
  rewrite Hq. split; [|split].
  - now intros ->.
  - intros f -> Hne.
    now destruct (String.eqb_spec (File.userId f) uid).
  - intros f -> <- Ht. now rewrite String.eqb_refl, Ht.
Qed.

Lemma updateFile_ok_inv (env : Env) (infra : Infra) (w w' : World)
    (fid uid name : string) (r : File.IFile) :
  FileService.updateFile env infra fid uid name w = (Ok r, w') ->
  exists f,
    find (fun c => String.eqb (File.fileId c) fid) (files w) = Some f
    /\ File.userId f = uid
    /\ Js.trim name <> ""
    /\ r = FileService.setFileName (Js.trim name) f
    /\ w' = FileRepo.setFiles (FileRepo.replaceItem fid r (files w)) w.
Proof.
  unfold FileService.updateFile, bind. unfold FileRepo.getFileById at 1.
  destruct (queryFiles env); try discriminate.
  destruct (find _ (files w)) as [f|] eqn:Hf; [|discriminate].
  destruct (String.eqb_spec (File.userId f) uid) as [Hu|]; [|discriminate].
  simpl. destruct (find_fileId _ _ _ Hf) as [Hid _].
  destruct (Js.trim name) as [|c rest] eqn:Ht; [discriminate|].
  intros Hrun.
  destruct (repo_updateFile_ok_inv _ _ _ _ _ _ Hrun) as (f0 & _ & -> & ->).
  exists f. simpl. rewrite Hid. repeat split; auto. discriminate.
Qed.

(** X15.  A rename that returns was asked by the owner with a name that is
    not empty once trimmed, and has stored the trimmed name and nothing
    else: the document now found under the id has [fileName] equal to the
    trimmed name and the id, owner, blob URL, size, content type, upload
    date and status of before; the documents under the other ids, the share
    links and the blobs are untouched; and every resolution that returned
    before the rename returns after it with the same link and the same
    download URL. *)
Theorem updateFile_renames_only (env : Env) (infra : Infra) (w w1 : World)
    (fid uid name : string) (renamed : File.IFile) :
  FileService.updateFile env infra fid uid name w = (Ok renamed, w1) ->
  exists f,
    find (fun c => String.eqb (File.fileId c) fid) (files w) = Some f
    /\ File.userId f = uid
    /\ Js.trim name <> ""
    /\ renamed = {| File.fileId := File.fileId f;
                    File.userId := File.userId f;
                    File.fileName := Js.trim name;
                    File.blobUrl := File.blobUrl f;
                    File.fileSize := File.fileSize f;
                    File.contentType := File.contentType f;
                    File.uploadDate := File.uploadDate f;
                    File.status := File.status f |}
    /\ find (fun c => String.eqb (File.fileId c) fid) (files w1)
       = Some renamed
    /\ (forall id',
           id' <> fid ->
           find (fun c => String.eqb (File.fileId c) id') (files w1)
           = find (fun c => String.eqb (File.fileId c) id') (files w))
    /\ shareLinks w1 = shareLinks w
    /\ blobs w1 = blobs w
    /\ forall env2 id r w2,
         ShareLinkService.getFileByShareLink env2 id w = (Ok r, w2) ->
         exists r' w2',
           ShareLinkService.getFileByShareLink env2 id w1 = (Ok r', w2')
           /\ ShareLinkService.shareLink r' = ShareLinkService.shareLink r
           /\ ShareLinkService.downloadUrl r'
              = ShareLinkService.downloadUrl r.
Proof.
  intros Hrun.
  destruct (updateFile_ok_inv _ _ _ _ _ _ _ _ Hrun)
    as (f & Hf & Hu & Hname & Hr & ->).
  destruct (find_fileId _ _ _ Hf) as [Hid _].
  assert (Hrid : File.fileId renamed = fid) by (rewrite Hr; exact Hid).
  exists f. split; [exact Hf|]. split; [exact Hu|]. split; [exact Hname|].
  split; [exact Hr|].
  split; [now apply (find_file_replaceItem fid renamed f)|].
  split; [intros id' Hne; now apply find_file_replaceItem_other|].
  split; [reflexivity|]. split; [reflexivity|].
  intros env2 id r w2 Hres.
  destruct (ready_of_ok env2 w w2 id r Hres)
    as (token & (Hq & Hl & Hv & Hqf & Hf0 & Hs & Hm & Hrep) & Hurl).
  set (w1 := FileRepo.setFiles (FileRepo.replaceItem fid renamed (files w)) w).
  destruct (String.eqb_spec (fileId (ShareLinkService.shareLink r)) fid)
    as [Heq|Hne].
  - rewrite Heq, Hf in Hf0. injection Hf0 as Hf0.
    assert (Hready : ready env2 id w1 (ShareLinkService.shareLink r)
                       renamed token).
    { unfold ready. repeat split; auto.
      - rewrite Heq. now apply (find_file_replaceItem fid renamed f).
      - rewrite Hr. simpl. rewrite Hf0. exact Hs.
      - unfold minted in *. rewrite Hr. simpl. rewrite Hf0. exact Hm. }
    destruct (ready_step env2 w1 id _ _ token Hready) as [Hres1 _].
    do 2 eexists. split; [exact Hres1|]. split; [reflexivity|].
    simpl. rewrite Hurl. unfold sasUrlOf. rewrite Hr. simpl.
    now rewrite Hf0.
  - assert (Hready : ready env2 id w1 (ShareLinkService.shareLink r)
                       (ShareLinkService.file r) token).
    { unfold ready. repeat split; auto.
      simpl. now rewrite find_file_replaceItem_other. }
    destruct (ready_step env2 w1 id _ _ token Hready) as [Hres1 _].
    do 2 eexists. split; [exact Hres1|]. split; [reflexivity|].
    simpl. now rewrite Hurl.
Qed.

(** ** Uploading: what is let through *)




(** X17.  [uploadFile] writes the blob before the document and does not
    take it back: when the blob is written and its URL signed but the store
    rejects the file document, the call throws "Failed to upload file", no
    document is added, and the blob stays in the store. *)
Theorem uploadFile_leaves_blob_on_failure (env : Env) (infra : Infra)
    (data : FileService.UploadFileData) (w : World) (token : string) :
  let blobName :=
    FileService.userId data ++ "/" ++ uuidv4 env ++ "/"
    ++ FileService.fileName data in
  uploadThrows infra blobName = false ->
  sasToken env blobName (Some (now env + 24 * 365 * 3600000)) = Some token ->
  createFileThrows infra = true ->
  exists w',
    FileService.uploadFile env infra data w
    = (Throw "Failed to upload file", w')
    /\ files w' = files w
    /\ shareLinks w' = shareLinks w
    /\ In blobName (blobs w').
Proof.
  intros blobName Hu Ht Hc.
  unfold FileService.uploadFile, rethrowAs, bind.
  fold blobName.
  unfold BlobService.uploadBlob, rethrowAs, bind, BlobService.upload.
  rewrite Hu.
  unfold BlobService.generateBlobSASUrl, BlobService.expiresOn,
    BlobService.msPerHour.
  change (1000 * 60 * 60) with 3600000. rewrite Ht.
  unfold ret, FileRepo.createFile. rewrite Hc.
  eexists. split; [reflexivity|]. simpl. auto.
Qed.

(** ** The bearer token *)

Lemma extractTokenFromHeader_bearer_aux (authHeader : option string)
    (token : string) :
  Jwt.extractTokenFromHeader authHeader = Some token
  <-> authHeader = Some ("Bearer " ++ token)
      /\ Js.includes " " token = false.
Proof.
  split.
  - unfold Jwt.extractTokenFromHeader.
    destruct authHeader as [[|c header]|]; try discriminate.
    cbv zeta.
    pose proof (join_split " " (String c header)) as Hjoin.
    pose proof (split_parts_without " " (String c header)) as Hparts.
    destruct (Js.split " " (String c header)) as [|a [|b [|x rest]]];
      try discriminate.
    simpl. destruct (String.eqb_spec a "Bearer") as [->|]; [|discriminate].
    simpl. intros H. injection H as <-.
    unfold Js.join in Hjoin. simpl in Hjoin. rewrite <- Hjoin.
    split; [reflexivity|].
    inversion Hparts as [|? ? _ Hrest]; subst.
    now inversion Hrest.
  - intros [-> Hno]. unfold Jwt.extractTokenFromHeader.
    change ("Bearer " ++ token)
      with (String "B" (String "e" (String "a" (String "r" (String "e"
             (String "r" (String " " token))))))).
    cbv zeta.
    change (String "B" (String "e" (String "a" (String "r" (String "e"
             (String "r" (String " " token)))))))
      with ("Bearer" ++ String " " token).
    rewrite split_app, (split_without " " token Hno). reflexivity.
Qed.

(** X18.  [extractTokenFromHeader] returns a token exactly for a header
    made of "Bearer", one space and a token without any space (the empty
    token included); it returns null for every other header and for a
    missing one. *)
Theorem extractTokenFromHeader_bearer (authHeader : option string)
    (token : string) :
  Jwt.extractTokenFromHeader authHeader = Some token
  <-> authHeader = Some ("Bearer " ++ token)
      /\ Js.includes " " token = false.
Proof. exact (extractTokenFromHeader_bearer_aux authHeader token). Qed.

(** X19.  [authenticate] lets a request through exactly when its
    Authorization header is "Bearer", one space and a non-empty token
    without spaces that [jwt.verify] accepts; the identity left on the
    request is the one of the token's payload.  It throws the 401
    "Invalid or expired token" exactly when the header carries such a token
    and [jwt.verify] does not accept it, whatever its reason, and the 401
    "Authentication required" exactly when no token, or the empty token, is
    read off the header.  It throws nothing else. *)
Theorem authenticate_bearer_only (verify : string -> Jwt.Verdict)
    (authorization : option string) :
  let required :=
    {| RouteErrors.status := Http.Unauthorized;
       RouteErrors.message := "Authentication required" |} in
  let invalid :=
    {| RouteErrors.status := Http.Unauthorized;
       RouteErrors.message := "Invalid or expired token" |} in
  (forall payload,
      Auth.authenticate verify authorization = inr payload
      <-> exists token,
            authorization = Some ("Bearer " ++ token)
            /\ Js.includes " " token = false
            /\ token <> ""
            /\ verify token = Jwt.Verified payload)
  /\ (Auth.authenticate verify authorization = inl invalid
      <-> exists token,
            authorization = Some ("Bearer " ++ token)
            /\ Js.includes " " token = false
            /\ token <> ""
            /\ forall payload, verify token <> Jwt.Verified payload)
  /\ (Auth.authenticate verify authorization = inl required
      <-> Jwt.extractTokenFromHeader authorization = None
          \/ Jwt.extractTokenFromHeader authorization = Some "")
  /\ (forall e,
         Auth.authenticate verify authorization = inl e ->
         e = required \/ e = invalid).
Proof.
  intros required invalid. subst required invalid.
  split; [|split; [|split]].
  - intros payload. unfold Auth.authenticate. split.
    + destruct (Jwt.extractTokenFromHeader authorization) as [token|] eqn:He;
        [|discriminate].
      apply extractTokenFromHeader_bearer_aux in He.
      destruct He as [-> Hno].
      destruct token as [|c token]; [discriminate|].
      unfold Jwt.verifyToken.
      destruct (verify (String c token)) eqn:Hv; try discriminate.
      intros H. injection H as <-.
      exists (String c token). repeat split; auto. discriminate.
    + intros (token & -> & Hno & Hne & Hv).
      rewrite (proj2 (extractTokenFromHeader_bearer_aux _ token)) by auto.
      destruct token as [|c token]; [contradiction|].
      unfold Jwt.verifyToken. now rewrite Hv.
  - unfold Auth.authenticate. split.
    + destruct (Jwt.extractTokenFromHeader authorization) as [token|] eqn:He;
        [|discriminate].
      apply extractTokenFromHeader_bearer_aux in He.
      destruct He as [-> Hno].
      destruct token as [|c token]; [discriminate|].
      unfold Jwt.verifyToken.
      destruct (verify (String c token)) eqn:Hv; try discriminate;
        intros _; exists (String c token);
        (split; [reflexivity|]); (split; [exact Hno|]);
        (split; [discriminate|]);
        intros payload; rewrite Hv; discriminate.
    + intros (token & -> & Hno & Hne & Hv).
      rewrite (proj2 (extractTokenFromHeader_bearer_aux _ token)) by auto.
      destruct token as [|c token]; [contradiction|].
      unfold Jwt.verifyToken.
      destruct (verify (String c token)) as [payload| | |] eqn:Hv';
        [now elim (Hv payload)|reflexivity..].
  - unfold Auth.authenticate.
    destruct (Jwt.extractTokenFromHeader authorization) as [[|c token]|].
    + split; auto.
    + split.
      * destruct (Jwt.verifyToken verify (String c token)); discriminate.
      * intros [H|H]; discriminate.
    + split; auto.
  - intros e. unfold Auth.authenticate.
    destruct (Jwt.extractTokenFromHeader authorization) as [[|c token]|].
    + intros H. injection H as <-. auto.
    + destruct (Jwt.verifyToken verify (String c token)); [discriminate|].
      intros H. injection H as <-. auto.
    + intros H. injection H as <-. auto.
Qed.

(** ** The Cosmos DB connection string *)

Lemma second_split_eq (name value : string) :
  Js.includes "=" name = false ->
  Js.second (Js.split "=" (name ++ String "=" value))
  = Js.head (Js.split "=" value).
Proof.
  intros Hn. rewrite split_app, (split_without "=" name Hn).
  destruct (split_nonempty "=" value) as (hd & tl & ->). reflexivity.
Qed.

(** X20.  From a connection string "AccountEndpoint=e;AccountKey=k;" (no
    ";" in [e] or [k]) [getCosmosConfig] takes the endpoint and the key and
    ignores the COSMOS_DB_ENDPOINT and COSMOS_DB_KEY variables.  Each value
    is cut at its first "=": a value without "=" is returned whole, and a
    key [k1 ++ "=" ++ k2] comes back as [k1], its padding lost. *)
Theorem getCosmosConfig_connection_string (penv : ProcessEnv)
    (e k : string) :
  AZURE_COSMOS_CONNECTION_STRING penv
  = Some ("AccountEndpoint=" ++ e ++ ";AccountKey=" ++ k ++ ";") ->
  Js.includes ";" e = false ->
  Js.includes ";" k = false ->
  (exists config,
      CosmosService.getCosmosConfig penv = Ok config
      /\ CosmosService.endpoint config = Js.head (Js.split "=" e)
      /\ CosmosService.key config = Js.head (Js.split "=" k)
      /\ CosmosService.databaseName config
         = match COSMOS_DB_NAME penv with
           | Some name => Js.orString name "CloudPixDB"
           | None => "CloudPixDB"
           end)
  /\ (Js.includes "=" e = false -> Js.head (Js.split "=" e) = e)
  /\ (Js.includes "=" k = false -> Js.head (Js.split "=" k) = k)
  /\ (forall k1 k2,
         k = k1 ++ "=" ++ k2 ->
         Js.includes "=" k1 = false ->
         Js.head (Js.split "=" k) = k1).
Proof.
  intros Hconn He Hk.
  split; [|split; [|split]].
  - unfold CosmosService.getCosmosConfig. rewrite Hconn.
    change ("AccountEndpoint=" ++ e ++ ";AccountKey=" ++ k ++ ";")
      with (String "A" ("ccountEndpoint=" ++ e ++ ";AccountKey=" ++ k ++ ";")).
    cbn [CosmosService.truthy].
    change (String "A" ("ccountEndpoint=" ++ e ++ ";AccountKey=" ++ k ++ ";"))
      with ("AccountEndpoint=" ++ e ++ ";AccountKey=" ++ k ++ ";").
    cbv zeta.
    replace ("AccountEndpoint=" ++ e ++ ";AccountKey=" ++ k ++ ";")
      with (("AccountEndpoint=" ++ e)
            ++ String ";" (("AccountKey=" ++ k) ++ String ";" EmptyString))
      by (now rewrite !append_assoc).
    rewrite !split_app.
    rewrite (split_without ";" ("AccountEndpoint=" ++ e))
      by (rewrite includes_char_app, He; reflexivity).
    rewrite (split_without ";" ("AccountKey=" ++ k))
      by (rewrite includes_char_app, Hk; reflexivity).
    cbn [app Js.split find].
    unfold Js.startsWith.
    rewrite (prefix_app "AccountEndpoint=" e).
    replace (String.prefix "AccountKey=" ("AccountEndpoint=" ++ e))
      with false by reflexivity.
    rewrite (prefix_app "AccountKey=" k).
    eexists. split; [reflexivity|]. cbn [CosmosService.endpoint
      CosmosService.key CosmosService.databaseName].
    split; [exact (second_split_eq "AccountEndpoint" e eq_refl)|].
    split; [exact (second_split_eq "AccountKey" k eq_refl)|].
    destruct (COSMOS_DB_NAME penv) as [[|c name]|]; reflexivity.
  - intros H. now rewrite (split_without "=" e H).
  - intros H. now rewrite (split_without "=" k H).
  - intros k1 k2 -> H.
    change (k1 ++ "=" ++ k2) with (k1 ++ String "=" k2).
    now rewrite head_split_app.
Qed.

(** ** The listing of a user's share links *)

(** X21.  The route that lists a user's share links answers 200 with one
    entry per document whose [userId] is the caller's, in the order of the
    container, revoked and expired links included.  Each entry carries the
    share URL built from the link id and the five public fields of its
    file, or null for the file when its document is not found or the file
    query fails: a failing file lookup never fails the listing.  Only a
    failing link query does, with status 500. *)
Theorem getUserShareLinks_lists_all (env : Env) (penv : ProcessEnv)
    (w : World) (uid : string) :
  uid <> "" ->
  (queryLinks env = NoFault ->
   exists entries,
     ShareRoutes.getUserShareLinks env penv (Some uid) w
     = ({| Http.status := Http.Ok; Http.body := Http.Json entries |}, w)
     /\ map ShareRoutes.detailsLink entries
        = filter (fun c => String.eqb (userId c) uid) (shareLinks w)
     /\ forall entry,
          In entry entries ->
          let l := ShareRoutes.detailsLink entry in
          ShareRoutes.detailsShareUrl entry
          = ShareRoutes.frontendUrl penv ++ "/share/" ++ linkId l
          /\ (queryFiles env <> NoFault ->
              ShareRoutes.detailsFile entry = None)
          /\ (queryFiles env = NoFault ->
              ShareRoutes.detailsFile entry
              = match find (fun c => String.eqb (File.fileId c) (fileId l))
                           (files w) with
                | Some file =>
                    Some {| ShareRoutes.infoFileId := File.fileId file;
                            ShareRoutes.infoFileName := File.fileName file;
                            ShareRoutes.infoContentType :=
                              File.contentType file;
                            ShareRoutes.infoFileSize := File.fileSize file;
                            ShareRoutes.infoUploadDate :=
                              File.uploadDate file |}
                | None => None
                end))
  /\ (queryLinks env <> NoFault ->
      ShareRoutes.getUserShareLinks env penv (Some uid) w
      = ({| Http.status := Http.InternalServerError;
            Http.body := Http.Error "Failed to get share links for user" |},
         w)).
Proof.
  intros Hu. unfold ShareRoutes.getUserShareLinks.
  destruct uid as [|c uid]; [contradiction|].
  unfold ShareLinkService.getUserShareLinks,
    ShareLinkRepo.getShareLinksByUserId.
  split.
  - intros ->. eexists. split; [reflexivity|]. split.
    + rewrite map_map. simpl. apply map_id.
    + intros entry Hin. apply in_map_iff in Hin.
      destruct Hin as (l & <- & _). simpl.
      split; [reflexivity|].
      unfold FileRepo.getFileById. split.
      * intros Hq. now destruct (queryFiles env).
      * intros ->. now destruct (find _ (files w)).
  - intros Hq. now destruct (queryLinks env).
Qed.

(** * The further properties at work on the sample deployments *)

Lemma uploadFile_resolves_to_its_blob_sample :
  In "alice/9b2d/b.png" (blobs Demo.afterUpload)
  /\ In Demo.uploaded (files Demo.afterUpload)
  /\ ShareLinkService.blobNameOf (File.blobUrl Demo.uploaded)
     = "alice/9b2d/b.png".
Proof.
  pose proof (uploadFile_resolves_to_its_blob (Sample.env 1000) Demo.infra
                Demo.data Demo.empty Demo.afterUpload Demo.uploaded
                eq_refl eq_refl eq_refl eq_refl eq_refl eq_refl eq_refl
                eq_refl) as (Hb & Hf & _ & _ & _ & Hn & _).
  exact (conj Hb (conj Hf Hn)).
Defined.

Lemma deleteFile_keeps_uploaded_blob_sample :
  FileService.blobNameOf (File.blobUrl Demo.uploaded)
  = "alice/9b2d/b.png?sv=2024-11-04&sp=r&sig=c2ln"
  /\ fst (FileService.deleteFile (Sample.env 2000) "9b2d" "alice"
            Demo.afterUpload) = Ok tt
  /\ In "alice/9b2d/b.png"
        (blobs (snd (FileService.deleteFile (Sample.env 2000) "9b2d" "alice"
                       Demo.afterUpload))).
Proof.
  split; [reflexivity|]. split; [reflexivity|].
  refine (proj2 (deleteFile_keeps_uploaded_blob (Sample.env 1000) Demo.infra
                   Demo.data Demo.empty Demo.afterUpload Demo.uploaded
                   eq_refl eq_refl eq_refl eq_refl _)
            (Sample.env 2000) Demo.afterUpload "alice" eq_refl
            (or_introl eq_refl)).
  intros name [e|] token H; simpl in H; [|discriminate].
  now injection H as <-.
Defined.

Lemma getFileByShareLink_stops_early_sample :
  ShareRoutes.getFileByShareLink (Sample.env 36000000) "l0" Sample.world
  = ({| Http.status := Http.NotFound;
        Http.body := Http.Error "Share link not found" |}, Sample.world).
Proof.
  refine (proj2 (proj1 (getFileByShareLink_stops_early (Sample.env 36000000)
                          Sample.world "l0" eq_refl eq_refl _) eq_refl)).
  discriminate.
Defined.

Lemma getFileByShareLink_counts_once_sample :
  find (fun c => String.eqb (linkId c) "l1")
    (shareLinks (snd (ShareLinkService.getFileByShareLink
                        (Sample.env 36000000) "l1" Sample.world)))
  = Some {| linkId := "l1";
            fileId := "f1";
            userId := "alice";
            expiryDate := Some (100 * Sample.hour);
            accessCount := 1;
            createdDate := 2000;
            isRevoked := false;
            ttl := None |}.
Proof.
  exact (proj1 (proj2
    (getFileByShareLink_counts_once (Sample.env 36000000) Sample.world
       (snd (ShareLinkService.getFileByShareLink (Sample.env 36000000) "l1"
               Sample.world))
       "l1" Sample.resolved1 eq_refl))).
Defined.

Lemma resolutions_count_up_sample :
  exists wn,
    ShareLinkService.getFileByShareLink (Sample.env 36000000) "l1"
      (resolveTimes (Sample.env 36000000) "l1" 3 Sample.world)
    = (Ok {| ShareLinkService.file := Sample.photo;
             ShareLinkService.shareLink :=
               {| linkId := "l1";
                  fileId := "f1";
                  userId := "alice";
                  expiryDate := Some (100 * Sample.hour);
                  accessCount := 3;
                  createdDate := 2000;
                  isRevoked := false;
                  ttl := None |};
             ShareLinkService.downloadUrl :=
               ShareLinkService.downloadUrl Sample.resolved1 |}, wn).
Proof.
  exact (proj2
           (resolutions_count_up (Sample.env 36000000) Sample.world
              (snd (ShareLinkService.getFileByShareLink
                      (Sample.env 36000000) "l1" Sample.world))
              "l1" Sample.resolved1 3 eq_refl)).
Defined.

Lemma revoked_link_no_longer_resolves_sample :
  let w1 := snd (ShareLinkService.revokeShareLink (Sample.env 36000000) "l1"
                   "alice" Sample.world) in
  ShareRoutes.getFileByShareLink (Sample.env 36000001) "l1" w1
  = ({| Http.status := Http.Gone;
        Http.body := Http.Error "Share link is expired or revoked" |}, w1).
Proof.
  refine (proj2 (revoked_link_no_longer_resolves (Sample.env 36000000)
                   (Sample.env 36000001) Sample.world _ "l1" "alice"
                   eq_refl eq_refl _)).
  discriminate.
Defined.

Lemma getShareLinksByFileId_owner_only_sample :
  ShareLinkService.getShareLinksByFileId (Sample.env 36000000) "f1" "alice"
    Sample.world
  = (Ok [ Sample.link "l1" (100 * Sample.hour) false;
          Sample.link "l3" (9 * Sample.hour) false;
          Sample.link "l4" (50 * Sample.hour) false;
          Sample.link "l5" (10 * Sample.hour + 10000) false ],
     Sample.world)
  /\ ShareRoutes.getShareLinksByFileId (Sample.env 36000000) Demo.penv
       (Some "bob") "f1" Sample.world
     = ({| Http.status := Http.Unauthorized;
           Http.body := Http.Error "Unauthorized access to file" |},
        Sample.world).
Proof.
  split.
  - refine (proj1 (proj2 (proj2
      (getShareLinksByFileId_owner_only (Sample.env 36000000) Demo.penv
         Sample.world "f1" "alice" eq_refl eq_refl _ _))
      Sample.photo eq_refl eq_refl)); discriminate.
  - refine (proj1 (proj2
      (getShareLinksByFileId_owner_only (Sample.env 36000000) Demo.penv
         Sample.world "f1" "bob" eq_refl eq_refl _ _))
      Sample.photo eq_refl _); discriminate.
Defined.

Lemma createShareLink_positive_duration_sample :
  fst (ShareLinkService.createShareLink (Sample.envTick 36000000)
         (Sample.request (Some 7)) Sample.world3) = Ok Demo.weekLinkTick
  /\ ttl Demo.weekLinkTick = Some (7 * 86400 - 1)
  /\ (ShareLinkRepo.isShareLinkValid Demo.weekLinkTick
        (35999990 + 7 * 86400000) = true
      <-> 35999990 + 7 * 86400000 <= 35999990 + 7 * 86400000)
  /\ ShareLinkService.createShareLink (Sample.env 36000000)
       (Sample.request (Some 100000000)) Sample.world3
     = (Ok Demo.foreverLink, Demo.afterForever)
  /\ forall t, ShareLinkRepo.isShareLinkValid Demo.foreverLink t = true.
Proof.
  pose proof
    (createShareLink_positive_duration (Sample.envTick 36000000)
       Sample.world3
       (snd (ShareLinkService.createShareLink (Sample.envTick 36000000)
               (Sample.request (Some 7)) Sample.world3))
       "f1" "alice" 7 Demo.weekLinkTick eq_refl eq_refl)
    as (_ & _ & _ & _ & _ & _ & _ & _ & Hin & _).
  pose proof
    (createShareLink_positive_duration (Sample.env 36000000) Sample.world3
       Demo.afterForever "f1" "alice" 100000000 Demo.foreverLink
       eq_refl eq_refl)
    as (_ & _ & _ & _ & _ & _ & _ & _ & _ & Hfar).
  destruct (Hin ltac:(simpl; lia)) as (_ & Hvalid & _ & _ & Httl).
  destruct (Hfar ltac:(simpl; lia)) as (_ & _ & Hforever).
  split; [reflexivity|].
  split; [exact (Httl ltac:(simpl; lia))|].
  split; [exact (Hvalid _)|].
  split; [reflexivity|exact Hforever].
Defined.

Lemma createShareLink_refusals_sample :
  ShareRoutes.createShareLink (Sample.env 36000000) Demo.penv (Some "bob")
    "f1" (Some 7) Sample.world
  = ({| Http.status := Http.Unauthorized;
        Http.body := Http.Error "Unauthorized access to file" |},
     Sample.world).
Proof.
  refine (proj1 (proj2
    (createShareLink_refusals (Sample.env 36000000) Demo.penv Sample.world
       "f1" "bob" (Some 7) eq_refl _ _)) Sample.photo eq_refl _);
    discriminate.
Defined.

Lemma created_link_resolves_at_once_sample :
  exists w2,
    ShareLinkService.getFileByShareLink (Sample.env 36000001) "9b2d"
      (snd (ShareLinkService.createShareLink (Sample.env 36000000)
              (Sample.request (Some 7)) Sample.world3))
    = (Ok {| ShareLinkService.file := Sample.photo;
             ShareLinkService.shareLink := Demo.weekLink;
             ShareLinkService.downloadUrl :=
               ShareLinkService.downloadUrl Sample.resolved1 |}, w2)
    /\ find (fun c => String.eqb (linkId c) "9b2d") (shareLinks w2)
       = Some {| linkId := "9b2d";
                 fileId := "f1";
                 userId := "alice";
                 expiryDate := Some (36000000 + 7 * 86400000);
                 accessCount := 1;
                 createdDate := 36000000;
                 isRevoked := false;
                 ttl := Some (7 * 86400) |}.
Proof.
  exact (proj2 (proj2 (proj2 (proj2
    (created_link_resolves_at_once (Sample.env 36000000)
       (Sample.env 36000001) Sample.world3
       (snd (ShareLinkService.createShareLink (Sample.env 36000000)
               (Sample.request (Some 7)) Sample.world3))
       "f1" "alice" 7 Demo.weekLink Sample.photo
       "sv=2024-11-04&sp=r&sig=c2ln"
       eq_refl eq_refl ltac:(simpl; lia) eq_refl eq_refl eq_refl eq_refl
       eq_refl ltac:(simpl; lia) eq_refl))))).
Defined.

Lemma null_expiry_resolves_for_one_hour_sample :
  ShareLinkService.sasExpirationHours Demo.foreverLink
    (36000000 + 36500 * 86400000) = Some 1
  /\ exists w',
       ShareLinkService.getFileByShareLink
         (Sample.env (36000000 + 36500 * 86400000)) "9b2d" Demo.afterForever
       = (Ok {| ShareLinkService.file := Sample.photo;
                ShareLinkService.shareLink := Demo.foreverLink;
                ShareLinkService.downloadUrl :=
                  ShareLinkService.downloadUrl Sample.resolved1 |}, w').
Proof.
  exact (proj2
    (null_expiry_resolves_for_one_hour
       (Sample.env (36000000 + 36500 * 86400000)) Demo.afterForever "9b2d"
       Demo.foreverLink Sample.photo "sv=2024-11-04&sp=r&sig=c2ln"
       eq_refl eq_refl ltac:(simpl; lia) eq_refl eq_refl eq_refl eq_refl
       eq_refl eq_refl eq_refl)).
Defined.

Lemma sample_links_unique : NoDup (map linkId (shareLinks Sample.world)).
Proof.
  repeat constructor; simpl; intros H;
    repeat (destruct H as [H|H]; [discriminate H|]); exact H.
Defined.

Lemma sample_files_unique : NoDup (map File.fileId (files Sample.world)).
Proof. repeat constructor; simpl; tauto. Defined.

Lemma revoked_link_listings_sample :
  let w1 := snd (ShareLinkService.revokeShareLink (Sample.env 36000000) "l1"
                   "alice" Sample.world) in
  (forall x,
      In x [ Sample.link "l3" (9 * Sample.hour) false;
             Sample.link "l4" (50 * Sample.hour) false;
             Sample.link "l5" (10 * Sample.hour + 10000) false ] ->
      linkId x <> "l1")
  /\ exists l listed,
       find (fun c => String.eqb (linkId c) "l1") (shareLinks Sample.world)
       = Some l
       /\ ShareLinkService.getUserShareLinks (Sample.env 36000001) "alice" w1
          = (Ok listed, w1)
       /\ In (ShareLinkRepo.setRevoked l) listed.
Proof.
  cbv zeta.
  pose proof (revoked_link_listings (Sample.env 36000000)
                (Sample.env 36000001) Sample.world _ "l1" "alice"
                eq_refl sample_links_unique) as [Hfile Huser].
  split.
  - exact (Hfile "f1" "alice" _ _ eq_refl).
  - exact (Huser eq_refl).
Defined.

Lemma soft_deleted_file_sample :
  let w1 := snd (FileRepo.deleteFile (Sample.env 36000000) Demo.infra "f1"
                   Sample.world) in
  exists f,
    find (fun c => String.eqb (File.fileId c) "f1") (files Sample.world)
    = Some f
    /\ shareLinks w1 = shareLinks Sample.world
    /\ FileService.getFileById (Sample.env 36000001) "f1" (File.userId f) w1
       = (Ok (FileRepo.setStatus File.deleted f), w1)
    /\ ~ resolvable (Sample.env 36000001) "l1" w1.
Proof.
  cbv zeta.
  destruct (soft_deleted_file (Sample.env 36000000) Demo.infra Sample.world
              _ "f1" eq_refl sample_files_unique)
    as (f & Hf & Hl & Hread & _ & _ & Hres).
  exists f. split; [exact Hf|]. split; [exact Hl|].
  split; [exact (Hread (Sample.env 36000001) eq_refl)|].
  exact (Hres (Sample.env 36000001) "l1"
           (Sample.link "l1" (100 * Sample.hour) false) eq_refl eq_refl).
Defined.

Lemma updateFile_refusals_sample :
  FileService.updateFile (Sample.env 36000000) Demo.infra "f1" "alice" "   "
    Sample.world
  = (Throw "File name cannot be empty", Sample.world).
Proof.
  exact (proj2 (proj2
    (updateFile_refusals (Sample.env 36000000) Demo.infra Sample.world
       "f1" "alice" "   " eq_refl)) Sample.photo eq_refl eq_refl eq_refl).
Defined.

Lemma updateFile_renames_only_sample :
  let w1 := snd (FileService.updateFile (Sample.env 36000000) Demo.infra
                   "f1" "alice" "  b.png " Sample.world) in
  find (fun c => String.eqb (File.fileId c) "f1") (files w1)
  = Some {| File.fileId := "f1";
            File.userId := "alice";
            File.fileName := "b.png";
            File.blobUrl := File.blobUrl Sample.photo;
            File.fileSize := 5242880;
            File.contentType := "image/png";
            File.uploadDate := 1000;
            File.status := File.active |}
  /\ exists r' w2',
       ShareLinkService.getFileByShareLink (Sample.env 36000000) "l1" w1
       = (Ok r', w2')
       /\ ShareLinkService.downloadUrl r'
          = ShareLinkService.downloadUrl Sample.resolved1.
Proof.
  cbv zeta.
  destruct (updateFile_renames_only (Sample.env 36000000) Demo.infra
              Sample.world _ "f1" "alice" "  b.png "
              (FileService.setFileName "b.png" Sample.photo) eq_refl)
    as (f & _ & _ & _ & _ & Hfind & _ & _ & _ & Hres).
  split; [exact Hfind|].
  destruct (Hres (Sample.env 36000000) "l1" Sample.resolved1 _ eq_refl)
    as (r' & w2' & Hrun & _ & Hurl).
  now exists r', w2'.
Defined.


Lemma authenticate_bearer_only_sample :
  Auth.authenticate Demo.verify (Some "Bearer old")
  = inl {| RouteErrors.status := Http.Unauthorized;
           RouteErrors.message := "Invalid or expired token" |}
  /\ Auth.authenticate Demo.verify (Some "Bearer good")
     = inr {| Jwt.userId := "alice"; Jwt.email := "alice@example.com" |}
  /\ Auth.authenticate Demo.verify (Some "good")
     = inl {| RouteErrors.status := Http.Unauthorized;
              RouteErrors.message := "Authentication required" |}.
Proof.
  split; [|split].
  - apply (proj2 (proj1 (proj2
             (authenticate_bearer_only Demo.verify (Some "Bearer old"))))).
    exists "old". repeat split; discriminate.
  - apply (proj2 (proj1
             (authenticate_bearer_only Demo.verify (Some "Bearer good")) _)).
    exists "good". repeat split. discriminate.
  - apply (proj2 (proj1 (proj2 (proj2
             (authenticate_bearer_only Demo.verify (Some "good")))))).
    now left.
Defined.

Lemma uploadFile_leaves_blob_on_failure_sample :
  exists w',
    FileService.uploadFile (Sample.env 1000) Demo.infraNoDocument Demo.data
      Demo.empty = (Throw "Failed to upload file", w')
    /\ files w' = []
    /\ shareLinks w' = []
    /\ In "alice/9b2d/b.png" (blobs w').
Proof.
  exact (uploadFile_leaves_blob_on_failure (Sample.env 1000)
           Demo.infraNoDocument Demo.data Demo.empty
           "sv=2024-11-04&sp=r&sig=c2ln" eq_refl eq_refl eq_refl).
Defined.

Lemma getCosmosConfig_connection_string_sample :
  CosmosService.getCosmosConfig Demo.penv
  = Ok {| CosmosService.endpoint := "https://cloudpix.documents.azure.com:443/";
          CosmosService.key := "c2VjcmV0a2V5";
          CosmosService.databaseName := "CloudPixDB" |}
  /\ Js.head (Js.split "=" "c2VjcmV0a2V5==") = "c2VjcmV0a2V5".
Proof.
  split; [reflexivity|].
  exact (proj2 (proj2 (proj2
    (getCosmosConfig_connection_string Demo.penv
       "https://cloudpix.documents.azure.com:443/" "c2VjcmV0a2V5=="
       eq_refl eq_refl eq_refl))) "c2VjcmV0a2V5" "=" eq_refl eq_refl).
Defined.

Lemma getUserShareLinks_lists_all_sample :
  exists entries,
    ShareRoutes.getUserShareLinks (Sample.env 36000000) Demo.penv
      (Some "alice") Sample.world
    = ({| Http.status := Http.Ok; Http.body := Http.Json entries |},
       Sample.world)
    /\ map ShareRoutes.detailsLink entries = shareLinks Sample.world.
Proof.
  destruct (proj1 (getUserShareLinks_lists_all (Sample.env 36000000)
                     Demo.penv Sample.world "alice" ltac:(discriminate))
              eq_refl) as (entries & Hrun & Hlinks & _).
  exists entries. split; [exact Hrun|exact Hlinks].
Defined.

(** ** Who may read and delete a file *)

Lemma route_deleteFile_run (env : Env) (w : World) (id uid : string) :
  uid <> "" ->
  id <> "" ->
  FileRoutes.deleteFile env (Some uid) id w
  = match FileService.deleteFile env id uid w with
    | (Ok _, w') =>
        ({| Http.status := Http.Ok;
            Http.body := Http.Json "File deleted successfully" |}, w')
    | (Throw message, w') =>
        ({| Http.status := FileRoutes.deleteErrorStatus message;
            Http.body :=
              Http.Error (Js.orString message "Failed to delete file") |},
         w')
    end.
Proof.
  intros Hu Hid. unfold FileRoutes.deleteFile.
  destruct uid; [contradiction|]. destruct id; [contradiction|reflexivity].
Qed.

(** X22.  Nothing is deleted for a caller who does not own the file: with
    the file query answered, [deleteFile] on the file of another user is
    answered 401 "Unauthorized access to file" and on an id without
    document 404 "File not found", and in both cases the blobs, the share
    links and the file documents are exactly as before. *)
Theorem deleteFile_refusals (env : Env) (w : World) (fid uid : string) :
  queryFiles env = NoFault ->
  uid <> "" ->
  fid <> "" ->
  (find (fun c => String.eqb (File.fileId c) fid) (files w) = None ->
   FileRoutes.deleteFile env (Some uid) fid w
   = ({| Http.status := Http.NotFound;
         Http.body := Http.Error "File not found" |}, w))
  /\ (forall f,
         find (fun c => String.eqb (File.fileId c) fid) (files w) = Some f ->
         File.userId f <> uid ->
         FileRoutes.deleteFile env (Some uid) fid w
         = ({| Http.status := Http.Unauthorized;
               Http.body := Http.Error "Unauthorized access to file" |}, w)).
Proof.
  intros Hq Hu Hf.
  rewrite (route_deleteFile_run env w fid uid Hu Hf).
  unfold FileService.deleteFile, bind, FileRepo.getFileById.
  rewrite Hq. split.
  - now intros ->.
  - intros f -> Hne.
    now destruct (String.eqb_spec (File.userId f) uid).
Qed.

Lemma deleteFile_refusals_sample :
  FileRoutes.deleteFile (Sample.env 36000000) (Some "bob") "f1" Sample.world
  = ({| Http.status := Http.Unauthorized;
        Http.body := Http.Error "Unauthorized access to file" |},
     Sample.world).
Proof.
  refine (proj2 (deleteFile_refusals (Sample.env 36000000) Sample.world
                   "f1" "bob" eq_refl _ _) Sample.photo eq_refl _);
    discriminate.
Defined.

(** X23.  [getFileById] hands a file document to its owner only, whatever
    the status of the document, and never changes the store.  The route
    answers 200 with the document to the owner, 404 when there is no
    document, and 401 in every other case: to another user, and also when
    the file query fails. *)
Theorem getFileById_owner_only (env : Env) (w : World) (fid uid : string) :
  uid <> "" ->
  (forall f w',
      FileService.getFileById env fid uid w = (Ok f, w') ->
      w' = w
      /\ find (fun c => String.eqb (File.fileId c) fid) (files w) = Some f
      /\ File.userId f = uid)
  /\ (queryFiles env = NoFault ->
      forall f,
        find (fun c => String.eqb (File.fileId c) fid) (files w) = Some f ->
        FileRoutes.getFileById env (Some uid) fid w
        = if String.eqb (File.userId f) uid
          then ({| Http.status := Http.Ok; Http.body := Http.Json f |}, w)
          else ({| Http.status := Http.Unauthorized;
                   Http.body := Http.Error "Unauthorized access to file" |},
                w))
  /\ (queryFiles env = NoFault ->
      find (fun c => String.eqb (File.fileId c) fid) (files w) = None ->
      FileRoutes.getFileById env (Some uid) fid w
      = ({| Http.status := Http.NotFound;
            Http.body := Http.Error "File not found" |}, w))
  /\ (queryFiles env = OtherError ->
      FileRoutes.getFileById env (Some uid) fid w
      = ({| Http.status := Http.Unauthorized;
            Http.body := Http.Error "Failed to get file" |}, w)).
Proof.
  intros Hu. unfold FileRoutes.getFileById.
  destruct uid as [|c uid]; [contradiction|].
  unfold FileService.getFileById, bind, FileRepo.getFileById.
  split; [|split; [|split]].
  - intros f w'.
    destruct (queryFiles env); try discriminate.
    destruct (find _ (files w)) as [f0|]; [|discriminate].
    destruct (String.eqb_spec (File.userId f0) (String c uid));
      [|discriminate].
    unfold ret. intros H. injection H as <- <-. auto.
  - intros -> f ->.
    now destruct (String.eqb (File.userId f) (String c uid)).
  - now intros -> ->.
  - now intros ->.
Qed.

Lemma getFileById_owner_only_sample :
  FileRoutes.getFileById (Sample.env 36000000) (Some "bob") "f1"
    Sample.world
  = ({| Http.status := Http.Unauthorized;
        Http.body := Http.Error "Unauthorized access to file" |},
     Sample.world)
  /\ FileRoutes.getFileById (Sample.env 36000000) (Some "alice") "f1"
       Sample.world
     = ({| Http.status := Http.Ok; Http.body := Http.Json Sample.photo |},
        Sample.world).
Proof.
  split.
  - exact (proj1 (proj2
      (getFileById_owner_only (Sample.env 36000000) Sample.world "f1" "bob"
         ltac:(discriminate))) eq_refl Sample.photo eq_refl).
  - exact (proj1 (proj2
      (getFileById_owner_only (Sample.env 36000000) Sample.world "f1"
         "alice" ltac:(discriminate))) eq_refl Sample.photo eq_refl).
Defined.
